(** * Vortex panel: instance routes (startup, rename, reinstall, edit)

    A shallow embedding of the route handlers of
    [routes/Instance/Startup.js], of the reinstall route and of the admin
    edit route, together with the helpers that keep the three stored views
    of an instance (its own record, the owner's list, the global list) in
    step.

    Conventions.
    - A JavaScript string is a [string]; one [ascii] stands for one code
      unit, so [String.length] is the [.length] of the source, and the
      strings of the model are those whose code units are below 256.
    - A number is a whole number, a [Z], so [isNaN] has nothing to do;
      [parseInt], which prints its argument and reads the digits back, is
      [Js.parseInt].  A field that the code tests for truthiness is falsy
      exactly at [0] (numbers), at the empty string (strings) and at
      [false].  A request
      parameter that may be missing is a string or number too: missing and
      falsy are the same to every test the handlers make, and the [typeof]
      tests are settled by the types.
    - A field whose absence the code observes ([suspended], [Node],
      [ContainerId], [imageData], ...) is an [option].  [Env] is [Some] of
      the array it holds and [None] when it holds no array (the property is
      missing, or is the empty object the reinstall route writes for a
      missing one).
    - Handlers run in a small state-and-exception monad over the store and
      the list of observable effects (agent calls, console errors, audit
      entries). *)

From Stdlib Require Import String Ascii ZArith List Bool Lia.
From stdpp Require Import base option list gmap strings pretty.
Import ListNotations.

Local Open Scope string_scope.
Local Open Scope Z_scope.

(** ** Strings as the source uses them *)

Module Js.

(** [s.split(c)] for a one-character separator: never empty, an empty
    segment for each adjacent pair of separators and at both ends. *)
Fixpoint split (c : ascii) (s : string) : list string :=
  match s with
  | EmptyString => [EmptyString]
  | String a rest =>
      if Ascii.eqb a c then EmptyString :: split c rest
      else match split c rest with
           | [] => [String a EmptyString]
           | seg :: segs => String a seg :: segs
           end
  end.

(** White space and line ends removed by [trim]: tab, line feed, vertical
    tab, form feed, carriage return, space and the no-break space (code
    unit 160); the others lie above 255. *)
Definition is_space (a : ascii) : bool :=
  let n := nat_of_ascii a in
  (Nat.eqb n 32 || (Nat.leb 9 n && Nat.leb n 13) || Nat.eqb n 160)%bool.

Fixpoint trim_start (s : string) : string :=
  match s with
  | EmptyString => EmptyString
  | String a rest => if is_space a then trim_start rest else s
  end.

(** Drops the trailing white space: a space is kept only when something
    that is not white space follows it. *)
Fixpoint trim_end (s : string) : string :=
  match s with
  | EmptyString => EmptyString
  | String a rest =>
      match trim_end rest with
      | EmptyString => if is_space a then EmptyString else String a EmptyString
      | kept => String a kept
      end
  end.

Definition trim (s : string) : string := trim_end (trim_start s).

(** Truthiness of a string, of a number and of an optional value. *)
Definition truthy_str (s : string) : bool := negb (String.eqb s "").
Definition truthy_num (n : Z) : bool := negb (n =? 0).
Definition truthy_opt {A} (t : A -> bool) (o : option A) : bool :=
  match o with Some a => t a | None => false end.

(** [a || b] on strings and on numbers. *)
Definition or_str (a b : string) : string := if truthy_str a then a else b.
Definition or_num (a b : Z) : Z := if truthy_num a then a else b.

(** The double a whole number [z >= 0] is rounded to: 53 bits, a tie goes
    to the even one.  Up to 2^53 it is [z] itself. *)
Definition nearest_double (z : Z) : Z :=
  let e := Z.log2 z - 52 in
  if e <=? 0 then z else
  let u := 2 ^ e in
  let q := z / u in
  let r := z mod u in
  if 2 * r <? u then q * u
  else if u <? 2 * r then (q + 1) * u
  else if Z.even q then q * u else (q + 1) * u.

(** The number of decimal digits of [z > 0]. *)
Fixpoint digits_from (fuel : nat) (z : Z) : Z :=
  match fuel with
  | O => 0
  | S fuel => if z <? 10 then 1 else 1 + digits_from fuel (z / 10)
  end.
Definition decimal_digits (z : Z) : Z :=
  digits_from (S (Z.to_nat (Z.log2 z))) z.

(** The decimal that [String(x)] spells for a whole double [x > 0]: the
    one with the fewest digits [k] that still reads back as [x], and among
    those the one nearest to [x].  With [k] digits only the two multiples
    of [10 ^ (digits - k)] around [x] can read back as [x]. *)
Fixpoint printed_from (fuel : nat) (k : Z) (x : Z) : Z :=
  match fuel with
  | O => x
  | S fuel =>
      let m := 10 ^ (decimal_digits x - k) in
      let lo := x / m * m in
      let hi := lo + m in
      let lo_reads := nearest_double lo =? x in
      let hi_reads := nearest_double hi =? x in
      if (lo_reads && hi_reads)%bool then
        if x - lo <? hi - x then lo
        else if hi - x <? x - lo then hi
        else if Z.even (x / m) then lo else hi
      else if lo_reads then lo
      else if hi_reads then hi
      else printed_from fuel (k + 1) x
  end.
Definition printed (x : Z) : Z :=
  printed_from (Z.to_nat (decimal_digits x)) 1 x.

(** The leading decimal digit of [z > 0]. *)
Definition first_digit (z : Z) : Z := z / 10 ^ (decimal_digits z - 1).

(** [parseInt(n)] of a whole number.  The number is printed and the
    leading digits of the text are read back.  Below 1e21 the text is the
    number in digits, and reading it gives the number.  From 1e21 on the
    text is in exponent notation (as in 1.5e+21), the reading stops at the
    dot or at the e, and what is read is the first digit alone. *)
Definition parseInt (n : Z) : Z :=
  if Z.abs n <? 10 ^ 21 then n
  else Z.sgn n * first_digit (printed (Z.abs n)).

(** [xs.findIndex(p)], with [None] for the source's [-1]. *)
Fixpoint findIndex {A} (p : A -> bool) (xs : list A) : option nat :=
  match xs with
  | [] => None
  | x :: rest => if p x then Some O else S <$> findIndex p rest
  end.

End Js.

Arguments Js.parseInt : simpl never.

(** ** Data model *)

Record NodeT := mkNode {
  node_id : string;
  address : string;
  port : Z;
  apiKey : string
}.

Record ImageDataT := mkImageData {
  img_Image : string;
  img_Scripts : option string;
  img_AltImages : list string
}.

Record Instance := mkInstance {
  Name : string;
  Id : string;
  Node : option NodeT;
  User : string;
  ContainerId : option string;
  VolumeId : option string;
  Memory : Z;
  Cpu : Z;
  Ports : string;
  Primary : bool;
  Image : string;
  AltImages : list string;
  imageData : option ImageDataT;
  Env : option (list string);
  suspended : option bool;
  currentimage : option string;
  createdAt : option string;
  updatedAt : option string
}.

#[global] Instance NodeT_eq_dec : EqDecision NodeT.
Proof. solve_decision. Defined.
#[global] Instance ImageDataT_eq_dec : EqDecision ImageDataT.
Proof. solve_decision. Defined.
#[global] Instance Instance_eq_dec : EqDecision Instance.
Proof. solve_decision. Defined.

(** [{ ...i, Name: n }], [{ ...i, Env: e }] and [i.suspended = b]. *)
Definition set_Name (n : string) (i : Instance) : Instance :=
  mkInstance n (Id i) (Node i) (User i) (ContainerId i) (VolumeId i)
    (Memory i) (Cpu i) (Ports i) (Primary i) (Image i) (AltImages i)
    (imageData i) (Env i) (suspended i) (currentimage i) (createdAt i)
    (updatedAt i).

Definition set_Env (e : list string) (i : Instance) : Instance :=
  mkInstance (Name i) (Id i) (Node i) (User i) (ContainerId i) (VolumeId i)
    (Memory i) (Cpu i) (Ports i) (Primary i) (Image i) (AltImages i)
    (imageData i) (Some e) (suspended i) (currentimage i) (createdAt i)
    (updatedAt i).

Definition set_suspended (b : bool) (i : Instance) : Instance :=
  mkInstance (Name i) (Id i) (Node i) (User i) (ContainerId i) (VolumeId i)
    (Memory i) (Cpu i) (Ports i) (Primary i) (Image i) (AltImages i)
    (imageData i) (Env i) (Some b) (currentimage i) (createdAt i)
    (updatedAt i).

(** [{ ...a, ...b }]: every property [b] has wins, the others stay. *)
Definition or_else {A} (b a : option A) : option A :=
  match b with Some _ => b | None => a end.

Definition spread (a b : Instance) : Instance :=
  mkInstance (Name b) (Id b) (or_else (Node b) (Node a)) (User b)
    (or_else (ContainerId b) (ContainerId a))
    (or_else (VolumeId b) (VolumeId a))
    (Memory b) (Cpu b) (Ports b) (Primary b) (Image b) (AltImages b)
    (or_else (imageData b) (imageData a))
    (or_else (Env b) (Env a))
    (or_else (suspended b) (suspended a))
    (or_else (currentimage b) (currentimage a))
    (or_else (createdAt b) (createdAt a))
    (or_else (updatedAt b) (updatedAt a)).

(** ** The key-value store *)

(** Modelled from the spec: the store itself ([handlers/db.js]) is an
    external collaborator with get, set and delete by string key and no
    transactions.  The persisted keys are [{id}_instance], [{userId}_instances],
    [instances], [{nodeId}_node] and [images]; the five families are kept as
    five typed components, and [key_string_inj] below shows that the spelling
    of the keys never lets two of them collide. *)
Record Db := mkDb {
  instance_of : gmap string Instance;
  instances_of_user : gmap string (list Instance);
  instances : option (list Instance);
  node_of : gmap string NodeT;
  images : option (list ImageDataT)
}.

(** The keys the routes use, and how they are spelled. *)
Inductive Key :=
| KInstance (id : string)
| KUserInstances (userId : string)
| KInstances
| KNode (nodeId : string)
| KImages.

Definition key_string (k : Key) : string :=
  match k with
  | KInstance id => String.append id "_instance"
  | KUserInstances userId => String.append userId "_instances"
  | KInstances => "instances"
  | KNode nodeId => String.append nodeId "_node"
  | KImages => "images"
  end.

(** ** Observable effects, agent traffic, responses *)

Record PortBinding := mkPortBinding { HostPort : string }.

Record DeployData := mkDeployData {
  d_Name : string;
  d_Id : string;
  d_Image : string;
  d_Env : option (list string);
  d_Scripts : option string;
  d_Memory : option Z;
  d_Cpu : option Z;
  ExposedPorts : gmap string unit;
  PortBindings : gmap string (list PortBinding);
  d_AltImages : list string;
  d_imageData : option ImageDataT
}.

Inductive AgentBody :=
| DeployBody (d : DeployData)
| EditBody (image : string) (memory cpu : Z) (volumeId : option string)
| RenameBody (newName : string).

Record AgentRequest := mkAgentRequest {
  rq_method : string;
  rq_url : string;
  rq_password : string;
  rq_request_id : option string;
  rq_timeout : option Z;
  rq_data : AgentBody
}.

Record AgentData := mkAgentData {
  containerId : option string;
  newContainerId : option string
}.

Inductive Exn :=
| TypeError (message : string)
| Error (message : string)
| AxiosError (status : option Z) (message : string).

Definition exn_message (e : Exn) : string :=
  match e with
  | TypeError m | Error m | AxiosError _ m => m
  end.

(** What [await axios(request)] gives its caller: a response that passed
    the request's status validation, or a thrown error. *)
Inductive AgentReply :=
| Replied (status : Z) (data : option AgentData)
| Failed (e : Exn).

Inductive Event :=
| EAgent (request : AgentRequest)
| EConsoleError (message : string) (e : Exn)
| EAudit (userId : string) (action : string).

Inductive Body :=
| ErrorBody (error : string) (details : option string)
| MessageBody (message : string)
| TextBody (text : string)
| SuccessBody
| EditedBody (oldContainerId newContainerId : string)
             (image memory cpu : string).

Inductive Response :=
| Redirect (url : string)
| Reply (status : Z) (body : Body)
| Render (view : string) (instance : Instance).

Record UserT := mkUser { userId : string; username : string; admin : bool }.

(** The collaborators a handler calls but does not define. *)
Record Ext := mkExt {
  isUserAuthorizedForContainer : Db -> string -> string -> bool;
  axios : AgentRequest -> AgentReply;
  uuid : string;
  now : string
}.

(** ** The handler monad: store and trace threaded, exceptions on the left *)

Record World := mkWorld { w_db : Db; w_trace : list Event }.

Definition M (A : Type) : Type := World -> (Exn + A) * World.

Definition ret {A} (a : A) : M A := fun w => (inr a, w).

Definition bind {A B} (m : M A) (k : A -> M B) : M B :=
  fun w => match m w with
           | (inl e, w') => (inl e, w')
           | (inr a, w') => k a w'
           end.

Definition throw {A} (e : Exn) : M A := fun w => (inl e, w).

Definition try_catch {A} (body : M A) (handler : Exn -> M A) : M A :=
  fun w => match body w with
           | (inl e, w') => handler e w'
           | (inr a, w') => (inr a, w')
           end.

Notation "'let!' x ':=' m 'in' k" := (bind m (fun x => k))
  (at level 10, x name, m at level 100, k at level 200).

(** The store answers every read and takes every write: [db.get] and
    [db.set] do not throw in the model, so a run never stops between two
    writes for the store's sake. *)
Definition read_db : M Db := fun w => (inr (w_db w), w).
Definition write_db (f : Db -> Db) : M unit :=
  fun w => (inr tt, mkWorld (f (w_db w)) (w_trace w)).
Definition emit (ev : Event) : M unit :=
  fun w => (inr tt, mkWorld (w_db w) (w_trace w ++ [ev])%list).

(** [db.get] and [db.set] at each family of keys, [db.delete] at an
    instance key. *)
Definition get_instance (id : string) : M (option Instance) :=
  let! db := read_db in ret (instance_of db !! id).
Definition set_instance (id : string) (i : Instance) : M unit :=
  write_db (fun db => mkDb (<[id := i]> (instance_of db)) (instances_of_user db)
                        (instances db) (node_of db) (images db)).
Definition del_instance (id : string) : M unit :=
  write_db (fun db => mkDb (delete id (instance_of db)) (instances_of_user db)
                        (instances db) (node_of db) (images db)).
Definition get_user_instances (userId : string) : M (option (list Instance)) :=
  let! db := read_db in ret (instances_of_user db !! userId).
Definition set_user_instances (userId : string) (l : list Instance) : M unit :=
  write_db (fun db => mkDb (instance_of db) (<[userId := l]> (instances_of_user db))
                        (instances db) (node_of db) (images db)).
Definition get_instances : M (option (list Instance)) :=
  let! db := read_db in ret (instances db).
Definition set_instances (l : list Instance) : M unit :=
  write_db (fun db => mkDb (instance_of db) (instances_of_user db)
                        (Some l) (node_of db) (images db)).
Definition get_node (nodeId : string) : M (option NodeT) :=
  let! db := read_db in ret (node_of db !! nodeId).
Definition get_images : M (option (list ImageDataT)) :=
  let! db := read_db in ret (images db).

Definition console_error (message : string) (e : Exn) : M unit :=
  emit (EConsoleError message e).
Definition logAudit (userId action : string) : M unit :=
  emit (EAudit userId action).

(** Runs a handler from a world to its response and the world it leaves. *)
Definition run (h : M Response) (w : World) : Response * World :=
  match h w with
  | (inr r, w') => (r, w')
  | (inl e, w') => (Reply 500 (ErrorBody "Unhandled" (Some (exn_message e))), w')
  end.

(** The two collaborators as monadic calls. *)
Definition authorized (ext : Ext) (userId instanceId : string) : M bool :=
  let! db := read_db in ret (isUserAuthorizedForContainer ext db userId instanceId).

Definition call_axios (ext : Ext) (request : AgentRequest)
  : M (Z * option AgentData) :=
  let! _ := emit (EAgent request) in
  match axios ext request with
  | Replied status data => ret (status, data)
  | Failed e => throw e
  end.

(** [`${containerId}`] of a possibly missing container id. *)
Definition show_opt (o : option string) : string := default "undefined" o.

Definition agent_url (node : NodeT) (operation : string) (cid : option string)
  : string :=
  String.append "http://"
    (String.append (address node)
       (String.append ":"
          (String.append (pretty (port node))
             (String.append "/instances/"
                (String.append operation
                   (String.append "/" (show_opt cid))))))).

(** ** [routes/Instance/Startup.js] *)

Module Startup.

(** One step of the [forEach] over [ports.split(",")]. *)
Definition add_port_mapping
    (acc : gmap string unit * gmap string (list PortBinding))
    (portMapping : string)
  : gmap string unit * gmap string (list PortBinding) :=
  let parts := Js.split ":" portMapping in
  match parts !! 0%nat, parts !! 1%nat with
  | Some containerPort, Some hostPort =>
      if (Js.truthy_str containerPort && Js.truthy_str hostPort)%bool then
        let key := String.append containerPort "/tcp" in
        (<[key := tt]> (fst acc), <[key := [mkPortBinding hostPort]]> (snd acc))
      else acc
  | _, _ => acc
  end.

Definition port_maps (ports : string)
  : gmap string unit * gmap string (list PortBinding) :=
  if Js.truthy_str ports
  then fold_left add_port_mapping (Js.split "," ports) (∅, ∅)
  else (∅, ∅).

Definition prepareRequestData (image : string) (memory cpu : Z)
    (ports name : string) (node : NodeT) (id : string)
    (containerId : option string) (Env : option (list string))
  : M AgentRequest :=
  let! stored := get_images in
  let rawImages := default [] stored in
  let imageData := List.find (fun i => String.eqb (img_Image i) image) rawImages in
  let maps := port_maps ports in
  ret (mkAgentRequest "post" (agent_url node "redeploy" containerId)
         (apiKey node) None None
         (DeployBody
            (mkDeployData name id image (Some (default [] Env))
               (imageData ≫= img_Scripts)
               (if Js.truthy_num memory then Some (Js.parseInt memory)
                else None)
               (if Js.truthy_num cpu then Some (Js.parseInt cpu) else None)
               (fst maps) (snd maps)
               (from_option img_AltImages [] imageData)
               None))).

Definition updateInstanceInUserAndGlobalArrays (instanceData : Instance)
  : M unit :=
  let! stored := get_user_instances (User instanceData) in
  let userInstances := default [] stored in
  let userInstances :=
    filter (fun instance => Id instance ≠ Id instanceData) userInstances in
  let userInstances := (userInstances ++ [instanceData])%list in
  let! _ := set_user_instances (User instanceData) userInstances in
  let! stored := get_instances in
  let globalInstances := default [] stored in
  let globalInstances :=
    filter (fun instance => Id instance ≠ Id instanceData) globalInstances in
  let globalInstances := (globalInstances ++ [instanceData])%list in
  set_instances globalInstances.

Definition updateDatabaseWithNewInstance (responseData : AgentData)
    (userId : string) (node : NodeT) (image : string) (memory cpu : Z)
    (ports : string) (primary : bool) (name id currentimage : string)
    (imagedata : ImageDataT) (Env : option (list string))
  : M unit :=
  let! stored := get_images in
  let rawImages := default [] stored in
  let imageData := List.find (fun i => String.eqb (img_Image i) image) rawImages in
  let altImages := from_option img_AltImages [] imageData in
  let instanceData :=
    mkInstance name id (Some node) userId (containerId responseData) (Some id)
      (Js.or_num (Js.parseInt memory) 0) (Js.or_num (Js.parseInt cpu) 0)
      ports primary image altImages (Some imagedata)
      (Some (default [] Env)) (Some false) (Some currentimage) None None in
  let! _ := updateInstanceInUserAndGlobalArrays instanceData in
  set_instance id instanceData.

(** The block shared by three handlers: a record without [suspended] gets
    [suspended = false] and is written back at once. *)
Definition migrate_suspended (id : string) (instance : Instance) : M Instance :=
  match suspended instance with
  | None =>
      let instance := set_suspended false instance in
      let! _ := set_instance id instance in
      ret instance
  | Some _ => ret instance
  end.

Definition is_suspended (instance : Instance) : bool :=
  match suspended instance with Some true => true | _ => false end.

Definition unauthorized : Response :=
  Reply 403 (TextBody "Unauthorized access to this instance.").
Definition suspended_error : Response :=
  Reply 403 (ErrorBody "Instance is suspended" None).
Definition missing_parameters : Response :=
  Reply 400 (ErrorBody "Missing parameters" None).
Definition success : Response := Reply 200 SuccessBody.

Definition failure (logged error : string) (e : Exn) : M Response :=
  let! _ := console_error logged e in
  ret (Reply 500 (ErrorBody error (Some (exn_message e)))).

Section Handlers.
Context (ext : Ext).

(** GET /instance/:id/startup *)
Definition startup (user : option UserT) (id : string) : M Response :=
  match user with
  | None => ret (Redirect "/")
  | Some user =>
  if negb (Js.truthy_str id) then ret (Redirect "/instances") else
  try_catch
    (let! found := get_instance id in
     match found with
     | None => ret (Redirect "../../instances")
     | Some instance =>
     let! isAuthorized := authorized ext (userId user) (Id instance) in
     if negb isAuthorized then ret unauthorized else
     let! instance := migrate_suspended id instance in
     if is_suspended instance
     then ret (Redirect "../../instances?err=SUSPENDED")
     else ret (Render "instance/startup.ejs" instance)
     end)
    (failure "Error fetching instance data:" "Failed to load instance data")
  end.

(** The key of a [KEY=VALUE] entry: [const [key] = envVar.split("=")]. *)
Definition env_key (envVar : string) : string :=
  default "" (Js.split "=" envVar !! 0%nat).

Definition env_entry (key value : string) : string :=
  String.append key (String.append "=" value).

(** [instance.Env.map(...)] together with the [envUpdated] flag it sets. *)
Fixpoint map_env (variable value : string) (env : list string)
  : list string * bool :=
  match env with
  | [] => ([], false)
  | envVar :: rest =>
      let '(rest', envUpdated) := map_env variable value rest in
      let key := env_key envVar in
      if String.eqb key variable
      then (env_entry key value :: rest', true)
      else (envVar :: rest', envUpdated)
  end.

Definition change_env (variable value : string) (env : list string)
  : list string :=
  let '(updatedEnv, envUpdated) := map_env variable value env in
  if envUpdated then updatedEnv
  else (updatedEnv ++ [env_entry variable value])%list.

(** POST /instances/startup/changevariable/:id *)
Definition changevariable (user : option UserT) (id variable : string)
    (value : option string) : M Response :=
  match user with
  | None => ret (Redirect "/")
  | Some user =>
  if (negb (Js.truthy_str id) || negb (Js.truthy_str variable))%bool
  then ret missing_parameters else
  try_catch
    (let! found := get_instance id in
     match found with
     | None => ret (Reply 404 (ErrorBody "Instance not found" None))
     | Some instance =>
     let! isAuthorized := authorized ext (userId user) (Id instance) in
     if negb isAuthorized then ret unauthorized else
     let! instance := migrate_suspended id instance in
     if is_suspended instance then ret suspended_error else
     match Env instance with
     | None => throw (TypeError "instance.Env.map is not a function")
     | Some env =>
     let updatedEnv := change_env variable (Js.or_str (default "" value) "") env in
     let updatedInstance := set_Env updatedEnv instance in
     let! _ := set_instance id updatedInstance in
     let! _ := updateInstanceInUserAndGlobalArrays updatedInstance in
     let! _ := logAudit (userId user) "instance:variableChange" in
     ret success
     end
     end)
    (failure "Error updating environment variable:"
             "Failed to update environment variable")
  end.

(** POST /instance/:id/change/name/:name *)
Definition rename (user : option UserT) (id newName : string) : M Response :=
  match user with
  | None => ret (Redirect "/")
  | Some user =>
  if (negb (Js.truthy_str id) || negb (Js.truthy_str newName))%bool
  then ret missing_parameters else
  if ((String.length newName <? 3)%nat || (32 <? String.length newName)%nat)%bool
  then ret (Reply 400 (ErrorBody "Name must be between 3 and 32 characters" None))
  else
  try_catch
    (let! found := get_instance id in
     match found with
     | None => ret (Reply 404 (ErrorBody "Instance not found" None))
     | Some instance =>
     let! isAuthorized := authorized ext (userId user) (Id instance) in
     if negb isAuthorized then ret unauthorized else
     if is_suspended instance then ret suspended_error else
     let! stored := get_instances in
     let allInstances := default [] stored in
     let nameExists :=
       existsb (fun inst => String.eqb (Name inst) newName
                            && negb (String.eqb (Id inst) id))%bool
               allInstances in
     if nameExists
     then ret (Reply 400 (ErrorBody "Instance name already in use" None))
     else
     let updatedInstance := set_Name newName instance in
     let! _ := set_instance id updatedInstance in
     let! _ := updateInstanceInUserAndGlobalArrays updatedInstance in
     let! _ :=
       match Node instance with
       | Some node =>
           if Js.truthy_opt Js.truthy_str (ContainerId instance) then
             try_catch
               (let! _ := call_axios ext
                            (mkAgentRequest "post"
                               (agent_url node "rename" (ContainerId instance))
                               (apiKey node) None None (RenameBody newName)) in
                ret tt)
               (fun nodeError =>
                  console_error "Failed to update container name on node:"
                                nodeError)
           else ret tt
       | None => ret tt
       end in
     let! _ := logAudit (userId user) "instance:rename" in
     ret success
     end)
    (failure "Error renaming instance:" "Failed to rename instance")
  end.

(** GET /instances/startup/changeimage/:id *)
Definition changeimage (user : option UserT) (id image quser : string)
  : M Response :=
  match user with
  | None => ret (Redirect "/")
  | Some user =>
  if negb (Js.truthy_str id) then ret (Redirect "/instances") else
  try_catch
    (let! found := get_instance id in
     match found with
     | None => ret (Redirect "/instances")
     | Some instance =>
     let! isAuthorized := authorized ext (userId user) (Id instance) in
     if negb isAuthorized then ret unauthorized else
     let! instance := migrate_suspended id instance in
     if is_suspended instance
     then ret (Redirect
                 (String.append "../../instance/" (String.append id "/suspended")))
     else
     match Node instance with
     | None => throw (TypeError "Cannot read properties of undefined (reading 'id')")
     | Some inode =>
     let nodeId := node_id inode in
     if (negb (Js.truthy_str image) || negb (Js.truthy_str quser)
         || negb (Js.truthy_str nodeId))%bool
     then ret missing_parameters else
     let! found_node := get_node nodeId in
     match found_node with
     | None => ret (Reply 400 (ErrorBody "Invalid node" None))
     | Some node =>
     let! requestData :=
       prepareRequestData image (Memory instance) (Cpu instance)
         (Ports instance) (Name instance) node id (ContainerId instance)
         (Env instance) in
     let! response := call_axios ext requestData in
     match imageData instance with
     | None =>
         throw (TypeError "Cannot read properties of undefined (reading 'Image')")
     | Some imagedata =>
     match snd response with
     | None =>
         throw (TypeError
                  "Cannot read properties of undefined (reading 'containerId')")
     | Some data =>
     let! _ :=
       updateDatabaseWithNewInstance data quser node (img_Image imagedata)
         (Memory instance) (Cpu instance) (Ports instance) (Primary instance)
         (Name instance) id image imagedata (Env instance) in
     let! _ := logAudit (userId user) "instance:imageChange" in
     ret (Redirect (String.append "/instance/" (String.append id "/startup")))
     end end end end end)
    (failure "Error changing instance image:" "Failed to change container image")
  end.

End Handlers.
End Startup.

(** ** The reinstall route *)

Module Reinstall.

(** As [Startup.add_port_mapping], with both sides trimmed first. *)
Definition add_port_mapping
    (acc : gmap string unit * gmap string (list PortBinding))
    (portMapping : string)
  : gmap string unit * gmap string (list PortBinding) :=
  let parts := Js.trim <$> Js.split ":" portMapping in
  match parts !! 0%nat, parts !! 1%nat with
  | Some containerPort, Some hostPort =>
      if (Js.truthy_str containerPort && Js.truthy_str hostPort)%bool then
        let key := String.append containerPort "/tcp" in
        (<[key := tt]> (fst acc), <[key := [mkPortBinding hostPort]]> (snd acc))
      else acc
  | _, _ => acc
  end.

Definition port_maps (ports : string)
  : gmap string unit * gmap string (list PortBinding) :=
  if Js.truthy_str ports
  then fold_left add_port_mapping (Js.split "," ports) (∅, ∅)
  else (∅, ∅).

(** [imageData || {}]: an object without properties when the catalog has
    no entry for the image. *)
Definition no_image_data : ImageDataT := mkImageData "" None [].

Definition rethrow {A} (logged prefix : string) (body : M A) : M A :=
  try_catch body
    (fun error =>
       let! _ := console_error logged error in
       throw (Error (String.append prefix (exn_message error)))).

Section Handlers.
Context (ext : Ext).

Definition prepareRequestData (image : string) (memory cpu : Z)
    (ports name : string) (node : NodeT) (id : string)
    (containerId : option string) (Env : option (list string))
  : M AgentRequest :=
  rethrow "Error preparing request data:" "Failed to prepare request data: "
    (let! stored := get_images in
     let rawImages := default [] stored in
     let imageData :=
       List.find (fun i => String.eqb (img_Image i) image) rawImages in
     let maps := port_maps ports in
     ret (mkAgentRequest "post" (agent_url node "reinstall" containerId)
            (apiKey node) (Some (uuid ext)) (Some 30000)
            (DeployBody
               (mkDeployData name id image Env
                  (imageData ≫= img_Scripts)
                  (Some (Js.or_num (Js.parseInt memory) 512))
                  (Some (Js.or_num (Js.parseInt cpu) 100))
                  (fst maps) (snd maps)
                  (from_option img_AltImages [] imageData)
                  (Some (default no_image_data imageData)))))).

Definition updateDatabaseWithNewInstance (responseData : AgentData)
    (userId : string) (node : NodeT) (image : string) (memory cpu : Z)
    (ports : string) (primary : bool) (name id : string)
    (Env : option (list string))
  : M unit :=
  rethrow "Error updating database:" "Failed to update database: "
    (let! stored := get_images in
     let rawImages := default [] stored in
     let imageData :=
       List.find (fun i => String.eqb (img_Image i) image) rawImages in
     let instanceData :=
       mkInstance name id (Some node) userId (containerId responseData)
         (Some id) (Js.or_num (Js.parseInt memory) 512)
         (Js.or_num (Js.parseInt cpu) 100) ports primary
         image (from_option img_AltImages [] imageData)
         (Some (default no_image_data imageData)) Env None None
         (Some (now ext)) (Some (now ext)) in
     let! stored := get_user_instances userId in
     let userInstances := default [] stored in
     let userInstances :=
       filter (fun instance => Id instance ≠ id) userInstances in
     let userInstances := (userInstances ++ [instanceData])%list in
     let! _ := set_user_instances userId userInstances in
     let! stored := get_instances in
     let globalInstances := default [] stored in
     let globalInstances :=
       filter (fun instance => Id instance ≠ id) globalInstances in
     let globalInstances := (globalInstances ++ [instanceData])%list in
     let! _ := set_instances globalInstances in
     let! _ := set_instance id instanceData in
     logAudit userId "database").

(** The [catch] of the route: the message depends on the kind of error. *)
Definition failure (error : Exn) : M Response :=
  let! _ := console_error "Error reinstalling instance:" error in
  let errorMessage :=
    String.append "Failed to reinstall container"
      match error with
      | AxiosError (Some status) m =>
          String.append ": " (String.append (pretty status) (String.append " - " m))
      | AxiosError None _ => ": No response received from node"
      | TypeError m | Error m => String.append ": " m
      end in
  ret (Reply 500 (ErrorBody errorMessage None)).

(** POST /instance/reinstall/:id *)
Definition reinstall (user : option UserT) (id : string) : M Response :=
  match user with
  | None => ret (Redirect "/")
  | Some user =>
  if negb (Js.truthy_str id) then ret (Redirect "/instances") else
  try_catch
    (let! found := get_instance id in
     match found with
     | None => ret (Redirect "/instances")
     | Some instance =>
     let! isAuthorized := authorized ext (userId user) (Id instance) in
     if negb isAuthorized then ret Startup.unauthorized else
     if Startup.is_suspended instance
     then ret (Redirect "../../instances?err=SUSPENDED") else
     (* the test for a missing node, last in the source's condition, is
        the [None] branch of this match *)
     match Node instance with
     | Some node =>
     if (negb (Js.truthy_str (Image instance))
         || negb (Js.truthy_num (Memory instance))
         || negb (Js.truthy_num (Cpu instance))
         || negb (Js.truthy_str (Name instance))
         || negb (Js.truthy_str (User instance))
         || negb (Primary instance))%bool
     then ret (Reply 400 (ErrorBody "Missing required parameters" None)) else
     let! requestData :=
       prepareRequestData (Image instance) (Memory instance) (Cpu instance)
         (Ports instance) (Name instance) node id (ContainerId instance)
         (Env instance) in
     let! response := call_axios ext requestData in
     match snd response with
     | Some data =>
         if Js.truthy_opt Js.truthy_str (containerId data) then
           let! _ :=
             updateDatabaseWithNewInstance data (User instance) node
               (Image instance) (Memory instance) (Cpu instance)
               (Ports instance) (Primary instance) (Name instance) id
               (Env instance) in
           let! _ := logAudit (userId user) "instance" in
           ret (Redirect (String.append "../../instance/" id))
         else throw (Error "Invalid response from node")
     | None => throw (Error "Invalid response from node")
     end
     | None => ret (Reply 400 (ErrorBody "Missing required parameters" None))
     end
     end)
    failure
  end.

End Handlers.
End Reinstall.

(** ** The admin edit route *)

Module Edit.

Record EditRequest := mkEditRequest { eImage : string; eMemory : Z; eCpu : Z }.

Definition updated_or_unchanged (given : bool) : string :=
  if given then "updated" else "unchanged".

Section Handlers.
Context (ext : Ext).

Definition prepareEditRequestData (instance : Instance) (node : NodeT)
    (Image_ : string) (Memory_ Cpu_ : Z) : AgentRequest :=
  mkAgentRequest "put" (agent_url node "edit" (ContainerId instance))
    (apiKey node) None (Some 10000)
    (EditBody (Js.or_str Image_ (Image instance))
              (Js.or_num Memory_ (Memory instance))
              (Js.or_num Cpu_ (Cpu instance))
              (VolumeId instance)).

Definition updateUserInstances (userId oldContainerId : string)
    (updatedInstance : Instance) : M unit :=
  let! stored := get_user_instances userId in
  let userInstances := default [] stored in
  let instanceIndex :=
    Js.findIndex (fun inst => bool_decide (ContainerId inst = Some oldContainerId))
                 userInstances in
  match instanceIndex with
  | Some instanceIndex =>
      match userInstances !! instanceIndex with
      | Some entry =>
          set_user_instances userId
            (<[instanceIndex := spread entry updatedInstance]> userInstances)
      | None => ret tt
      end
  | None => ret tt
  end.

Definition updateGlobalInstances (oldContainerId : string)
    (updatedInstance : Instance) : M unit :=
  let! stored := get_instances in
  let globalInstances := default [] stored in
  let instanceIndex :=
    Js.findIndex (fun inst => bool_decide (ContainerId inst = Some oldContainerId))
                 globalInstances in
  match instanceIndex with
  | Some instanceIndex =>
      match globalInstances !! instanceIndex with
      | Some entry =>
          set_instances
            (<[instanceIndex := spread entry updatedInstance]> globalInstances)
      | None => ret tt
      end
  | None => ret tt
  end.

(** [{ ...instance, Image, Memory, Cpu, ContainerId, updatedAt }]. *)
Definition edited (instance : Instance) (Image_ : string) (Memory_ Cpu_ : Z)
    (newContainerId : string) : Instance :=
  mkInstance (Name instance) (Id instance) (Node instance) (User instance)
    (Some newContainerId) (VolumeId instance)
    (Js.or_num Memory_ (Memory instance)) (Js.or_num Cpu_ (Cpu instance))
    (Ports instance) (Primary instance) (Js.or_str Image_ (Image instance))
    (AltImages instance) (imageData instance) (Env instance)
    (suspended instance) (currentimage instance) (createdAt instance)
    (Some (now ext)).

(** The batch of the source queues a [set] of the new key and a [del] of
    the old one; the store applies them in that order. *)
Definition updateInstanceInDatabase (id : string) (instance : Instance)
    (Image_ : string) (Memory_ Cpu_ : Z) (newContainerId : string)
  : M Instance :=
  let updatedInstance := edited instance Image_ Memory_ Cpu_ newContainerId in
  let! _ := set_instance newContainerId updatedInstance in
  let! _ := del_instance id in
  let! _ := updateUserInstances (User instance) id updatedInstance in
  let! _ := updateGlobalInstances id updatedInstance in
  ret updatedInstance.

Definition failure (error : Exn) : M Response :=
  let! _ := console_error "Error updating instance:" error in
  let statusCode :=
    match error with
    | AxiosError (Some status) _ => Js.or_num status 500
    | _ => 500
    end in
  ret (Reply statusCode
         (MessageBody (Js.or_str (exn_message error) "Failed to update instance"))).

Definition node_configured (instance : Instance) : option NodeT :=
  match Node instance with
  | Some node =>
      if (Js.truthy_str (address node) && Js.truthy_num (port node)
          && Js.truthy_str (apiKey node))%bool
      then Some node else None
  | None => None
  end.

(** PUT /instances/edit/:id, behind the [isAdmin] middleware, which has
    answered 403 before the handler's own test for a missing user could. *)
Definition edit (user : option UserT) (id : string) (body : EditRequest)
  : M Response :=
  match user with
  | None => ret (Reply 403 (MessageBody "Forbidden: Admin access required"))
  | Some user =>
  if negb (admin user)
  then ret (Reply 403 (MessageBody "Forbidden: Admin access required")) else
  try_catch
    (if negb (Js.truthy_str id)
     then ret (Reply 400 (MessageBody "Invalid instance ID")) else
     let Image_ := eImage body in
     let Memory_ := eMemory body in
     let Cpu_ := eCpu body in
     if (negb (Js.truthy_str Image_) && negb (Js.truthy_num Memory_)
         && negb (Js.truthy_num Cpu_))%bool
     then ret (Reply 400 (MessageBody
            "At least one update parameter (Image, Memory, Cpu) is required"))
     else
     if (Js.truthy_num Memory_ && (Memory_ <=? 0))%bool
     then ret (Reply 400 (MessageBody "Memory must be a positive number")) else
     if (Js.truthy_num Cpu_ && (Cpu_ <=? 0))%bool
     then ret (Reply 400 (MessageBody "CPU must be a positive number")) else
     let! found := get_instance id in
     match found with
     | None => ret (Reply 404 (MessageBody "Instance not found"))
     | Some instance =>
     match node_configured instance with
     | None =>
         ret (Reply 500 (MessageBody "Invalid node configuration for this instance"))
     | Some node =>
     let requestData := prepareEditRequestData instance node Image_ Memory_ Cpu_ in
     let! response := call_axios ext requestData in
     match snd response ≫= newContainerId with
     | Some new_id =>
         if Js.truthy_str new_id then
           let! updatedInstance :=
             updateInstanceInDatabase id instance Image_ Memory_ Cpu_ new_id in
           let! _ := logAudit (userId user) "instance:edit" in
           ret (Reply 200
                  (EditedBody id new_id
                     (updated_or_unchanged (Js.truthy_str Image_))
                     (updated_or_unchanged (Js.truthy_num Memory_))
                     (updated_or_unchanged (Js.truthy_num Cpu_))))
         else throw (Error "Invalid response from node API")
     | None => throw (Error "Invalid response from node API")
     end
     end
     end)
    failure
  end.

End Handlers.
End Edit.

(** * Vocabulary of the statements *)

(** ** Characters and port strings *)

(** The character [c] occurs in [s]. *)
Fixpoint occurs (c : ascii) (s : string) : bool :=
  match s with
  | EmptyString => false
  | String a rest => (Ascii.eqb a c || occurs c rest)%bool
  end.

Definition comma : ascii := ","%char.
Definition equals : ascii := "="%char.

Definition side_missing (side : option string) : bool :=
  negb (Js.truthy_opt Js.truthy_str side).

(** A segment is malformed when the text before its first colon, or the
    text between its first and second colon, is missing or empty. *)
Definition malformed (portMapping : string) : bool :=
  let parts := Js.split ":" portMapping in
  (side_missing (parts !! 0%nat) || side_missing (parts !! 1%nat))%bool.


(** A port string put together from its segments. *)
Definition join_ports (segments : list string) : string :=
  String.concat (String comma EmptyString) segments.
Definition comma_free (segments : list string) : Prop :=
  Forall (fun s => occurs comma s = false) segments.

(** ** The writes of the helpers, as functions on the store *)

Definition put_instance (id : string) (i : Instance) (db : Db) : Db :=
  mkDb (<[id := i]> (instance_of db)) (instances_of_user db) (instances db)
       (node_of db) (images db).

Definition put_user_instances (userId : string) (l : list Instance) (db : Db)
  : Db :=
  mkDb (instance_of db) (<[userId := l]> (instances_of_user db)) (instances db)
       (node_of db) (images db).

Definition put_instances (l : list Instance) (db : Db) : Db :=
  mkDb (instance_of db) (instances_of_user db) (Some l) (node_of db) (images db).

(** A list view after the entry for [i] was replaced: the entries with
    another id, in their order, then [i]. *)
Definition replaced_by_id (id : string) (i : Instance) (l : list Instance)
  : list Instance :=
  (filter (fun entry => Id entry ≠ id) l ++ [i])%list.

Definition user_list (userId : string) (db : Db) : list Instance :=
  default [] (instances_of_user db !! userId).
Definition global_list (db : Db) : list Instance := default [] (instances db).

Definition put_lists (id : string) (i : Instance) (db : Db) : Db :=
  put_instances (replaced_by_id id i (global_list db))
    (put_user_instances (User i)
       (replaced_by_id id i (user_list (User i) db)) db).

(** ** Environment variables and the suspended flag *)

(** The record after the migration block. *)
Definition migrated (i : Instance) : Instance :=
  match suspended i with
  | None => set_suspended false i
  | Some _ => i
  end.

(** The record an env-variable change writes. *)
Definition env_changed (variable : string) (value : option string)
    (i : Instance) (env : list string) : Instance :=
  set_Env (Startup.change_env variable (default "" value) env) (migrated i).

(** The stored environment list of instance [id]. *)
Definition stored_env (id : string) (w : World) : option (list string) :=
  instance_of (w_db w) !! id ≫= Env.

(** The stored [suspended] flag of instance [id]: [None] when nothing is
    stored under [id], [Some None] when the record has no such property. *)
Definition stored_suspended (id : string) (w : World) : option (option bool) :=
  suspended <$> instance_of (w_db w) !! id.

(** ** Rename *)

(** The uniqueness test of the rename route on the global list. *)
Definition name_taken (id newName : string) (db : Db) : bool :=
  existsb (fun inst => String.eqb (Name inst) newName
                       && negb (String.eqb (Id inst) id))%bool
          (global_list db).

Definition name_length_ok (newName : string) : bool :=
  (negb (String.length newName <? 3)%nat
   && negb (32 <? String.length newName)%nat)%bool.

(** A validation error is a response with status 400. *)
Definition is_validation_error (r : Response) : bool :=
  match r with
  | Reply 400 _ => true
  | _ => false
  end.

(** The request that tells the node agent about a new name. *)
Definition rename_request (node : NodeT) (cid : option string)
    (newName : string) : AgentRequest :=
  mkAgentRequest "post" (agent_url node "rename" cid) (apiKey node) None None
    (RenameBody newName).

(** What the best-effort notification leaves in the trace. *)
Definition rename_notice (ext : Ext) (inst : Instance) (newName : string)
  : list Event :=
  match Node inst with
  | Some node =>
      if Js.truthy_opt Js.truthy_str (ContainerId inst) then
        let request := rename_request node (ContainerId inst) newName in
        EAgent request ::
        match axios ext request with
        | Replied _ _ => []
        | Failed e =>
            [EConsoleError "Failed to update container name on node:" e]
        end
      else []
  | None => []
  end.

(** The store after a rename went through. *)
Definition renamed_store (id newName : string) (inst : Instance) (db : Db)
  : Db :=
  put_lists (Id inst) (set_Name newName inst)
    (put_instance id (set_Name newName inst) db).

(** ** Edit *)

(** The test of [findIndex] in both list updates of the edit route. *)
Definition has_container (oldContainerId : string) (inst : Instance) : bool :=
  bool_decide (ContainerId inst = Some oldContainerId).

(** The list with its first entry for the old container id overwritten by
    the spread of the update, if there is such an entry. *)
Definition patch (oldContainerId : string) (updatedInstance : Instance)
    (l : list Instance) : option (list Instance) :=
  match Js.findIndex (has_container oldContainerId) l with
  | Some i =>
      match l !! i with
      | Some entry => Some (<[i := spread entry updatedInstance]> l)
      | None => None
      end
  | None => None
  end.

Definition move_instance (id newContainerId : string) (i : Instance) (db : Db)
  : Db :=
  mkDb (delete id (<[newContainerId := i]> (instance_of db)))
       (instances_of_user db) (instances db) (node_of db) (images db).

Definition edit_user_list (userId oldContainerId : string) (i : Instance)
    (db : Db) : Db :=
  match patch oldContainerId i (user_list userId db) with
  | Some l => put_user_instances userId l db
  | None => db
  end.

Definition edit_global_list (oldContainerId : string) (i : Instance) (db : Db)
  : Db :=
  match patch oldContainerId i (global_list db) with
  | Some l => put_instances l db
  | None => db
  end.

(** The store after an edit went through. *)
Definition edited_store (id newContainerId : string) (inst upd : Instance)
    (db : Db) : Db :=
  edit_global_list id upd
    (edit_user_list (User inst) id upd (move_instance id newContainerId upd db)).

(** The checks of the edit route on the request body. *)
Definition edit_body_ok (body : Edit.EditRequest) : bool :=
  ((Js.truthy_str (Edit.eImage body) || Js.truthy_num (Edit.eMemory body)
    || Js.truthy_num (Edit.eCpu body))
   && negb (Js.truthy_num (Edit.eMemory body) && (Edit.eMemory body <=? 0))
   && negb (Js.truthy_num (Edit.eCpu body) && (Edit.eCpu body <=? 0)))%bool.

Definition edit_response (id newContainerId : string)
    (body : Edit.EditRequest) : Response :=
  Reply 200
    (EditedBody id newContainerId
       (Edit.updated_or_unchanged (Js.truthy_str (Edit.eImage body)))
       (Edit.updated_or_unchanged (Js.truthy_num (Edit.eMemory body)))
       (Edit.updated_or_unchanged (Js.truthy_num (Edit.eCpu body)))).

(** The record an edit writes. *)
Definition edit_result (ext : Ext) (inst : Instance) (body : Edit.EditRequest)
    (newContainerId : string) : Instance :=
  Edit.edited ext inst (Edit.eImage body) (Edit.eMemory body) (Edit.eCpu body)
    newContainerId.

Definition edit_request (inst : Instance) (node : NodeT)
    (body : Edit.EditRequest) : AgentRequest :=
  Edit.prepareEditRequestData inst node (Edit.eImage body) (Edit.eMemory body)
    (Edit.eCpu body).

(** ** The five mutations behind one entry point *)

Inductive Mutation :=
| DoReinstall
| DoEdit (body : Edit.EditRequest)
| DoRename (newName : string)
| DoChangeVariable (variable : string) (value : option string)
| DoChangeImage (image quser : string).

Definition handle (ext : Ext) (m : Mutation) (user : option UserT)
    (id : string) : M Response :=
  match m with
  | DoReinstall => Reinstall.reinstall ext user id
  | DoEdit body => Edit.edit ext user id body
  | DoRename newName => Startup.rename ext user id newName
  | DoChangeVariable variable value =>
      Startup.changevariable ext user id variable value
  | DoChangeImage image quser => Startup.changeimage ext user id image quser
  end.

(** The answer each route gives for a suspended instance. *)
Definition suspended_response (m : Mutation) (id : string) : Response :=
  match m with
  | DoReinstall => Redirect "../../instances?err=SUSPENDED"
  | DoChangeImage _ _ =>
      Redirect (String.append "../../instance/" (String.append id "/suspended"))
  | _ => Startup.suspended_error
  end.

(** The checks on the request itself that come before the record is read. *)
Definition well_formed (m : Mutation) (id : string) : bool :=
  (Js.truthy_str id &&
   match m with
   | DoRename newName => name_length_ok newName
   | DoChangeVariable variable _ => Js.truthy_str variable
   | _ => true
   end)%bool.

(** The routes that consult the [suspended] flag. *)
Definition gated (m : Mutation) : bool :=
  match m with
  | DoEdit _ => false
  | _ => true
  end.

(** ** The three views of an instance *)

(** The entries of a list view that stand for the record [rec]. *)
Definition matching (rec : Instance) (l : list Instance) : list Instance :=
  filter (fun entry => Id entry = Id rec) l.

(** The record stored under [id], its owner's list and the global list all
    hold [rec], and hold nothing else for its id. *)
Definition same_in_all_views (id : string) (rec : Instance) (db : Db) : Prop :=
  instance_of db !! id = Some rec
  /\ matching rec (user_list (User rec) db) = [rec]
  /\ matching rec (global_list db) = [rec].

(** The success answer of each route.  The success redirect of reinstall
    is spelled from the id, so it is told apart from the suspended
    redirect. *)
Definition succeeded (m : Mutation) (id : string) (r : Response) : Prop :=
  match m with
  | DoReinstall =>
      r = Redirect (String.append "../../instance/" id)
      /\ r <> suspended_response DoReinstall id
  | DoEdit body => exists c, r = edit_response id c body
  | DoRename _ | DoChangeVariable _ _ => r = Startup.success
  | DoChangeImage _ _ =>
      r = Redirect (String.append "/instance/" (String.append id "/startup"))
  end.

(** The agent answered some call of the trace with this container id. *)
Definition agent_gave (ext : Ext) (trace : list Event)
    (cid : option string) : Prop :=
  exists request status data,
    In (EAgent request) trace
    /\ axios ext request = Replied status (Some data)
    /\ containerId data = cid.

(** The values a mutation other than edit leaves in the record. *)
Definition carries (ext : Ext) (m : Mutation) (id : string) (trace : list Event)
    (rec : Instance) : Prop :=
  match m with
  | DoReinstall => Id rec = id /\ agent_gave ext trace (ContainerId rec)
  | DoEdit _ => True
  | DoRename newName => Name rec = newName
  | DoChangeVariable variable value =>
      exists env, Env rec = Some env
                  /\ In (Startup.env_entry variable (default "" value)) env
  | DoChangeImage image quser =>
      Id rec = id /\ User rec = quser /\ currentimage rec = Some image
      /\ agent_gave ext trace (ContainerId rec)
  end.

(** The values an edit leaves in the record: the id stays, the container
    id is the new one, and image, memory and cpu are those of the request
    body where it gives them and the old ones where it does not. *)
Definition edit_values (inst : Instance) (body : Edit.EditRequest)
    (newContainerId : string) (rec : Instance) : Prop :=
  Id rec = Id inst
  /\ ContainerId rec = Some newContainerId
  /\ Image rec = (if Js.truthy_str (Edit.eImage body)
                  then Edit.eImage body else Image inst)
  /\ Memory rec = (if Js.truthy_num (Edit.eMemory body)
                   then Edit.eMemory body else Memory inst)
  /\ Cpu rec = (if Js.truthy_num (Edit.eCpu body)
                then Edit.eCpu body else Cpu inst).

(** What an edit does to one list view: the first entry whose container
    id is the route id takes the id and the edited values of the record;
    a list without such an entry stays as it is. *)
Definition edit_list_view (id : string) (upd : Instance)
    (before after : list Instance) : Prop :=
  match Js.findIndex (has_container id) before with
  | Some i =>
      exists entry,
        before !! i = Some entry
        /\ after = <[i := spread entry upd]> before
        /\ Id (spread entry upd) = Id upd
        /\ Image (spread entry upd) = Image upd
        /\ Memory (spread entry upd) = Memory upd
        /\ Cpu (spread entry upd) = Cpu upd
        /\ ContainerId (spread entry upd) = ContainerId upd
  | None => after = before
  end.

(** ** A small panel to run the handlers on *)

Module Sample.

Definition node : NodeT := mkNode "node1" "10.0.0.5" 3002 "secret".

Definition image : ImageDataT :=
  mkImageData "ghcr.io/demo/paper:latest" None ["ghcr.io/demo/paper:17"].

Definition server : Instance :=
  mkInstance "lobby" "srv1" (Some node) "u1" (Some "c0") (Some "srv1")
    1024 100 "25565:25565" true "ghcr.io/demo/paper:latest" []
    (Some image) (Some ["EULA=true"]) (Some false) None None None.

(** A second instance of the same user, here to hold another name. *)
Definition other : Instance :=
  mkInstance "arena" "srv2" (Some node) "u1" (Some "c9") (Some "srv2")
    2048 200 "" true "ghcr.io/demo/paper:latest" []
    (Some image) (Some []) (Some false) None None None.

Definition store_of (i : Instance) : Db :=
  mkDb {[ "srv1" := i; "srv2" := other ]}
       {[ "u1" := [i; other] ]}
       (Some [i; other])
       {[ "node1" := node ]}
       (Some [image]).

Definition db : Db := store_of server.

Definition alice : UserT := mkUser "u1" "alice" true.

(** Everyone is authorised; the agent answers every call with container
    id "c1". *)
Definition ext : Ext :=
  mkExt (fun _ _ _ => true)
        (fun _ => Replied 200 (Some (mkAgentData (Some "c1") (Some "c1"))))
        "req-1" "2024-01-01T00:00:00.000Z".

(** The same panel with an agent that refuses every call. *)
Definition ext_agent_down : Ext :=
  mkExt (fun _ _ _ => true)
        (fun _ => Failed (AxiosError None "connect ECONNREFUSED"))
        "req-1" "2024-01-01T00:00:00.000Z".

(** The same panel with nobody authorised. *)
Definition ext_locked : Ext :=
  mkExt (fun _ _ _ => false)
        (fun _ => Replied 200 (Some (mkAgentData (Some "c1") (Some "c1"))))
        "req-1" "2024-01-01T00:00:00.000Z".

Definition world (d : Db) : World := mkWorld d [].

End Sample.

Module Legacy.

(** The sample instance as an older panel stored it: no [suspended]
    property. *)
Definition server : Instance :=
  mkInstance "lobby" "srv1" (Some Sample.node) "u1" (Some "c0") (Some "srv1")
    1024 100 "25565:25565" true "ghcr.io/demo/paper:latest" []
    (Some Sample.image) (Some ["EULA=true"]) None None None None.

Definition db : Db := Sample.store_of server.

End Legacy.

Module Suspended.

Definition server : Instance := set_suspended true Sample.server.
Definition db : Db := Sample.store_of server.

End Suspended.

Module Keyed.

(** The sample instance in a panel that files records under their
    container id, the arrangement the edit route looks lists up by. *)
Definition db : Db :=
  mkDb {[ "c0" := Sample.server ]}
       {[ "u1" := [Sample.other; Sample.server] ]}
       (Some [Sample.server; Sample.other])
       {[ "node1" := Sample.node ]}
       (Some [Sample.image]).

End Keyed.

(** * Vocabulary of the further properties *)

(** ** The six routes behind one entry point *)

Inductive Route :=
| View
| Mutate (m : Mutation).

Definition serve (ext : Ext) (route : Route) (user : option UserT)
    (id : string) : M Response :=
  match route with
  | View => Startup.startup ext user id
  | Mutate m => handle ext m user id
  end.

(** The routes that ask [isUserAuthorizedForContainer]: all but edit. *)
Definition asks_owner (route : Route) : bool :=
  match route with
  | Mutate (DoEdit _) => false
  | _ => true
  end.

(** The checks a route makes on the request before it reads the record. *)
Definition request_ok (route : Route) (u : UserT) (id : string) : bool :=
  match route with
  | View => Js.truthy_str id
  | Mutate (DoEdit body) => (admin u && Js.truthy_str id && edit_body_ok body)%bool
  | Mutate m => well_formed m id
  end.

(** The answer of each route when nothing is stored under the id. *)
Definition not_found_response (route : Route) : Response :=
  match route with
  | View => Redirect "../../instances"
  | Mutate DoReinstall | Mutate (DoChangeImage _ _) => Redirect "/instances"
  | Mutate (DoEdit _) => Reply 404 (MessageBody "Instance not found")
  | Mutate (DoRename _) | Mutate (DoChangeVariable _ _) =>
      Reply 404 (ErrorBody "Instance not found" None)
  end.

(** The answer of each route to a request without a user. *)
Definition no_user_response (route : Route) : Response :=
  match route with
  | Mutate (DoEdit _) => Reply 403 (MessageBody "Forbidden: Admin access required")
  | _ => Redirect "/"
  end.

(** The agent answered some call of the trace with this new container id
    (the reply the edit route reads). *)
Definition agent_gave_new (ext : Ext) (trace : list Event) (c : string)
  : Prop :=
  exists request status data,
    In (EAgent request) trace
    /\ axios ext request = Replied status (Some data)
    /\ newContainerId data = Some c.





(** The container id stored for instance [id]. *)
Definition stored_container (id : string) (w : World)
  : option (option string) :=
  ContainerId <$> instance_of (w_db w) !! id.

(** ** Image change *)

(** The catalog entry for an image, as both request builders and both
    record builders look it up. *)
Definition catalog_entry (db : Db) (image : string) : option ImageDataT :=
  List.find (fun i => String.eqb (img_Image i) image) (default [] (images db)).

(** The redeploy request of the image-change route. *)
Definition redeploy_request (db : Db) (image : string) (inst : Instance)
    (node : NodeT) (id : string) : AgentRequest :=
  mkAgentRequest "post" (agent_url node "redeploy" (ContainerId inst))
    (apiKey node) None None
    (DeployBody
       (mkDeployData (Name inst) id image (Some (default [] (Env inst)))
          (catalog_entry db image ≫= img_Scripts)
          (if Js.truthy_num (Memory inst)
           then Some (Js.parseInt (Memory inst)) else None)
          (if Js.truthy_num (Cpu inst)
           then Some (Js.parseInt (Cpu inst)) else None)
          (fst (Startup.port_maps (Ports inst)))
          (snd (Startup.port_maps (Ports inst)))
          (from_option img_AltImages [] (catalog_entry db image))
          None)).

(** The record the image-change route writes. *)
Definition redeployed (db : Db) (data : AgentData) (quser : string)
    (node : NodeT) (inst : Instance) (id image : string) (imd : ImageDataT)
  : Instance :=
  mkInstance (Name inst) id (Some node) quser (containerId data) (Some id)
    (Js.or_num (Js.parseInt (Memory inst)) 0)
    (Js.or_num (Js.parseInt (Cpu inst)) 0)
    (Ports inst) (Primary inst) (img_Image imd)
    (from_option img_AltImages [] (catalog_entry db (img_Image imd)))
    (Some imd) (Some (default [] (Env inst))) (Some false) (Some image)
    None None.

(** The store with the migration applied to [inst], if it needs one. *)
Definition migrated_store (id : string) (inst : Instance) (db : Db) : Db :=
  match suspended inst with
  | None => put_instance id (set_suspended false inst) db
  | Some _ => db
  end.

(** ** Agents for the examples *)

Module Agents.

(** An agent that answers every call with a 200 that names no container. *)
Definition silent : Ext :=
  mkExt (fun _ _ _ => true)
        (fun _ => Replied 200 (Some (mkAgentData None None)))
        "req-1" "2024-01-01T00:00:00.000Z".

(** An agent that answers every call with a 503. *)
Definition unavailable : Ext :=
  mkExt (fun _ _ _ => true)
        (fun _ => Failed (AxiosError (Some 503) "Service Unavailable"))
        "req-1" "2024-01-01T00:00:00.000Z".

(** An agent that turns every call down with a 404 and no usable body. *)
Definition refusing : Ext :=
  mkExt (fun _ _ _ => true)
        (fun _ => Replied 404 None)
        "req-1" "2024-01-01T00:00:00.000Z".

End Agents.

(** ** Environment lists *)

(** Some entry of the list has this key. *)
Definition has_key (variable : string) (env : list string) : bool :=
  existsb (fun e => String.eqb (Startup.env_key e) variable) env.

(** What the [map] of the env-variable change does to one entry. *)
Definition set_if_key (variable value : string) (e : string) : string :=
  if String.eqb (Startup.env_key e) variable
  then Startup.env_entry variable value else e.

(** ** Port maps *)

Definition colon : ascii := ":"%char.

(** Some character of [s] is white space. *)
Fixpoint has_space (s : string) : bool :=
  match s with
  | EmptyString => false
  | String a rest => (Js.is_space a || has_space rest)%bool
  end.

(** A well-formed entry of the binding map: the key is a container port
    followed by "/tcp", the value one host port; neither side is empty or
    holds a colon. *)
Definition port_binding_ok (key : string) (binding : list PortBinding) : Prop :=
  exists containerPort hostPort,
    key = String.append containerPort "/tcp"
    /\ binding = [mkPortBinding hostPort]
    /\ containerPort <> "" /\ hostPort <> ""
    /\ occurs colon containerPort = false
    /\ occurs colon hostPort = false.

(** The two maps describe the same ports, each binding is well formed. *)
Definition port_maps_ok
    (maps : gmap string unit * gmap string (list PortBinding)) : Prop :=
  dom (fst maps) = dom (snd maps)
  /\ forall key binding, snd maps !! key = Some binding ->
                         port_binding_ok key binding.

(** ** Traces *)

Definition is_agent_call (ev : Event) : bool :=
  match ev with
  | EAgent _ => true
  | _ => false
  end.

(** The number of agent calls in a trace. *)
Definition agent_calls (trace : list Event) : nat :=
  length (List.filter is_agent_call trace).

(** The routes that never talk to the agent. *)
Definition local_only (route : Route) : bool :=
  match route with
  | View | Mutate (DoChangeVariable _ _) => true
  | _ => false
  end.

(** The success answer of a mutation, as text. *)
Definition answers_success (m : Mutation) (id : string) (r : Response) : Prop :=
  match m with
  | DoReinstall => r = Redirect (String.append "../../instance/" id)
  | DoEdit body => exists c, r = edit_response id c body
  | DoRename _ | DoChangeVariable _ _ => r = Startup.success
  | DoChangeImage _ _ =>
      r = Redirect (String.append "/instance/" (String.append id "/startup"))
  end.

(** ** Reinstall *)

(** The test of the reinstall route for required fields. *)
Definition reinstall_fields_ok (inst : Instance) : bool :=
  (Js.truthy_str (Image inst) && Js.truthy_num (Memory inst)
   && Js.truthy_num (Cpu inst) && Js.truthy_str (Name inst)
   && Js.truthy_str (User inst) && Primary inst
   && bool_decide (is_Some (Node inst)))%bool.

Module Incomplete.

(** The sample instance with its memory set to zero. *)
Definition server : Instance :=
  mkInstance "lobby" "srv1" (Some Sample.node) "u1" (Some "c0") (Some "srv1")
    0 100 "25565:25565" true "ghcr.io/demo/paper:latest" []
    (Some Sample.image) (Some ["EULA=true"]) (Some false) None None None.

End Incomplete.

(** ** The application entry point: languages *)

Module App.

(** [getlanguages]: the names of the files in the language directory, each
    cut at its first dot.  The directory listing is the argument. *)
Definition getlanguages (files : list string) : list string :=
  map (fun file => default "" (Js.split "." file !! 0%nat)) files.

(** What a request to /setLanguage leaves behind. *)
Inductive LanguageOutcome :=
| LanguageSet (cookie : string) (userLang : string)
    (* cookie set, language stored on the user, { success: true } sent *)
| LanguageRejected
    (* { success: false } sent, nothing set *)
| LanguageCrashed (cookie : string).
    (* cookie set on the response, then the assignment to the missing
       user throws: no body is sent *)

(** GET /setLanguage *)
Definition setLanguage (files : list string) (user : option UserT)
    (lang : string) : LanguageOutcome :=
  if (Js.truthy_str lang
      && existsb (String.eqb lang) (getlanguages files))%bool
  then match user with
       | Some _ => LanguageSet lang lang
       | None => LanguageCrashed lang
       end
  else LanguageRejected.

End App.

Definition dot : ascii := "."%char.
(** * Properties *)

(** ** The spelling of the keys keeps the five families apart *)

Lemma chars_append (a b : string) :
  list_ascii_of_string (String.append a b)
  = (list_ascii_of_string a ++ list_ascii_of_string b)%list.
Proof. induction a as [|c a IH]; simpl; [reflexivity|]. rewrite IH. reflexivity. Qed.

Lemma chars_inj (a b : string) :
  list_ascii_of_string a = list_ascii_of_string b -> a = b.
Proof.
  intros H. rewrite <- (string_of_list_ascii_of_string a),
    <- (string_of_list_ascii_of_string b), H. reflexivity.
Qed.

Lemma rev_chars_inj (a b : string) :
  List.rev (list_ascii_of_string a) = List.rev (list_ascii_of_string b) ->
  a = b.
Proof.
  intros H. apply chars_inj.
  rewrite <- (rev_involutive (list_ascii_of_string a)),
    <- (rev_involutive (list_ascii_of_string b)), H. reflexivity.
Qed.

(** Two keys with the same spelling are the same key: a record key is
    never a list key, a node key, or one of the two fixed keys, and the id
    can be read back from the key. *)
Lemma key_string_inj (k1 k2 : Key) : key_string k1 = key_string k2 -> k1 = k2.
Proof.
  intros H. apply (f_equal list_ascii_of_string) in H.
  apply (f_equal (@List.rev ascii)) in H.
  destruct k1, k2; cbn [key_string] in H; rewrite ?chars_append in H;
    rewrite ?rev_app_distr in H; simpl in H;
    try reflexivity; try congruence;
    f_equal; apply rev_chars_inj; congruence.
Qed.

(** ** Splitting and joining *)

Example split_like_the_source :
  Js.split "," "a,,b" = ["a"; ""; "b"]
  /\ Js.split "," "" = [""]
  /\ Js.split "," "a," = ["a"; ""]
  /\ Js.split ":" "25565" = ["25565"]
  /\ Js.split ":" "80:8080:tcp" = ["80"; "8080"; "tcp"].
Proof. repeat split; reflexivity. Qed.

Example trim_like_the_source :
  Js.trim "  80 " = "80" /\ Js.trim " a b  " = "a b" /\ Js.trim "   " = ""
  /\ Js.trim (String (ascii_of_nat 160) "80") = "80".
Proof. repeat split; reflexivity. Qed.

Lemma split_not_nil c s : Js.split c s <> [].
Proof.
  induction s as [|a s IH]; simpl; [discriminate|].
  destruct (Ascii.eqb a c); [discriminate|].
  destruct (Js.split c s); discriminate.
Qed.

Lemma split_absent c s : occurs c s = false -> Js.split c s = [s].
Proof.
  induction s as [|a s IH]; simpl; [reflexivity|].
  intros H. apply orb_false_iff in H as [Ha Hs].
  rewrite Ha, (IH Hs). reflexivity.
Qed.

Lemma split_append c s t :
  occurs c s = false ->
  Js.split c (String.append s (String c t)) = s :: Js.split c t.
Proof.
  induction s as [|a s IH]; simpl.
  - intros _. rewrite Ascii.eqb_refl. reflexivity.
  - intros H. apply orb_false_iff in H as [Ha Hs].
    rewrite Ha, (IH Hs). reflexivity.
Qed.

Lemma split_concat c (l : list string) :
  l <> [] ->
  Forall (fun s => occurs c s = false) l ->
  Js.split c (String.concat (String c EmptyString) l) = l.
Proof.
  induction l as [|s l IH]; [congruence|].
  intros _ Hall. inversion Hall as [|? ? Hs Hl]; subst.
  destruct l as [|s' l].
  - simpl. apply split_absent, Hs.
  - change (String.concat (String c EmptyString) (s :: s' :: l))
      with (String.append s
              (String.append (String c EmptyString)
                 (String.concat (String c EmptyString) (s' :: l)))).
    change (String.append (String c EmptyString) ?x) with (String c x).
    rewrite split_append by exact Hs.
    f_equal. apply IH; [discriminate|exact Hl].
Qed.

(** ** Request builder: port mappings *)

Lemma startup_skips acc seg :
  malformed seg = true -> Startup.add_port_mapping acc seg = acc.
Proof.
  unfold malformed, Startup.add_port_mapping, side_missing. cbv zeta.
  destruct (Js.split ":" seg !! 0%nat) as [c|];
    destruct (Js.split ":" seg !! 1%nat) as [h|]; simpl; try reflexivity.
  destruct (Js.truthy_str c), (Js.truthy_str h); simpl;
    intros H; try reflexivity; discriminate.
Qed.


Lemma join_ports_empty (l : list string) :
  l <> [] -> join_ports l = EmptyString -> l = [EmptyString].
Proof.
  destruct l as [|s [|s' l]]; [congruence| |].
  - unfold join_ports. simpl. intros _ ->. reflexivity.
  - intros _. unfold join_ports. simpl. destruct s; simpl; discriminate.
Qed.

Lemma startup_port_maps_join (l : list string) :
  comma_free l ->
  Startup.port_maps (join_ports l) = fold_left Startup.add_port_mapping l (∅, ∅).
Proof.
  intros Hl. destruct l as [|s l]; [reflexivity|].
  unfold Startup.port_maps, Js.truthy_str.
  destruct (String.eqb_spec (join_ports (s :: l)) "") as [E|_]; cbn [negb].
  - apply join_ports_empty in E; [|discriminate].
    injection E as -> ->. reflexivity.
  - unfold join_ports. rewrite split_concat; [reflexivity|discriminate|exact Hl].
Qed.





Lemma updateArrays_run (i : Instance) (w : World) :
  Startup.updateInstanceInUserAndGlobalArrays i w
  = (inr tt, mkWorld (put_lists (Id i) i (w_db w)) (w_trace w)).
Proof. reflexivity. Qed.

Lemma migrate_run id (i : Instance) (w : World) :
  Startup.migrate_suspended id i w
  = match suspended i with
    | None => (inr (set_suspended false i),
               mkWorld (put_instance id (set_suspended false i) (w_db w))
                       (w_trace w))
    | Some _ => (inr i, w)
    end.
Proof. unfold Startup.migrate_suspended. destruct (suspended i); reflexivity. Qed.

(** The matching entries of a replaced list are the new entry alone. *)
Lemma replaced_by_id_matching id (i : Instance) (l : list Instance) :
  Id i = id ->
  filter (fun entry => Id entry = id) (replaced_by_id id i l) = [i].
Proof.
  intros Hid. unfold replaced_by_id. rewrite filter_app.
  assert (E : filter (fun entry => Id entry = id)
                (filter (fun entry => Id entry ≠ id) l) = []).
  { induction l as [|a l IH]; [reflexivity|].
    rewrite (filter_cons (fun entry => Id entry ≠ id)).
    destruct (decide (Id a ≠ id)) as [Hne|_]; [|exact IH].
    rewrite filter_cons. destruct (decide (Id a = id)); [contradiction|exact IH]. }
  rewrite E. simpl. rewrite filter_cons, filter_nil.
  destruct (decide (Id i = id)); [reflexivity|contradiction].
Qed.

Lemma replaced_by_id_idem id (i : Instance) (l : list Instance) :
  Id i = id ->
  replaced_by_id id i (replaced_by_id id i l) = replaced_by_id id i l.
Proof.
  intros Hid. unfold replaced_by_id. rewrite filter_app.
  assert (E : filter (fun entry => Id entry ≠ id)
                (filter (fun entry => Id entry ≠ id) l)
              = filter (fun entry => Id entry ≠ id) l).
  { induction l as [|a l IH]; [reflexivity|].
    rewrite (filter_cons _ a l).
    destruct (decide (Id a ≠ id)) as [Hne|_]; [|exact IH].
    rewrite filter_cons. destruct (decide (Id a ≠ id)); [|contradiction].
    f_equal. exact IH. }
  rewrite E. rewrite (filter_cons _ i []), filter_nil.
  destruct (decide (Id i ≠ id)); [contradiction|].
  rewrite app_nil_r. reflexivity.
Qed.

(** ** Environment variables *)

Lemma split_head_free c s :
  exists seg segs, Js.split c s = seg :: segs /\ occurs c seg = false.
Proof.
  induction s as [|a s (seg & segs & E & Hfree)]; simpl.
  - eauto.
  - destruct (Ascii.eqb a c) eqn:Ha; [eauto|].
    rewrite E. exists (String a seg), segs. simpl. rewrite Ha, Hfree. eauto.
Qed.

Lemma env_key_free e : occurs equals (Startup.env_key e) = false.
Proof.
  unfold Startup.env_key.
  destruct (split_head_free equals e) as (seg & segs & E & Hfree).
  change "="%char with equals. rewrite E. exact Hfree.
Qed.

Lemma env_key_entry k v :
  occurs equals k = false -> Startup.env_key (Startup.env_entry k v) = k.
Proof.
  intros Hk. unfold Startup.env_key, Startup.env_entry.
  change (String.append "=" v) with (String equals v).
  change "="%char with equals.
  rewrite split_append by exact Hk. reflexivity.
Qed.

Lemma map_env_length variable value env :
  length (fst (Startup.map_env variable value env)) = length env.
Proof.
  induction env as [|e env IH]; [reflexivity|].
  simpl. destruct (Startup.map_env variable value env) as [rest flag].
  destruct (String.eqb (Startup.env_key e) variable); simpl in *; congruence.
Qed.

Lemma map_env_keyed variable value env e :
  In e (fst (Startup.map_env variable value env)) ->
  Startup.env_key e = variable ->
  e = Startup.env_entry variable value.
Proof.
  induction env as [|e0 env IH]; [intros []|].
  simpl. destruct (Startup.map_env variable value env) as [rest flag].
  destruct (String.eqb_spec (Startup.env_key e0) variable) as [E|NE]; simpl.
  - intros [<-|Hin] Hk; [rewrite E; reflexivity|auto].
  - intros [<-|Hin] Hk; [contradiction|auto].
Qed.

Lemma map_env_updated variable value env :
  snd (Startup.map_env variable value env) = true ->
  In (Startup.env_entry variable value)
     (fst (Startup.map_env variable value env)).
Proof.
  induction env as [|e0 env IH]; [discriminate|].
  simpl. destruct (Startup.map_env variable value env) as [rest flag].
  destruct (String.eqb_spec (Startup.env_key e0) variable) as [E|NE]; simpl.
  - intros _. left. rewrite E. reflexivity.
  - intros Hflag. right. auto.
Qed.

(** Mapping again over entries that already hold the value changes nothing,
    and the flag tells whether an entry with the key is there. *)
Lemma map_env_fixed variable value env :
  (forall e, In e env -> Startup.env_key e = variable ->
             e = Startup.env_entry variable value) ->
  fst (Startup.map_env variable value env) = env.
Proof.
  induction env as [|e0 env IH]; [reflexivity|].
  intros Hall. simpl.
  destruct (Startup.map_env variable value env) as [rest flag].
  specialize (IH (fun e He => Hall e (or_intror He))). simpl in IH. subst rest.
  destruct (String.eqb_spec (Startup.env_key e0) variable) as [E|NE]; simpl.
  - rewrite E. f_equal. symmetry. apply Hall; [left; reflexivity|exact E].
  - reflexivity.
Qed.

Lemma map_env_flag variable value env e :
  In e env -> Startup.env_key e = variable ->
  snd (Startup.map_env variable value env) = true.
Proof.
  induction env as [|e0 env IH]; [intros []|].
  simpl. destruct (Startup.map_env variable value env) as [rest flag].
  destruct (String.eqb_spec (Startup.env_key e0) variable) as [E|NE]; simpl.
  - reflexivity.
  - intros [<-|Hin] Hk; [contradiction|auto].
Qed.

Lemma change_env_keyed variable value env e :
  In e (Startup.change_env variable value env) ->
  Startup.env_key e = variable ->
  e = Startup.env_entry variable value.
Proof.
  unfold Startup.change_env.
  pose proof (map_env_keyed variable value env e) as Hk.
  destruct (Startup.map_env variable value env) as [rest flag]. simpl in Hk.
  destruct flag; [exact Hk|].
  intros Hin. apply in_app_or in Hin as [Hin|[<-|[]]]; auto.
Qed.

Lemma change_env_entry variable value env :
  In (Startup.env_entry variable value) (Startup.change_env variable value env).
Proof.
  unfold Startup.change_env.
  pose proof (map_env_updated variable value env) as Hu.
  destruct (Startup.map_env variable value env) as [rest flag]. simpl in Hu.
  destruct flag; [auto|]. apply in_or_app. right. left. reflexivity.
Qed.

Lemma change_env_idempotent variable value env :
  occurs equals variable = false ->
  Startup.change_env variable value (Startup.change_env variable value env)
  = Startup.change_env variable value env.
Proof.
  intros Hfree.
  set (env1 := Startup.change_env variable value env).
  unfold Startup.change_env at 1.
  pose proof (map_env_fixed variable value env1
                (change_env_keyed variable value env)) as Hfix.
  pose proof (map_env_flag variable value env1 _
                (change_env_entry variable value env)
                (env_key_entry variable value Hfree)) as Hflag.
  destruct (Startup.map_env variable value env1) as [rest flag].
  simpl in *. subst. reflexivity.
Qed.

(** ** What a successful handler run did *)

Lemma or_str_empty s : Js.or_str s "" = s.
Proof.
  unfold Js.or_str, Js.truthy_str.
  destruct (String.eqb_spec s ""); subst; reflexivity.
Qed.

(** Splits a handler run along the branches the source takes. *)
Ltac case_run H :=
  repeat (match type of H with
          | context [match ?x with _ => _ end] =>
              lazymatch x with
              | context [match _ with _ => _ end] => fail
              | _ => destruct x eqn:?
              end
          end; simpl in H; try discriminate H).

Ltac unfold_monad H :=
  unfold try_catch, bind, ret, throw, get_instance, get_instances, get_node,
    get_images, get_user_instances, read_db, authorized, call_axios,
    Startup.failure, console_error, emit, logAudit, set_instance,
    set_instances, set_user_instances, del_instance, write_db in H.

Lemma put_instance_twice id (a b : Instance) db :
  put_instance id b (put_instance id a db) = put_instance id b db.
Proof. unfold put_instance. simpl. rewrite insert_insert_eq. reflexivity. Qed.

Lemma changevariable_success ext user id variable value w w' :
  run (Startup.changevariable ext user id variable value) w
  = (Startup.success, w') ->
  exists u inst env,
    user = Some u
    /\ instance_of (w_db w) !! id = Some inst
    /\ isUserAuthorizedForContainer ext (w_db w) (userId u) (Id inst) = true
    /\ suspended inst <> Some true
    /\ Env inst = Some env
    /\ w_db w' = put_lists (Id inst) (env_changed variable value inst env)
                   (put_instance id (env_changed variable value inst env)
                      (w_db w))
    /\ w_trace w' = (w_trace w ++ [EAudit (userId u) "instance:variableChange"])%list.
Proof.
  intros H.
  unfold run, Startup.changevariable in H.
  destruct user as [u|]; [|discriminate].
  unfold_monad H. simpl in H.
  destruct (negb (Js.truthy_str id) || negb (Js.truthy_str variable))%bool;
    [discriminate|].
  destruct (instance_of (w_db w) !! id) as [inst|] eqn:Hget; [|discriminate].
  destruct (isUserAuthorizedForContainer ext (w_db w) (userId u) (Id inst))
    eqn:Hauth; [|discriminate].
  simpl in H. rewrite migrate_run in H.
  exists u, inst.
  unfold env_changed, migrated.
  destruct (suspended inst) as [[|]|] eqn:Hs.
  - unfold Startup.is_suspended in H. rewrite Hs in H. discriminate.
  - unfold Startup.is_suspended in H. rewrite Hs in H.
    destruct (Env inst) as [env|] eqn:He; [|discriminate].
    simpl in H. rewrite or_str_empty in H.
    injection H as <-. exists env. repeat split; try congruence.
  - unfold Startup.is_suspended in H. simpl in H.
    destruct (Env inst) as [env|] eqn:He; [|discriminate].
    simpl in H. rewrite or_str_empty in H.
    injection H as <-. exists env. repeat split; try congruence.
    simpl. unfold put_lists, put_instances, put_user_instances, put_instance,
      user_list, global_list. simpl. rewrite insert_insert_eq. reflexivity.
Qed.

(** ** Environment-variable change, twice *)

Lemma put_lists_twice id (i : Instance) db :
  Id i = id ->
  put_lists id i (put_lists id i db) = put_lists id i db.
Proof.
  intros Hid. unfold put_lists, put_instances, put_user_instances, user_list,
    global_list. simpl.
  rewrite lookup_insert_eq. simpl.
  rewrite !(replaced_by_id_idem id i) by exact Hid.
  rewrite insert_insert_eq. reflexivity.
Qed.

Lemma put_lists_put_instance id id' (i rec : Instance) db :
  put_lists id i (put_instance id' rec db)
  = put_instance id' rec (put_lists id i db).
Proof. reflexivity. Qed.

Lemma env_changed_again variable value inst env :
  occurs equals variable = false ->
  env_changed variable value (env_changed variable value inst env)
    (Startup.change_env variable (default "" value) env)
  = env_changed variable value inst env.
Proof.
  intros Hfree. unfold env_changed.
  rewrite change_env_idempotent by exact Hfree.
  unfold migrated. destruct (suspended inst) eqn:Hs; simpl; rewrite ?Hs;
    reflexivity.
Qed.

(** C4, amended.  For a variable without an equals sign, two successful
    applications of the same change in a row leave the environment list as
    the first one left it: same length, an entry for the variable is there,
    and every entry whose key is the variable reads [variable=value].  The
    second application leaves the whole store as it found it. *)
Theorem env_change_twice ext user id variable value w :
  let change := run (Startup.changevariable ext user id variable value) in
  let first := change w in
  let second := change (snd first) in
  occurs equals variable = false ->
  fst first = Startup.success ->
  fst second = Startup.success ->
  (exists env1 env2,
      stored_env id (snd first) = Some env1
      /\ stored_env id (snd second) = Some env2
      /\ length env2 = length env1
      /\ In (Startup.env_entry variable (default "" value)) env2
      /\ (forall e, In e env2 -> Startup.env_key e = variable ->
                    e = Startup.env_entry variable (default "" value))
      /\ env2 = env1)
  /\ w_db (snd second) = w_db (snd first).
Proof.
  cbv zeta. intros Hfree H1 H2.
  destruct (run (Startup.changevariable ext user id variable value) w)
    as [r1 w1] eqn:E1.
  simpl in *. subst r1.
  destruct (run (Startup.changevariable ext user id variable value) w1)
    as [r2 w2] eqn:E2.
  simpl in *. subst r2.
  apply changevariable_success in E1
    as (u & inst & env & _ & _ & _ & _ & _ & Hdb1 & _).
  apply changevariable_success in E2
    as (u' & inst' & env' & _ & Hget' & _ & _ & Henv' & Hdb2 & _).
  assert (Hinst' : inst' = env_changed variable value inst env).
  { rewrite Hdb1 in Hget'. simpl in Hget'.
    rewrite lookup_insert_eq in Hget'. congruence. }
  subst inst'. simpl in Henv'. injection Henv' as <-.
  assert (Hid : Id (env_changed variable value inst env) = Id inst)
    by (unfold env_changed, migrated; destruct (suspended inst); reflexivity).
  split.
  - exists (Startup.change_env variable (default "" value) env),
           (Startup.change_env variable (default "" value)
              (Startup.change_env variable (default "" value) env)).
    unfold stored_env. rewrite Hdb1, Hdb2. simpl.
    rewrite !lookup_insert_eq. simpl.
    rewrite change_env_idempotent by exact Hfree.
    repeat split.
    + apply change_env_entry.
    + apply change_env_keyed.
  - rewrite Hdb2, Hdb1.
    rewrite (env_changed_again variable value inst env Hfree), Hid.
    set (upd := env_changed variable value inst env) in *.
    rewrite (put_lists_put_instance (Id inst) id upd upd
               (put_lists (Id inst) upd (put_instance id upd (w_db w)))).
    rewrite put_lists_twice by exact Hid.
    rewrite (put_lists_put_instance (Id inst) id upd upd (w_db w)).
    apply put_instance_twice.
Qed.

Lemma env_change_twice_witness :
  let change :=
    run (Startup.changevariable Sample.ext (Some Sample.alice) "srv1"
           "EULA" (Some "false")) in
  let first := change (Sample.world Sample.db) in
  let second := change (snd first) in
  (exists env1 env2,
      stored_env "srv1" (snd first) = Some env1
      /\ stored_env "srv1" (snd second) = Some env2
      /\ length env2 = length env1
      /\ In (Startup.env_entry "EULA" "false") env2
      /\ (forall e, In e env2 -> Startup.env_key e = "EULA" ->
                    e = Startup.env_entry "EULA" "false")
      /\ env2 = env1)
  /\ w_db (snd second) = w_db (snd first).
Proof.
  apply (env_change_twice Sample.ext (Some Sample.alice) "srv1" "EULA"
           (Some "false") (Sample.world Sample.db));
    vm_compute; reflexivity.
Defined.

(** C4 as stated fails for a variable that holds an equals sign: the
    handler accepts "A=B", appends "A=B=v", reads that entry's key as "A" on
    the second call, and appends again. *)
Lemma env_change_twice_grows :
  let change :=
    run (Startup.changevariable Sample.ext (Some Sample.alice) "srv1"
           "A=B" (Some "v")) in
  let first := change (Sample.world Sample.db) in
  let second := change (snd first) in
  fst first = Startup.success
  /\ fst second = Startup.success
  /\ stored_env "srv1" (snd first) = Some ["EULA=true"; "A=B=v"]
  /\ stored_env "srv1" (snd second) = Some ["EULA=true"; "A=B=v"; "A=B=v"].
Proof. vm_compute. repeat split; reflexivity. Qed.

(** ** Rename *)

Lemma truthy_str_true s : s <> "" -> Js.truthy_str s = true.
Proof.
  intros H. unfold Js.truthy_str. destruct (String.eqb_spec s ""); [contradiction|reflexivity].
Qed.

Lemma length_ok_nonempty newName :
  name_length_ok newName = true -> Js.truthy_str newName = true.
Proof. destruct newName; [discriminate|reflexivity]. Qed.

Lemma not_suspended inst :
  suspended inst <> Some true -> Startup.is_suspended inst = false.
Proof.
  unfold Startup.is_suspended. destruct (suspended inst) as [[|]|]; congruence.
Qed.

Section RenameRun.
Context (ext : Ext) (u : UserT) (id newName : string) (w : World)
        (inst : Instance).
Hypothesis Hid : id <> "".
Hypothesis Hget : instance_of (w_db w) !! id = Some inst.
Hypothesis Hauth :
  isUserAuthorizedForContainer ext (w_db w) (userId u) (Id inst) = true.
Hypothesis Hactive : suspended inst <> Some true.

Lemma rename_run :
  run (Startup.rename ext (Some u) id newName) w
  = if name_length_ok newName then
      if name_taken id newName (w_db w)
      then (Reply 400 (ErrorBody "Instance name already in use" None), w)
      else (Startup.success,
            mkWorld (renamed_store id newName inst (w_db w))
                    (w_trace w ++ rename_notice ext inst newName
                     ++ [EAudit (userId u) "instance:rename"])%list)
    else if Js.truthy_str newName
      then (Reply 400 (ErrorBody "Name must be between 3 and 32 characters" None), w)
      else (Startup.missing_parameters, w).
Proof.
  unfold run, Startup.rename.
  rewrite (truthy_str_true id Hid). simpl.
  destruct (name_length_ok newName) eqn:Hlen.
  - rewrite (length_ok_nonempty _ Hlen). simpl.
    unfold name_length_ok in Hlen. apply andb_true_iff in Hlen as [H3 H32].
    apply negb_true_iff in H3, H32. rewrite H3, H32. simpl.
    unfold try_catch, bind, ret, get_instance, read_db, authorized.
    simpl. rewrite Hget, Hauth. simpl.
    rewrite (not_suspended inst Hactive).
    unfold get_instances, read_db, bind, ret. simpl.
    fold (global_list (w_db w)). fold (name_taken id newName (w_db w)).
    destruct (name_taken id newName (w_db w)); [reflexivity|].
    unfold set_instance, write_db. simpl.
    unfold rename_notice, rename_request, renamed_store.
    destruct (Node inst) as [node|]; simpl.
    + destruct (Js.truthy_opt Js.truthy_str (ContainerId inst)); simpl.
      * unfold call_axios, emit, bind, ret, throw, console_error, emit. simpl.
        destruct (axios ext _); simpl; rewrite <- ?app_assoc; reflexivity.
      * reflexivity.
    + reflexivity.
  - destruct (Js.truthy_str newName) eqn:Hne; simpl; [|reflexivity].
    unfold name_length_ok in Hlen. apply andb_false_iff in Hlen.
    rewrite !negb_false_iff in Hlen.
    destruct Hlen as [-> | ->]; simpl; [reflexivity|].
    rewrite orb_true_r. reflexivity.
Qed.

End RenameRun.

Lemma name_taken_spec id newName db :
  name_taken id newName db = true
  <-> exists other, In other (global_list db)
                    /\ Name other = newName /\ Id other <> id.
Proof.
  unfold name_taken. rewrite existsb_exists. split.
  - intros (other & Hin & H). apply andb_true_iff in H as [Hn Hi].
    apply String.eqb_eq in Hn. apply negb_true_iff, String.eqb_neq in Hi.
    eauto.
  - intros (other & Hin & Hn & Hi). exists other. split; [exact Hin|].
    apply andb_true_iff. split.
    + apply String.eqb_eq, Hn.
    + apply negb_true_iff, String.eqb_neq, Hi.
Qed.

Lemma name_length_ok_spec newName :
  name_length_ok newName = false
  <-> (String.length newName < 3)%nat \/ (32 < String.length newName)%nat.
Proof.
  unfold name_length_ok. rewrite andb_false_iff, !negb_false_iff.
  rewrite !Nat.ltb_lt. reflexivity.
Qed.

(** C5.  For an authenticated, authorised request on an existing instance
    that is not suspended, rename answers 400 exactly when the new name is
    shorter than 3 or longer than 32 characters or an entry of the global
    list with another id already has that name; every other request of that
    kind succeeds, so renaming an instance to the name it has succeeds as
    long as no entry with another id carries it. *)
Theorem rename_validation ext u id newName w inst :
  id <> "" ->
  instance_of (w_db w) !! id = Some inst ->
  isUserAuthorizedForContainer ext (w_db w) (userId u) (Id inst) = true ->
  suspended inst <> Some true ->
  let r := fst (run (Startup.rename ext (Some u) id newName) w) in
  (is_validation_error r = true
   <-> (String.length newName < 3)%nat \/ (32 < String.length newName)%nat
       \/ exists other, In other (global_list (w_db w))
                        /\ Name other = newName /\ Id other <> id)
  /\ (is_validation_error r = false -> r = Startup.success)
  /\ (newName = Name inst ->
      (3 <= String.length newName <= 32)%nat ->
      (forall other, In other (global_list (w_db w)) ->
                     Name other = newName -> Id other = id) ->
      r = Startup.success).
Proof.
  intros Hid Hget Hauth Hactive. cbv zeta.
  rewrite (rename_run ext u id newName w inst Hid Hget Hauth Hactive).
  pose proof (name_length_ok_spec newName) as Hlen.
  pose proof (name_taken_spec id newName (w_db w)) as Htaken.
  destruct (name_length_ok newName) eqn:Elen.
  - assert (Hok : ~ ((String.length newName < 3)%nat
                     \/ (32 < String.length newName)%nat))
      by (intros H; apply Hlen in H; discriminate).
    destruct (name_taken id newName (w_db w)) eqn:Etaken; simpl.
    + split; [|split].
      * split; [intros _; right; right; apply Htaken; reflexivity|reflexivity].
      * discriminate.
      * intros _ _ Hown. exfalso.
        destruct (proj1 Htaken eq_refl) as (other & Hin & Hn & Hi).
        apply Hi, Hown; assumption.
    + split; [|split]; try reflexivity.
      split; [discriminate|].
      intros [H|[H|H]]; [exfalso; apply Hok; auto ..|].
      apply Htaken in H. discriminate.
  - assert (Hbad : (String.length newName < 3)%nat
                   \/ (32 < String.length newName)%nat)
      by (apply Hlen; reflexivity).
    destruct (Js.truthy_str newName); simpl.
    + split; [|split].
      * split; [intros _; tauto|reflexivity].
      * discriminate.
      * intros _ Hrange. exfalso. lia.
    + split; [|split].
      * split; [intros _; tauto|reflexivity].
      * discriminate.
      * intros _ Hrange. exfalso. lia.
Qed.

(** Renaming "lobby" to "lobby" on the sample panel. *)
Lemma rename_validation_witness :
  let r := fst (run (Startup.rename Sample.ext (Some Sample.alice) "srv1" "lobby")
                    (Sample.world Sample.db)) in
  (is_validation_error r = true
   <-> (String.length "lobby" < 3)%nat \/ (32 < String.length "lobby")%nat
       \/ exists other, In other (global_list Sample.db)
                        /\ Name other = "lobby" /\ Id other <> "srv1")
  /\ (is_validation_error r = false -> r = Startup.success)
  /\ ("lobby" = Name Sample.server ->
      (3 <= String.length "lobby" <= 32)%nat ->
      (forall other, In other (global_list Sample.db) ->
                     Name other = "lobby" -> Id other = "srv1") ->
      r = Startup.success).
Proof.
  apply (rename_validation Sample.ext Sample.alice "srv1" "lobby"
           (Sample.world Sample.db) Sample.server).
  - discriminate.
  - reflexivity.
  - reflexivity.
  - discriminate.
Defined.

(** C7.  When the rename has been written locally and the notification of
    the node agent then fails, the handler logs the error and goes on: it
    answers with success, the record, the owner's list and the global list
    hold the new name, and the store is the one any other agent behaviour
    would have left. *)
Theorem rename_survives_agent_failure ext u id newName w inst node cid e :
  id <> "" ->
  instance_of (w_db w) !! id = Some inst ->
  isUserAuthorizedForContainer ext (w_db w) (userId u) (Id inst) = true ->
  suspended inst <> Some true ->
  name_length_ok newName = true ->
  name_taken id newName (w_db w) = false ->
  Node inst = Some node ->
  ContainerId inst = Some cid ->
  cid <> "" ->
  axios ext (rename_request node (Some cid) newName) = Failed e ->
  let out := run (Startup.rename ext (Some u) id newName) w in
  fst out = Startup.success
  /\ w_trace (snd out)
     = (w_trace w
        ++ [EAgent (rename_request node (Some cid) newName);
            EConsoleError "Failed to update container name on node:" e;
            EAudit (userId u) "instance:rename"])%list
  /\ instance_of (w_db (snd out)) !! id = Some (set_Name newName inst)
  /\ In (set_Name newName inst) (user_list (User inst) (w_db (snd out)))
  /\ In (set_Name newName inst) (global_list (w_db (snd out)))
  /\ (forall ext',
        isUserAuthorizedForContainer ext' = isUserAuthorizedForContainer ext ->
        w_db (snd (run (Startup.rename ext' (Some u) id newName) w))
        = w_db (snd out)).
Proof.
  intros Hid Hget Hauth Hactive Hlen Hfree Hnode Hcid Hcid' Hfail. cbv zeta.
  rewrite (rename_run ext u id newName w inst Hid Hget Hauth Hactive).
  rewrite Hlen, Hfree. cbn [fst snd w_db w_trace].
  split; [reflexivity|]. split.
  { unfold rename_notice. rewrite Hnode, Hcid. simpl.
    rewrite (truthy_str_true cid Hcid'), Hfail. reflexivity. }
  split; [apply lookup_insert_eq|].
  split.
  { unfold user_list, renamed_store. simpl. rewrite lookup_insert_eq. simpl.
    apply in_or_app. right. left. reflexivity. }
  split.
  { unfold global_list, renamed_store. simpl. apply in_or_app. right. left. reflexivity. }
  intros ext' Hsame.
  rewrite (rename_run ext' u id newName w inst Hid Hget); try assumption.
  - rewrite Hlen, Hfree. reflexivity.
  - rewrite Hsame. exact Hauth.
Qed.

(** The sample panel with its agent down, "lobby" renamed to "spawn". *)
Lemma rename_survives_agent_failure_witness :
  let out := run (Startup.rename Sample.ext_agent_down (Some Sample.alice)
                    "srv1" "spawn") (Sample.world Sample.db) in
  fst out = Startup.success
  /\ w_trace (snd out)
     = ([]
        ++ [EAgent (rename_request Sample.node (Some "c0") "spawn");
            EConsoleError "Failed to update container name on node:"
              (AxiosError None "connect ECONNREFUSED");
            EAudit "u1" "instance:rename"])%list
  /\ instance_of (w_db (snd out)) !! "srv1"
     = Some (set_Name "spawn" Sample.server)
  /\ In (set_Name "spawn" Sample.server) (user_list "u1" (w_db (snd out)))
  /\ In (set_Name "spawn" Sample.server) (global_list (w_db (snd out)))
  /\ (forall ext',
        isUserAuthorizedForContainer ext'
        = isUserAuthorizedForContainer Sample.ext_agent_down ->
        w_db (snd (run (Startup.rename ext' (Some Sample.alice) "srv1" "spawn")
                     (Sample.world Sample.db)))
        = w_db (snd out)).
Proof.
  apply (rename_survives_agent_failure Sample.ext_agent_down Sample.alice
           "srv1" "spawn" (Sample.world Sample.db) Sample.server Sample.node
           "c0" (AxiosError None "connect ECONNREFUSED"));
    try reflexivity; discriminate.
Defined.

(** ** Image change: the parameter check comes after the migration *)

(** C9.  On a record without [suspended], an authorised image-change
    request whose [image] or [user] query parameter is missing (or whose
    record names no node id) is answered with 400 "Missing parameters"
    after the record was rewritten with [suspended = false]: the store the
    error leaves differs from the store the request found. *)
Theorem changeimage_missing_parameters_not_atomic
    ext u id image quser w inst node :
  id <> "" ->
  instance_of (w_db w) !! id = Some inst ->
  isUserAuthorizedForContainer ext (w_db w) (userId u) (Id inst) = true ->
  suspended inst = None ->
  Node inst = Some node ->
  image = "" \/ quser = "" \/ node_id node = "" ->
  let out := run (Startup.changeimage ext (Some u) id image quser) w in
  fst out = Reply 400 (ErrorBody "Missing parameters" None)
  /\ instance_of (w_db (snd out)) !! id = Some (set_suspended false inst)
  /\ w_db (snd out) = put_instance id (set_suspended false inst) (w_db w)
  /\ w_db (snd out) <> w_db w
  /\ w_trace (snd out) = w_trace w.
Proof.
  intros Hid Hget Hauth Hs Hnode Hmissing. cbv zeta.
  assert (Hrun :
    run (Startup.changeimage ext (Some u) id image quser) w
    = (Startup.missing_parameters,
       mkWorld (put_instance id (set_suspended false inst) (w_db w))
               (w_trace w))).
  { unfold run, Startup.changeimage.
    rewrite (truthy_str_true id Hid). simpl.
    unfold try_catch, bind, ret, get_instance, read_db, authorized.
    simpl. rewrite Hget, Hauth. simpl.
    rewrite migrate_run, Hs. simpl. rewrite Hnode.
    destruct Hmissing as [-> | [-> | ->]]; simpl; [reflexivity| |].
    - rewrite orb_true_r. reflexivity.
    - rewrite !orb_true_r. reflexivity. }
  rewrite Hrun. simpl.
  repeat split; try reflexivity.
  - apply lookup_insert_eq.
  - intros E. apply (f_equal (fun d => suspended <$> instance_of d !! id)) in E.
    simpl in E. rewrite lookup_insert_eq, Hget in E. simpl in E. congruence.
Qed.

(** The legacy record of the sample panel, image change without an image. *)
Lemma changeimage_missing_parameters_not_atomic_witness :
  let out := run (Startup.changeimage Sample.ext (Some Sample.alice)
                    "srv1" "" "u1") (Sample.world Legacy.db) in
  fst out = Reply 400 (ErrorBody "Missing parameters" None)
  /\ instance_of (w_db (snd out)) !! "srv1"
     = Some (set_suspended false Legacy.server)
  /\ w_db (snd out) = put_instance "srv1" (set_suspended false Legacy.server)
                        Legacy.db
  /\ w_db (snd out) <> Legacy.db
  /\ w_trace (snd out) = [].
Proof.
  apply (changeimage_missing_parameters_not_atomic Sample.ext Sample.alice
           "srv1" "" "u1" (Sample.world Legacy.db) Legacy.server Sample.node);
    try reflexivity; [discriminate | left; reflexivity].
Defined.

(** ** Migration on read *)

Ltac unfold_all H :=
  unfold_monad H;
  unfold Startup.prepareRequestData, Startup.updateDatabaseWithNewInstance,
    Startup.updateInstanceInUserAndGlobalArrays in H;
  unfold_monad H.

Lemma changeimage_migrates ext u id image quser w inst :
  id <> "" ->
  instance_of (w_db w) !! id = Some inst ->
  isUserAuthorizedForContainer ext (w_db w) (userId u) (Id inst) = true ->
  suspended inst = None ->
  let out := run (Startup.changeimage ext (Some u) id image quser) w in
  fst out <> suspended_response (DoChangeImage image quser) id
  /\ stored_suspended id (snd out) = Some (Some false).
Proof.
  intros Hid Hget Hauth Hs. cbv zeta.
  destruct (run (Startup.changeimage ext (Some u) id image quser) w)
    as [r w'] eqn:E.
  unfold run, Startup.changeimage in E.
  rewrite (truthy_str_true id Hid) in E. cbn [negb] in E.
  unfold_all E. simpl in E. rewrite Hget, Hauth in E. simpl in E.
  rewrite migrate_run, Hs in E.
  change (Startup.is_suspended (set_suspended false inst)) with false in E.
  unfold stored_suspended.
  case_run E; injection E as <- <-; (split; [discriminate|]); simpl;
    rewrite lookup_insert_eq; reflexivity.
Qed.

Lemma changevariable_migrates ext u id variable value w inst :
  id <> "" ->
  variable <> "" ->
  instance_of (w_db w) !! id = Some inst ->
  isUserAuthorizedForContainer ext (w_db w) (userId u) (Id inst) = true ->
  suspended inst = None ->
  let out := run (Startup.changevariable ext (Some u) id variable value) w in
  fst out <> suspended_response (DoChangeVariable variable value) id
  /\ stored_suspended id (snd out) = Some (Some false).
Proof.
  intros Hid Hvar Hget Hauth Hs. cbv zeta.
  destruct (run (Startup.changevariable ext (Some u) id variable value) w)
    as [r w'] eqn:E.
  unfold run, Startup.changevariable in E.
  rewrite (truthy_str_true id Hid), (truthy_str_true variable Hvar) in E.
  cbn [negb orb] in E.
  unfold_all E. simpl in E. rewrite Hget, Hauth in E. simpl in E.
  rewrite migrate_run, Hs in E.
  change (Startup.is_suspended (set_suspended false inst)) with false in E.
  unfold stored_suspended.
  case_run E; injection E as <- <-; (split; [discriminate|]); simpl;
    rewrite lookup_insert_eq; reflexivity.
Qed.

Lemma startup_migrates ext u id w inst :
  id <> "" ->
  instance_of (w_db w) !! id = Some inst ->
  isUserAuthorizedForContainer ext (w_db w) (userId u) (Id inst) = true ->
  suspended inst = None ->
  run (Startup.startup ext (Some u) id) w
  = (Render "instance/startup.ejs" (set_suspended false inst),
     mkWorld (put_instance id (set_suspended false inst) (w_db w)) (w_trace w)).
Proof.
  intros Hid Hget Hauth Hs.
  unfold run, Startup.startup. rewrite (truthy_str_true id Hid). cbn [negb].
  unfold try_catch, bind, ret, get_instance, read_db, authorized. simpl.
  rewrite Hget, Hauth. simpl. rewrite migrate_run, Hs. reflexivity.
Qed.

(** C6, amended.  The startup view, the env-variable change and the image
    change, once the caller is authorised, treat a record without
    [suspended] as not suspended and write it back with [suspended = false]:
    whatever the request then does, the stored record carries the flag. *)
Theorem migration_on_read ext u id w inst :
  id <> "" ->
  instance_of (w_db w) !! id = Some inst ->
  isUserAuthorizedForContainer ext (w_db w) (userId u) (Id inst) = true ->
  suspended inst = None ->
  (let out := run (Startup.startup ext (Some u) id) w in
   fst out = Render "instance/startup.ejs" (set_suspended false inst)
   /\ w_db (snd out) = put_instance id (set_suspended false inst) (w_db w)
   /\ stored_suspended id (snd out) = Some (Some false))
  /\ (forall variable value,
        variable <> "" ->
        let out :=
          run (Startup.changevariable ext (Some u) id variable value) w in
        fst out <> Startup.suspended_error
        /\ stored_suspended id (snd out) = Some (Some false))
  /\ (forall image quser,
        let out := run (Startup.changeimage ext (Some u) id image quser) w in
        fst out <> Redirect (String.append "../../instance/"
                               (String.append id "/suspended"))
        /\ stored_suspended id (snd out) = Some (Some false)).
Proof.
  intros Hid Hget Hauth Hs. split; [|split].
  - cbv zeta. rewrite (startup_migrates ext u id w inst) by assumption.
    unfold stored_suspended. simpl. rewrite lookup_insert_eq.
    repeat split; reflexivity.
  - intros variable value Hvar.
    exact (changevariable_migrates ext u id variable value w inst
             Hid Hvar Hget Hauth Hs).
  - intros image quser.
    exact (changeimage_migrates ext u id image quser w inst Hid Hget Hauth Hs).
Qed.

(** The startup view on the legacy record of the sample panel. *)
Lemma migration_on_read_witness :
  let out := run (Startup.startup Sample.ext (Some Sample.alice) "srv1")
                 (Sample.world Legacy.db) in
  fst out = Render "instance/startup.ejs" (set_suspended false Legacy.server)
  /\ w_db (snd out)
     = put_instance "srv1" (set_suspended false Legacy.server) Legacy.db
  /\ stored_suspended "srv1" (snd out) = Some (Some false).
Proof.
  apply (migration_on_read Sample.ext Sample.alice "srv1"
           (Sample.world Legacy.db) Legacy.server);
    try reflexivity; discriminate.
Defined.

(** C6 as stated fails.  A caller who is not authorised makes the startup
    view read the legacy record and leave it as it is.  Rename, reinstall
    and edit read it, go on as for an instance that is not suspended, and
    leave a record without the flag behind. *)
Lemma migration_skipped_elsewhere :
  let start := Sample.world Legacy.db in
  let viewed :=
    run (Startup.startup Sample.ext_locked (Some Sample.alice) "srv1") start in
  let renamed :=
    run (Startup.rename Sample.ext (Some Sample.alice) "srv1" "spawn") start in
  let reinstalled :=
    run (Reinstall.reinstall Sample.ext (Some Sample.alice) "srv1") start in
  let edited :=
    run (Edit.edit Sample.ext (Some Sample.alice) "srv1"
           (Edit.mkEditRequest "" 2048 0)) start in
  (fst viewed = Startup.unauthorized /\ snd viewed = start
   /\ stored_suspended "srv1" (snd viewed) = Some None)
  /\ (fst renamed = Startup.success
      /\ stored_suspended "srv1" (snd renamed) = Some None)
  /\ (fst reinstalled = Redirect "../../instance/srv1"
      /\ stored_suspended "srv1" (snd reinstalled) = Some None)
  /\ (fst edited
      = Reply 200 (EditedBody "srv1" "c1" "unchanged" "updated" "unchanged")
      /\ stored_suspended "srv1" (snd edited) = None
      /\ stored_suspended "c1" (snd edited) = Some None).
Proof. vm_compute. repeat split; reflexivity. Qed.

(** ** The suspension gate *)

Lemma is_suspended_true inst :
  suspended inst = Some true -> Startup.is_suspended inst = true.
Proof. unfold Startup.is_suspended. intros ->. reflexivity. Qed.

(** C2, amended.  Reinstall, rename, env-variable change and image change
    on an instance whose [suspended] flag is true leave the world as it was:
    no agent call, no write, nothing logged.  When the request is
    authenticated, well formed and authorised, the answer is the route's
    suspended redirect or error. *)
Theorem suspended_gate ext m user id w inst :
  gated m = true ->
  instance_of (w_db w) !! id = Some inst ->
  suspended inst = Some true ->
  let out := run (handle ext m user id) w in
  snd out = w
  /\ (forall u,
        user = Some u ->
        well_formed m id = true ->
        isUserAuthorizedForContainer ext (w_db w) (userId u) (Id inst) = true ->
        fst out = suspended_response m id).
Proof.
  intros Hgated Hget Hs. cbv zeta.
  pose proof (is_suspended_true inst Hs) as Hsusp.
  destruct m as [|body|newName|variable value|image quser];
    try discriminate Hgated; unfold handle, well_formed.
  - (* reinstall *)
    unfold run, Reinstall.reinstall.
    destruct user as [u|]; [|split; [reflexivity|discriminate]].
    destruct (Js.truthy_str id) eqn:Hid; cbn [negb];
      [|split; [reflexivity|discriminate]].
    unfold try_catch, bind, ret, get_instance, read_db, authorized. simpl.
    rewrite Hget. simpl.
    destruct (isUserAuthorizedForContainer ext (w_db w) (userId u) (Id inst))
      eqn:Hauth; simpl.
    + rewrite Hsusp. simpl. split; [reflexivity|]. intros; reflexivity.
    + split; [reflexivity|]. intros u' [= <-] _ Hauth'. congruence.
  - (* rename *)
    unfold run, Startup.rename.
    destruct user as [u|]; [|split; [reflexivity|discriminate]].
    destruct (Js.truthy_str id) eqn:Hid; cbn [negb orb andb];
      [|split; [reflexivity|discriminate]].
    destruct (Js.truthy_str newName) eqn:Hnew; cbn [negb orb andb];
      [|split; [reflexivity|]; intros _ _ Hlen _;
        destruct newName; discriminate].
    unfold name_length_ok.
    destruct ((String.length newName <? 3)%nat); cbn [negb orb andb];
      [split; [reflexivity|discriminate]|].
    destruct ((32 <? String.length newName)%nat); cbn [negb orb andb];
      [split; [reflexivity|discriminate]|].
    unfold try_catch, bind, ret, get_instance, read_db, authorized. simpl.
    rewrite Hget. simpl.
    destruct (isUserAuthorizedForContainer ext (w_db w) (userId u) (Id inst))
      eqn:Hauth; simpl.
    + rewrite Hsusp. simpl. split; [reflexivity|]. intros; reflexivity.
    + split; [reflexivity|]. intros u' [= <-] _ Hauth'. congruence.
  - (* env-variable change *)
    unfold run, Startup.changevariable.
    destruct user as [u|]; [|split; [reflexivity|discriminate]].
    destruct (Js.truthy_str id) eqn:Hid; cbn [negb orb andb];
      [|split; [reflexivity|discriminate]].
    destruct (Js.truthy_str variable) eqn:Hvar; cbn [negb orb andb];
      [|split; [reflexivity|discriminate]].
    unfold try_catch, bind, ret, get_instance, read_db, authorized. simpl.
    rewrite Hget. simpl.
    destruct (isUserAuthorizedForContainer ext (w_db w) (userId u) (Id inst))
      eqn:Hauth; simpl.
    + rewrite migrate_run, Hs, Hsusp. simpl.
      split; [reflexivity|]. intros; reflexivity.
    + split; [reflexivity|]. intros u' [= <-] _ Hauth'. congruence.
  - (* image change *)
    unfold run, Startup.changeimage.
    destruct user as [u|]; [|split; [reflexivity|discriminate]].
    destruct (Js.truthy_str id) eqn:Hid; cbn [negb orb andb];
      [|split; [reflexivity|discriminate]].
    unfold try_catch, bind, ret, get_instance, read_db, authorized. simpl.
    rewrite Hget. simpl.
    destruct (isUserAuthorizedForContainer ext (w_db w) (userId u) (Id inst))
      eqn:Hauth; simpl.
    + rewrite migrate_run, Hs, Hsusp. simpl.
      split; [reflexivity|]. intros; reflexivity.
    + split; [reflexivity|]. intros u' [= <-] _ Hauth'. congruence.
Qed.

(** Reinstall of the suspended sample instance. *)
Lemma suspended_gate_witness :
  let out := run (handle Sample.ext DoReinstall (Some Sample.alice) "srv1")
                 (Sample.world Suspended.db) in
  snd out = Sample.world Suspended.db
  /\ (forall u,
        Some Sample.alice = Some u ->
        well_formed DoReinstall "srv1" = true ->
        isUserAuthorizedForContainer Sample.ext Suspended.db (userId u)
          (Id Suspended.server) = true ->
        fst out = suspended_response DoReinstall "srv1").
Proof.
  apply (suspended_gate Sample.ext DoReinstall (Some Sample.alice) "srv1"
           (Sample.world Suspended.db) Suspended.server); reflexivity.
Defined.

(** C2 as stated fails twice on the suspended sample instance: rename is
    refused with the suspended error and changes nothing, and edit calls the
    agent and moves the record. *)
Lemma rename_gated_edit_not_gated :
  let start := Sample.world Suspended.db in
  let renamed :=
    run (handle Sample.ext (DoRename "spawn") (Some Sample.alice) "srv1")
        start in
  let edited :=
    run (handle Sample.ext (DoEdit (Edit.mkEditRequest "" 2048 0))
           (Some Sample.alice) "srv1") start in
  (fst renamed = Reply 403 (ErrorBody "Instance is suspended" None)
   /\ snd renamed = start)
  /\ (fst edited
      = Reply 200 (EditedBody "srv1" "c1" "unchanged" "updated" "unchanged")
      /\ w_trace (snd edited)
         = [EAgent (edit_request Suspended.server Sample.node
                      (Edit.mkEditRequest "" 2048 0));
            EAudit "u1" "instance:edit"]
      /\ (Memory <$> instance_of (w_db (snd edited)) !! "c1") = Some 2048
      /\ instance_of (w_db (snd edited)) !! "srv1" = None).
Proof. vm_compute. repeat split; reflexivity. Qed.

(** ** Edit *)

Lemma updateUserInstances_run userId old (upd : Instance) (w : World) :
  Edit.updateUserInstances userId old upd w
  = (inr tt, mkWorld (edit_user_list userId old upd (w_db w)) (w_trace w)).
Proof.
  unfold Edit.updateUserInstances, edit_user_list, patch, user_list,
    has_container, bind, get_user_instances, read_db, ret. simpl.
  destruct (Js.findIndex _ _) as [i|]; [|destruct w; reflexivity].
  destruct (_ !! i); [reflexivity|destruct w; reflexivity].
Qed.

Lemma updateGlobalInstances_run old (upd : Instance) (w : World) :
  Edit.updateGlobalInstances old upd w
  = (inr tt, mkWorld (edit_global_list old upd (w_db w)) (w_trace w)).
Proof.
  unfold Edit.updateGlobalInstances, edit_global_list, patch, global_list,
    has_container, bind, get_instances, read_db, ret. simpl.
  destruct (Js.findIndex _ _) as [i|]; [|destruct w; reflexivity].
  destruct (_ !! i); [reflexivity|destruct w; reflexivity].
Qed.

Lemma updateInstanceInDatabase_run ext id inst image memory cpu c (w : World) :
  Edit.updateInstanceInDatabase ext id inst image memory cpu c w
  = (inr (Edit.edited ext inst image memory cpu c),
     mkWorld (edited_store id c inst (Edit.edited ext inst image memory cpu c)
                (w_db w))
             (w_trace w)).
Proof.
  unfold Edit.updateInstanceInDatabase.
  unfold bind at 1. unfold set_instance at 1, write_db at 1.
  unfold bind at 1. unfold del_instance at 1, write_db at 1.
  unfold bind at 1. rewrite updateUserInstances_run.
  unfold bind at 1. rewrite updateGlobalInstances_run.
  reflexivity.
Qed.

Lemma edit_run ext u id body w inst node status data c :
  admin u = true ->
  id <> "" ->
  edit_body_ok body = true ->
  instance_of (w_db w) !! id = Some inst ->
  Edit.node_configured inst = Some node ->
  axios ext (edit_request inst node body) = Replied status (Some data) ->
  newContainerId data = Some c ->
  c <> "" ->
  run (Edit.edit ext (Some u) id body) w
  = (edit_response id c body,
     mkWorld (edited_store id c inst (edit_result ext inst body c) (w_db w))
             (w_trace w ++ [EAgent (edit_request inst node body);
                            EAudit (userId u) "instance:edit"])%list).
Proof.
  intros Hadmin Hid Hbody Hget Hnode Haxios Hdata Hc.
  unfold run, Edit.edit. rewrite Hadmin. cbn [negb].
  unfold try_catch. rewrite (truthy_str_true id Hid). cbn [negb].
  unfold edit_body_ok in Hbody.
  apply andb_true_iff in Hbody as [Hbody Hcpu].
  apply andb_true_iff in Hbody as [Hany Hmem].
  apply negb_true_iff in Hmem, Hcpu.
  assert (Hnone : (negb (Js.truthy_str (Edit.eImage body))
                   && negb (Js.truthy_num (Edit.eMemory body))
                   && negb (Js.truthy_num (Edit.eCpu body)))%bool = false).
  { destruct (Js.truthy_str _), (Js.truthy_num (Edit.eMemory body)),
      (Js.truthy_num (Edit.eCpu body)); simpl in *; congruence. }
  cbv zeta. rewrite Hnone, Hmem, Hcpu.
  unfold bind at 1. unfold get_instance, bind at 1, read_db, ret at 1.
  rewrite Hget, Hnode.
  unfold bind at 1. unfold call_axios, bind at 1, emit at 1.
  fold (edit_request inst node body). rewrite Haxios.
  unfold ret at 1. cbn [snd]. cbn [mbind option_bind]. rewrite Hdata.
  rewrite (truthy_str_true c Hc).
  unfold bind at 1. rewrite updateInstanceInDatabase_run.
  unfold bind at 1, logAudit, emit, ret. cbn [w_db w_trace].
  rewrite <- app_assoc. reflexivity.
Qed.

Lemma edit_success ext user id body w o c x y z w' :
  run (Edit.edit ext user id body) w = (Reply 200 (EditedBody o c x y z), w') ->
  exists u inst node status data,
    user = Some u
    /\ admin u = true
    /\ id <> ""
    /\ edit_body_ok body = true
    /\ instance_of (w_db w) !! id = Some inst
    /\ Edit.node_configured inst = Some node
    /\ axios ext (edit_request inst node body) = Replied status (Some data)
    /\ newContainerId data = Some c
    /\ c <> ""
    /\ o = id.
Proof.
  intros H. unfold run, Edit.edit in H.
  destruct user as [u|]; [|discriminate].
  destruct (admin u) eqn:Hadmin; [|discriminate]. cbn [negb] in H.
  unfold try_catch in H.
  destruct (Js.truthy_str id) eqn:Hid; [|discriminate]. cbn [negb] in H.
  cbv zeta in H.
  destruct (negb (Js.truthy_str (Edit.eImage body))
            && negb (Js.truthy_num (Edit.eMemory body))
            && negb (Js.truthy_num (Edit.eCpu body)))%bool eqn:Hnone;
    [discriminate|].
  destruct (Js.truthy_num (Edit.eMemory body) && (Edit.eMemory body <=? 0))%bool
    eqn:Hmem; [discriminate|].
  destruct (Js.truthy_num (Edit.eCpu body) && (Edit.eCpu body <=? 0))%bool
    eqn:Hcpu; [discriminate|].
  unfold bind at 1 in H. unfold get_instance, bind at 1, read_db, ret at 1 in H.
  destruct (instance_of (w_db w) !! id) as [inst|] eqn:Hget; [|discriminate].
  destruct (Edit.node_configured inst) as [node|] eqn:Hnode; [|discriminate].
  unfold bind at 1 in H. unfold call_axios, bind at 1, emit at 1 in H.
  fold (edit_request inst node body) in H.
  destruct (axios ext (edit_request inst node body)) as [status data|e]
    eqn:Haxios; [|discriminate].
  unfold ret at 1 in H. cbn [snd] in H.
  destruct data as [data|]; [|discriminate]. cbn [mbind option_bind] in H.
  destruct (newContainerId data) as [c'|] eqn:Hdata; [|discriminate].
  destruct (Js.truthy_str c') eqn:Hc; [|discriminate].
  unfold bind at 1 in H. rewrite updateInstanceInDatabase_run in H.
  unfold bind at 1, logAudit, emit, ret in H. cbn [w_db w_trace] in H.
  injection H as <- <- _ _ _ _.
  exists u, inst, node, status, data.
  repeat split; try assumption; try reflexivity.
  - intros ->. discriminate.
  - unfold edit_body_ok. rewrite Hmem, Hcpu.
    destruct (Js.truthy_str (Edit.eImage body)),
      (Js.truthy_num (Edit.eMemory body)),
      (Js.truthy_num (Edit.eCpu body)); try reflexivity.
    discriminate Hnone.
  - intros ->. discriminate.
Qed.

Lemma edited_store_instance_of id c inst upd db :
  instance_of (edited_store id c inst upd db)
  = delete id (<[c := upd]> (instance_of db)).
Proof.
  unfold edited_store, edit_global_list, edit_user_list.
  repeat (destruct (patch _ _ _); simpl); reflexivity.
Qed.

Lemma findIndex_none {A} (p : A -> bool) (l : list A) :
  (forall x, In x l -> p x = false) -> Js.findIndex p l = None.
Proof.
  induction l as [|a l IH]; [reflexivity|].
  intros H. simpl. rewrite (H a (or_introl eq_refl)).
  rewrite IH; [reflexivity|]. intros x Hx. apply H. right. exact Hx.
Qed.

Lemma has_container_false id (entry : Instance) :
  ContainerId entry <> Some id -> has_container id entry = false.
Proof. intros H. unfold has_container. apply bool_decide_eq_false. exact H. Qed.

Lemma patch_unmatched id upd (l : list Instance) :
  (forall entry, In entry l -> ContainerId entry <> Some id) ->
  patch id upd l = None.
Proof.
  intros H. unfold patch. rewrite findIndex_none; [reflexivity|].
  intros entry Hin. apply has_container_false, H, Hin.
Qed.

(** ** Which routes change the set of record keys *)

Lemma dom_overwrite (m : gmap string Instance) id (old new : Instance) :
  m !! id = Some old -> dom (<[id := new]> m) = dom m.
Proof.
  intros H. rewrite dom_insert_L. apply subseteq_union_1_L.
  apply singleton_subseteq_l. eapply elem_of_dom_2. exact H.
Qed.

Ltac unfold_reinstall H :=
  unfold Reinstall.prepareRequestData, Reinstall.updateDatabaseWithNewInstance,
    Reinstall.rethrow, Reinstall.failure in H;
  unfold_monad H.

Ltac keys_kept_tac :=
  cbn [w_db instance_of];
  repeat (erewrite dom_overwrite;
          [|first [eassumption | apply lookup_insert_eq]]);
  reflexivity.

Lemma keys_kept ext m user id w :
  gated m = true ->
  dom (instance_of (w_db (snd (run (handle ext m user id) w))))
  = dom (instance_of (w_db w)).
Proof.
  intros Hgated.
  destruct (run (handle ext m user id) w) as [r w'] eqn:E. cbn [snd].
  destruct m as [|body|newName|variable value|image quser];
    try discriminate Hgated; unfold run, handle in E.
  - unfold Reinstall.reinstall in E. unfold_reinstall E. simpl in E.
    case_run E; injection E as <- <-; keys_kept_tac.
  - unfold Startup.rename in E. unfold_all E. simpl in E.
    case_run E; injection E as <- <-; keys_kept_tac.
  - unfold Startup.changevariable in E. unfold_all E.
    unfold Startup.migrate_suspended in E. unfold_all E. simpl in E.
    case_run E; injection E as <- <-; keys_kept_tac.
  - unfold Startup.changeimage in E. unfold_all E.
    unfold Startup.migrate_suspended in E. unfold_all E. simpl in E.
    case_run E; injection E as <- <-; keys_kept_tac.
Qed.

Lemma keys_kept_by_view ext user id w :
  dom (instance_of (w_db (snd (run (Startup.startup ext user id) w))))
  = dom (instance_of (w_db w)).
Proof.
  destruct (run (Startup.startup ext user id) w) as [r w'] eqn:E. cbn [snd].
  unfold run, Startup.startup in E. unfold_all E.
  unfold Startup.migrate_suspended in E. unfold_all E. simpl in E.
  case_run E; injection E as <- <-; keys_kept_tac.
Qed.

(** C3.  After a successful edit of instance id [id] whose agent reply
    names a container id [c] other than [id], the updated record is stored
    under [c], nothing is stored under [id] any more, and edit is the only
    route that changes which record keys exist: reinstall, rename,
    env-variable change, image change and the startup view all leave the set
    of record keys as they found it. *)
Theorem edit_rekeys_record ext user id body w c x y z :
  let out := run (Edit.edit ext user id body) w in
  fst out = Reply 200 (EditedBody id c x y z) ->
  c <> id ->
  (exists inst,
      instance_of (w_db w) !! id = Some inst
      /\ instance_of (w_db (snd out)) !! c = Some (edit_result ext inst body c))
  /\ instance_of (w_db (snd out)) !! id = None
  /\ (forall ext' m user' id' w0,
        gated m = true ->
        dom (instance_of (w_db (snd (run (handle ext' m user' id') w0))))
        = dom (instance_of (w_db w0)))
  /\ (forall ext' user' id' w0,
        dom (instance_of (w_db (snd (run (Startup.startup ext' user' id') w0))))
        = dom (instance_of (w_db w0))).
Proof.
  cbv zeta. intros Hok Hne.
  destruct (run (Edit.edit ext user id body) w) as [r w'] eqn:E.
  cbn [fst snd] in *. subst r.
  pose proof (edit_success _ _ _ _ _ _ _ _ _ _ _ E)
    as (u & inst & node & status & data & -> & Hadmin & Hid & Hbody & Hget
        & Hnode & Haxios & Hdata & Hc & _).
  rewrite (edit_run ext u id body w inst node status data c) in E
    by assumption.
  apply (f_equal snd) in E. cbn [snd] in E. subst w'. cbn [w_db].
  rewrite edited_store_instance_of.
  split; [|split; [|split]].
  - exists inst. split; [exact Hget|].
    rewrite lookup_delete_ne by congruence. apply lookup_insert_eq.
  - apply lookup_delete_eq.
  - intros ext' m user' id' w0. apply keys_kept.
  - intros ext' user' id' w0. apply keys_kept_by_view.
Qed.

(** Memory of the sample instance raised to 2048, the agent answering
    with container id "c1". *)
Lemma edit_rekeys_record_witness :
  let out := run (Edit.edit Sample.ext (Some Sample.alice) "srv1"
                    (Edit.mkEditRequest "" 2048 0)) (Sample.world Sample.db) in
  (exists inst,
      instance_of Sample.db !! "srv1" = Some inst
      /\ instance_of (w_db (snd out)) !! "c1"
         = Some (edit_result Sample.ext inst (Edit.mkEditRequest "" 2048 0) "c1"))
  /\ instance_of (w_db (snd out)) !! "srv1" = None
  /\ (forall ext' m user' id' w0,
        gated m = true ->
        dom (instance_of (w_db (snd (run (handle ext' m user' id') w0))))
        = dom (instance_of (w_db w0)))
  /\ (forall ext' user' id' w0,
        dom (instance_of (w_db (snd (run (Startup.startup ext' user' id') w0))))
        = dom (instance_of (w_db w0))).
Proof.
  apply (edit_rekeys_record Sample.ext (Some Sample.alice) "srv1"
           (Edit.mkEditRequest "" 2048 0) (Sample.world Sample.db) "c1"
           "unchanged" "updated" "unchanged").
  - vm_compute. reflexivity.
  - discriminate.
Defined.

(** C10.  An edit that goes through answers with success whatever the
    lists hold.  If the owner's list has no entry whose [ContainerId] is
    the old id, the stored user lists are left exactly as they were, and
    likewise the global list; the record is written under the new key all
    the same. *)
Theorem edit_leaves_unmatched_lists ext u id body w inst node status data c :
  admin u = true ->
  id <> "" ->
  edit_body_ok body = true ->
  instance_of (w_db w) !! id = Some inst ->
  Edit.node_configured inst = Some node ->
  axios ext (edit_request inst node body) = Replied status (Some data) ->
  newContainerId data = Some c ->
  c <> "" ->
  c <> id ->
  let out := run (Edit.edit ext (Some u) id body) w in
  fst out = edit_response id c body
  /\ ((forall entry, In entry (user_list (User inst) (w_db w)) ->
                     ContainerId entry <> Some id) ->
      instances_of_user (w_db (snd out)) = instances_of_user (w_db w))
  /\ ((forall entry, In entry (global_list (w_db w)) ->
                     ContainerId entry <> Some id) ->
      instances (w_db (snd out)) = instances (w_db w))
  /\ instance_of (w_db (snd out)) !! c = Some (edit_result ext inst body c)
  /\ instance_of (w_db (snd out)) !! id = None.
Proof.
  intros Hadmin Hid Hbody Hget Hnode Haxios Hdata Hc Hne. cbv zeta.
  rewrite (edit_run ext u id body w inst node status data c) by assumption.
  cbn [fst snd w_db].
  split; [reflexivity|]. split; [|split; [|split]].
  - intros Hnone. unfold edited_store, edit_global_list, edit_user_list.
    change (user_list (User inst) (move_instance id c _ (w_db w)))
      with (user_list (User inst) (w_db w)).
    rewrite (patch_unmatched id _ _ Hnone).
    destruct (patch _ _ _); reflexivity.
  - intros Hnone. unfold edited_store, edit_global_list.
    assert (Hsame : forall d, global_list (edit_user_list (User inst) id
                       (edit_result ext inst body c) d) = global_list d).
    { intros d. unfold edit_user_list. destruct (patch _ _ _); reflexivity. }
    rewrite Hsame.
    change (global_list (move_instance id c _ (w_db w)))
      with (global_list (w_db w)).
    rewrite (patch_unmatched id _ _ Hnone).
    unfold edit_user_list. destruct (patch _ _ _); reflexivity.
  - rewrite edited_store_instance_of.
    rewrite lookup_delete_ne by congruence. apply lookup_insert_eq.
  - rewrite edited_store_instance_of. apply lookup_delete_eq.
Qed.

(** The sample instance has container id "c0" in both lists, so neither
    list has an entry for the route id "srv1". *)
Lemma edit_leaves_unmatched_lists_witness :
  let out := run (Edit.edit Sample.ext (Some Sample.alice) "srv1"
                    (Edit.mkEditRequest "" 2048 0)) (Sample.world Sample.db) in
  fst out = edit_response "srv1" "c1" (Edit.mkEditRequest "" 2048 0)
  /\ ((forall entry, In entry (user_list "u1" Sample.db) ->
                     ContainerId entry <> Some "srv1") ->
      instances_of_user (w_db (snd out)) = instances_of_user Sample.db)
  /\ ((forall entry, In entry (global_list Sample.db) ->
                     ContainerId entry <> Some "srv1") ->
      instances (w_db (snd out)) = instances Sample.db)
  /\ instance_of (w_db (snd out)) !! "c1"
     = Some (edit_result Sample.ext Sample.server
               (Edit.mkEditRequest "" 2048 0) "c1")
  /\ instance_of (w_db (snd out)) !! "srv1" = None.
Proof.
  apply (edit_leaves_unmatched_lists Sample.ext Sample.alice "srv1"
           (Edit.mkEditRequest "" 2048 0) (Sample.world Sample.db)
           Sample.server Sample.node 200
           (mkAgentData (Some "c1") (Some "c1")) "c1");
    try reflexivity; discriminate.
Defined.

(** ** The three views after a mutation *)

Lemma views_lists_then_record id (rec : Instance) db :
  Id rec = id ->
  same_in_all_views id rec (put_instance id rec (put_lists id rec db)).
Proof.
  intros <-. unfold same_in_all_views, matching, user_list, global_list.
  simpl. rewrite !lookup_insert_eq. simpl.
  repeat split; apply replaced_by_id_matching; reflexivity.
Qed.

Lemma views_record_then_lists id (rec : Instance) db :
  same_in_all_views id rec (put_lists (Id rec) rec (put_instance id rec db)).
Proof.
  unfold same_in_all_views, matching, user_list, global_list.
  simpl. rewrite !lookup_insert_eq. simpl.
  repeat split; apply replaced_by_id_matching; reflexivity.
Qed.

(** The record a finished run wrote under [id]. *)
Ltac pick_record id :=
  match goal with
  | |- context [mkDb (<[id := ?rec]> _) _ _ _ _] => exists rec
  end.

Ltac agent_gave_tac Haxios :=
  eexists _, _, _; split; [|split; [exact Haxios|reflexivity]];
  cbn [w_trace]; rewrite ?in_app_iff; simpl; tauto.

Lemma reinstall_views ext user id w :
  let out := run (Reinstall.reinstall ext user id) w in
  succeeded DoReinstall id (fst out) ->
  exists rec,
    same_in_all_views id rec (w_db (snd out))
    /\ carries ext DoReinstall id (w_trace (snd out)) rec.
Proof.
  cbv zeta. intros Hok.
  destruct (run (Reinstall.reinstall ext user id) w) as [r w'] eqn:E.
  cbn [fst snd] in *. destruct Hok as [Hr Hnot].
  unfold run, Reinstall.reinstall in E. unfold_reinstall E. simpl in E.
  case_run E; injection E as <- <-; simpl in Hr, Hnot;
    try discriminate Hr; try (exfalso; apply Hnot; reflexivity).
  pick_record id. split.
  - refine (views_lists_then_record id _ (w_db w) _); reflexivity.
  - split; [reflexivity|].
    match goal with H : axios _ _ = _ |- _ => agent_gave_tac H end.
Qed.

Lemma rename_views ext user id newName w :
  let out := run (Startup.rename ext user id newName) w in
  succeeded (DoRename newName) id (fst out) ->
  exists rec,
    same_in_all_views id rec (w_db (snd out))
    /\ carries ext (DoRename newName) id (w_trace (snd out)) rec.
Proof.
  cbv zeta. intros Hok.
  destruct (run (Startup.rename ext user id newName) w) as [r w'] eqn:E.
  cbn [fst snd succeeded] in *. subst r.
  unfold run, Startup.rename in E. unfold_all E. simpl in E.
  case_run E; injection E as <-;
    (pick_record id; split;
     [exact (views_record_then_lists id (set_Name newName _) (w_db w))
     |reflexivity]).
Qed.

Lemma changevariable_views ext user id variable value w :
  let out := run (Startup.changevariable ext user id variable value) w in
  succeeded (DoChangeVariable variable value) id (fst out) ->
  exists rec,
    same_in_all_views id rec (w_db (snd out))
    /\ carries ext (DoChangeVariable variable value) id (w_trace (snd out)) rec.
Proof.
  cbv zeta. intros Hok.
  destruct (run (Startup.changevariable ext user id variable value) w)
    as [r w'] eqn:E.
  cbn [fst snd succeeded] in *. subst r.
  apply changevariable_success in E
    as (u & inst & env & _ & _ & _ & _ & _ & Hdb & _).
  assert (Hid : Id (env_changed variable value inst env) = Id inst)
    by (unfold env_changed, migrated; destruct (suspended inst); reflexivity).
  rewrite Hdb, <- Hid. exists (env_changed variable value inst env). split.
  - exact (views_record_then_lists id (env_changed variable value inst env)
             (w_db w)).
  - exists (Startup.change_env variable (default "" value) env).
    split; [reflexivity|apply change_env_entry].
Qed.

Lemma changeimage_views ext user id image quser w :
  let out := run (Startup.changeimage ext user id image quser) w in
  succeeded (DoChangeImage image quser) id (fst out) ->
  exists rec,
    same_in_all_views id rec (w_db (snd out))
    /\ carries ext (DoChangeImage image quser) id (w_trace (snd out)) rec.
Proof.
  cbv zeta. intros Hok.
  destruct (run (Startup.changeimage ext user id image quser) w)
    as [r w'] eqn:E.
  cbn [fst snd succeeded] in *. subst r.
  unfold run, Startup.changeimage in E. unfold_all E.
  unfold Startup.migrate_suspended in E. unfold_all E. simpl in E.
  case_run E; injection E as <-;
    (pick_record id; split;
     [first
        [refine (views_lists_then_record id _ (w_db w) _); reflexivity
        |refine (views_lists_then_record id _
                   (put_instance id (set_suspended false _) (w_db w)) _);
         reflexivity]
     |repeat (split; [reflexivity|]);
      match goal with H : axios _ _ = _ |- _ => agent_gave_tac H end]).
Qed.

Lemma findIndex_lookup {A} (p : A -> bool) (l : list A) i :
  Js.findIndex p l = Some i -> exists x, l !! i = Some x /\ p x = true.
Proof.
  revert i. induction l as [|a l IH]; [discriminate|].
  intros i. simpl. destruct (p a) eqn:Hp.
  - intros [= <-]. exists a. split; [reflexivity|exact Hp].
  - destruct (Js.findIndex p l) as [j|]; [|discriminate].
    intros [= <-]. apply IH. reflexivity.
Qed.

Lemma patch_view id c (upd : Instance) (l : list Instance) :
  ContainerId upd = Some c ->
  edit_list_view id upd l (default l (patch id upd l)).
Proof.
  intros Hc. unfold edit_list_view, patch.
  destruct (Js.findIndex (has_container id) l) as [i|] eqn:Hi; [|reflexivity].
  destruct (findIndex_lookup _ _ _ Hi) as (entry & -> & _).
  exists entry. simpl. rewrite Hc. repeat split; reflexivity.
Qed.

Lemma edited_store_user_list id c inst upd db :
  user_list (User inst) (edited_store id c inst upd db)
  = default (user_list (User inst) db) (patch id upd (user_list (User inst) db)).
Proof.
  unfold edited_store, edit_global_list, edit_user_list.
  change (user_list (User inst) (move_instance id c upd db))
    with (user_list (User inst) db).
  destruct (patch id upd (user_list (User inst) db)) as [l|] eqn:Hu;
    cbn [default].
  - destruct (patch id upd (global_list _)); unfold user_list; simpl;
      rewrite lookup_insert_eq; reflexivity.
  - destruct (patch id upd (global_list _)); reflexivity.
Qed.

Lemma edited_store_global_list id c inst upd db :
  global_list (edited_store id c inst upd db)
  = default (global_list db) (patch id upd (global_list db)).
Proof.
  unfold edited_store, edit_global_list.
  assert (Hsame : global_list
                    (edit_user_list (User inst) id upd
                       (move_instance id c upd db)) = global_list db).
  { unfold edit_user_list. destruct (patch _ _ _); reflexivity. }
  rewrite Hsame. destruct (patch id upd (global_list db)); cbn [default].
  - reflexivity.
  - exact Hsame.
Qed.

Lemma edit_views ext user id body w :
  let out := run (Edit.edit ext user id body) w in
  succeeded (DoEdit body) id (fst out) ->
  exists inst c,
    fst out = edit_response id c body
    /\ instance_of (w_db w) !! id = Some inst
    /\ (c <> id ->
        instance_of (w_db (snd out)) !! c = Some (edit_result ext inst body c))
    /\ edit_values inst body c (edit_result ext inst body c)
    /\ edit_list_view id (edit_result ext inst body c)
         (user_list (User inst) (w_db w))
         (user_list (User inst) (w_db (snd out)))
    /\ edit_list_view id (edit_result ext inst body c)
         (global_list (w_db w)) (global_list (w_db (snd out))).
Proof.
  cbv zeta. intros [c Hok].
  destruct (run (Edit.edit ext user id body) w) as [r w'] eqn:E.
  cbn [fst snd] in *. subst r. unfold edit_response in E.
  pose proof (edit_success _ _ _ _ _ _ _ _ _ _ _ E)
    as (u & inst & node & status & data & -> & Hadmin & Hid & Hbody & Hget
        & Hnode & Haxios & Hdata & Hc & _).
  rewrite (edit_run ext u id body w inst node status data c) in E
    by assumption.
  apply (f_equal snd) in E. cbn [snd] in E. subst w'. cbn [w_db].
  exists inst, c. split; [reflexivity|]. split; [exact Hget|].
  split; [|split; [|split]].
  - intros Hne. rewrite edited_store_instance_of.
    rewrite lookup_delete_ne by congruence. apply lookup_insert_eq.
  - repeat split.
  - rewrite edited_store_user_list. apply (patch_view id c). reflexivity.
  - rewrite edited_store_global_list. apply (patch_view id c). reflexivity.
Qed.

(** C1, amended.  After a reinstall, rename, env-variable change or image
    change that completed successfully, the record stored under the route
    id, the only entry for its id in its owner's list and the only entry for
    its id in the global list are one and the same record, which carries the
    values the operation set.  After a successful edit, with [c] the new
    container id of the answer: the record stored under [c] (when [c] is not
    the route id) is the old record with the container id [c] and with the
    image, memory and cpu of the request where the request gives them; and
    each list view whose first entry with the route id as container id
    exists has that entry overwritten with the record's id, image, memory,
    cpu and container id; a list view without such an entry is left as it
    was. *)
Theorem views_after_mutation ext m user id w :
  let out := run (handle ext m user id) w in
  succeeded m id (fst out) ->
  match m with
  | DoEdit body =>
      exists inst c,
        fst out = edit_response id c body
        /\ instance_of (w_db w) !! id = Some inst
        /\ (c <> id ->
            instance_of (w_db (snd out)) !! c
            = Some (edit_result ext inst body c))
        /\ edit_values inst body c (edit_result ext inst body c)
        /\ edit_list_view id (edit_result ext inst body c)
             (user_list (User inst) (w_db w))
             (user_list (User inst) (w_db (snd out)))
        /\ edit_list_view id (edit_result ext inst body c)
             (global_list (w_db w)) (global_list (w_db (snd out)))
  | _ =>
      exists rec,
        same_in_all_views id rec (w_db (snd out))
        /\ carries ext m id (w_trace (snd out)) rec
  end.
Proof.
  destruct m as [|body|newName|variable value|image quser]; unfold handle.
  - apply reinstall_views.
  - apply edit_views.
  - apply rename_views.
  - apply changevariable_views.
  - apply changeimage_views.
Qed.

(** The sample instance renamed to "spawn". *)
Lemma views_after_mutation_witness :
  let out := run (handle Sample.ext (DoRename "spawn") (Some Sample.alice) "srv1")
                 (Sample.world Sample.db) in
  exists rec,
    same_in_all_views "srv1" rec (w_db (snd out))
    /\ carries Sample.ext (DoRename "spawn") "srv1" (w_trace (snd out)) rec.
Proof.
  apply (views_after_mutation Sample.ext (DoRename "spawn")
           (Some Sample.alice) "srv1" (Sample.world Sample.db)).
  vm_compute. reflexivity.
Defined.

(** C1 as stated fails for edit.  The sample record sits under its id
    "srv1" with container id "c0"; the edit looks for "srv1" among the
    container ids of the lists, finds nothing, and leaves both lists with
    the old memory and container id next to the new record. *)
Lemma views_disagree_after_edit :
  let out := run (handle Sample.ext (DoEdit (Edit.mkEditRequest "" 4096 0))
                    (Some Sample.alice) "srv1") (Sample.world Sample.db) in
  let db' := w_db (snd out) in
  fst out = edit_response "srv1" "c1" (Edit.mkEditRequest "" 4096 0)
  /\ ((fun rec => (Id rec, Memory rec, ContainerId rec))
        <$> instance_of db' !! "c1") = Some ("srv1", 4096, Some "c1")
  /\ ((fun rec => (Id rec, Memory rec, ContainerId rec))
        <$> user_list "u1" db')
     = [("srv1", 1024, Some "c0"); ("srv2", 2048, Some "c9")]
  /\ ((fun rec => (Id rec, Memory rec, ContainerId rec))
        <$> global_list db')
     = [("srv1", 1024, Some "c0"); ("srv2", 2048, Some "c9")].
Proof. vm_compute. repeat split; reflexivity. Qed.

(** The edit clause at work where the lists do hold the old container id:
    the entry is overwritten where it stands, the other entry stays. *)
Example edit_patches_keyed_lists :
  let body := Edit.mkEditRequest "ghcr.io/demo/paper:17" 0 400 in
  let out := run (handle Sample.ext (DoEdit body) (Some Sample.alice) "c0")
                 (Sample.world Keyed.db) in
  let upd := edit_result Sample.ext Sample.server body "c1" in
  fst out = edit_response "c0" "c1" body
  /\ instance_of (w_db (snd out)) = {[ "c1" := upd ]}
  /\ user_list "u1" (w_db (snd out)) = [Sample.other; upd]
  /\ global_list (w_db (snd out)) = [upd; Sample.other]
  /\ (Image upd, Memory upd, Cpu upd, ContainerId upd)
     = ("ghcr.io/demo/paper:17", 1024, 400, Some "c1").
Proof. vm_compute. repeat split; reflexivity. Qed.

(** * Further properties of the routes *)

(** ** Requests that are turned away *)

(** Settles the tests on the request by cases on their outcomes. *)
Ltac bool_cases :=
  repeat match goal with
         | H : context [Js.truthy_str ?x] |- _ => destruct (Js.truthy_str x)
         | H : context [Js.truthy_num ?x] |- _ => destruct (Js.truthy_num x)
         | H : context [(?a <? ?b)%nat] |- _ => destruct (a <? b)%nat
         | H : context [?a <=? ?b] |- _ => destruct (a <=? b)
         | H : context [admin ?u] |- _ => destruct (admin u)
         end;
  simpl in *.

(** A name of acceptable length is not the empty string. *)
Ltac with_name_length :=
  try match goal with
      | H : context [name_length_ok ?n] |- _ =>
          pose proof (length_ok_nonempty n); unfold name_length_ok in *
      end.

Ltac name_length_absurd :=
  match goal with
  | H : ?a = ?a -> _ |- _ => specialize (H eq_refl); discriminate H
  end.

Ltac unfold_routes H :=
  unfold serve, handle, Startup.startup, Startup.rename, Startup.changevariable,
    Startup.changeimage, Reinstall.reinstall, Edit.edit in H;
  unfold_reinstall H; unfold_all H;
  unfold Startup.migrate_suspended, Edit.updateInstanceInDatabase,
    Edit.updateUserInstances, Edit.updateGlobalInstances, Edit.failure in H;
  unfold_all H.

(** X1.  A request for an id under which nothing is stored leaves the
    world as it was, whoever sends it and whatever route it takes; a
    request that passes the route's own checks is answered with the
    route's not-found redirect or 404. *)
Theorem unknown_instance_changes_nothing ext route user id w :
  instance_of (w_db w) !! id = None ->
  let out := run (serve ext route user id) w in
  snd out = w
  /\ (forall u, user = Some u -> request_ok route u id = true ->
                fst out = not_found_response route).
Proof.
  intros Hget. cbv zeta.
  destruct (run (serve ext route user id) w) as [r w'] eqn:E. cbn [fst snd].
  unfold run in E.
  destruct route as [|[|body|newName|variable value|image quser]];
    unfold_routes E; simpl in E; rewrite ?Hget in E.
  all: case_run E; try congruence.
  all: injection E as <- <-; split; [reflexivity|].
  all: intros u' Hu Hok; try discriminate Hu; injection Hu as <-.
  all: unfold request_ok, well_formed, edit_body_ok in Hok.
  all: try reflexivity.
  all: with_name_length; bool_cases; try reflexivity; try discriminate.
  all: name_length_absurd.
Qed.

(** Reinstall of an id the sample panel does not know. *)
Lemma unknown_instance_changes_nothing_witness :
  let out := run (serve Sample.ext (Mutate DoReinstall) (Some Sample.alice)
                    "nope") (Sample.world Sample.db) in
  snd out = Sample.world Sample.db
  /\ (forall u, Some Sample.alice = Some u ->
                request_ok (Mutate DoReinstall) u "nope" = true ->
                fst out = not_found_response (Mutate DoReinstall)).
Proof.
  apply (unknown_instance_changes_nothing Sample.ext (Mutate DoReinstall)
           (Some Sample.alice) "nope" (Sample.world Sample.db)).
  reflexivity.
Defined.

(** X2.  On every route but edit, a caller the ownership check turns down
    changes nothing: no write (not even the migration of the suspended
    flag), no agent call, no log entry; a request that passes the route's
    own checks gets the 403 "Unauthorized access to this instance." *)
Theorem unauthorised_caller_changes_nothing ext route u id w inst :
  asks_owner route = true ->
  instance_of (w_db w) !! id = Some inst ->
  isUserAuthorizedForContainer ext (w_db w) (userId u) (Id inst) = false ->
  let out := run (serve ext route (Some u) id) w in
  snd out = w
  /\ (request_ok route u id = true -> fst out = Startup.unauthorized).
Proof.
  intros Hasks Hget Hauth. cbv zeta.
  destruct (run (serve ext route (Some u) id) w) as [r w'] eqn:E.
  cbn [fst snd]. unfold run in E.
  destruct route as [|[|body|newName|variable value|image quser]];
    try discriminate Hasks;
    unfold_routes E; simpl in E; rewrite ?Hget in E; simpl in E;
    rewrite ?Hauth in E; simpl in E.
  all: case_run E; try congruence.
  all: try (injection Hget as ->).
  all: try (match goal with
            | H : negb (isUserAuthorizedForContainer _ _ _ _) = false |- _ =>
                rewrite Hauth in H; discriminate H
            end).
  all: injection E as <- <-; split; [reflexivity|].
  all: intros Hok; unfold request_ok, well_formed in Hok.
  all: try reflexivity.
  all: with_name_length; bool_cases; try reflexivity; try discriminate.
  all: name_length_absurd.
Qed.

(** The locked sample panel, on the legacy record: the view does not even
    migrate the flag. *)
Lemma unauthorised_caller_changes_nothing_witness :
  let out := run (serve Sample.ext_locked View (Some Sample.alice) "srv1")
                 (Sample.world Legacy.db) in
  snd out = Sample.world Legacy.db
  /\ (request_ok View Sample.alice "srv1" = true ->
      fst out = Startup.unauthorized).
Proof.
  apply (unauthorised_caller_changes_nothing Sample.ext_locked View
           Sample.alice "srv1" (Sample.world Legacy.db) Legacy.server);
    reflexivity.
Defined.

(** X3.  The edit route is for administrators and for nobody else, and it
    never asks the ownership check: a caller who is not an administrator
    gets 403 and changes nothing, and for every caller the outcome is the
    same under any other ownership check. *)
Theorem edit_admin_only_owner_unchecked ext user id body w :
  ((forall u, user = Some u -> admin u = false) ->
   run (Edit.edit ext user id body) w
   = (Reply 403 (MessageBody "Forbidden: Admin access required"), w))
  /\ (forall owner_check,
        run (Edit.edit (mkExt owner_check (axios ext) (uuid ext) (now ext))
               user id body) w
        = run (Edit.edit ext user id body) w).
Proof.
  split.
  - intros Hno. unfold run, Edit.edit. destruct user as [u|]; [|reflexivity].
    rewrite (Hno u eq_refl). reflexivity.
  - intros owner_check. destruct ext as [auth ax uu nw]. reflexivity.
Qed.

(** ** Writes happen at the end, or not at all *)

Ltac agent_tac Haxios :=
  eexists _, _, _; split; [|split; [exact Haxios|eassumption]];
  cbn [w_trace]; rewrite ?in_app_iff; simpl; tauto.

Lemma truthy_str_nonempty s : Js.truthy_str s = true -> s <> "".
Proof. intros H ->. discriminate H. Qed.

(** Below 1e21 [parseInt] gives a whole number back as it is. *)
Lemma parseInt_small n : Z.abs n < 10 ^ 21 -> Js.parseInt n = n.
Proof.
  intros H. unfold Js.parseInt. apply Z.ltb_lt in H. rewrite H. reflexivity.
Qed.

Example parseInt_like_the_source :
  Js.parseInt 512 = 512
  /\ Js.parseInt 0 = 0
  /\ Js.parseInt (-512) = -512
  /\ Js.parseInt (10 ^ 21 - 131072) = 10 ^ 21 - 131072
  /\ Js.parseInt (10 ^ 21) = 1
  /\ Js.parseInt (- 10 ^ 21) = -1
  /\ Js.parseInt (2 ^ 70) = 1
  /\ Js.parseInt (25 * 10 ^ 21) = 2
  /\ Js.parseInt 99999999999999991611392 = 1.
Proof. vm_compute. repeat split; reflexivity. Qed.


Lemma or_parseInt n d :
  Z.abs n < 10 ^ 21 -> Js.truthy_num n = true ->
  Js.or_num (Js.parseInt n) d = n.
Proof.
  intros H Ht. rewrite (parseInt_small n H). unfold Js.or_num.
  rewrite Ht. reflexivity.
Qed.

(** Names the events a run appended to the trace it started from. *)
Ltac new_events :=
  cbn [w_trace]; rewrite <- ?app_assoc;
  first [ eexists; split; [reflexivity|]
        | exists []; split; [symmetry; apply app_nil_r|] ].

(** X4.  Reinstall writes nothing before the agent has replied with a
    container id that is not empty.  In a run that leaves the store
    different from the one it found, the agent was called in that run and
    its reply carried such an id: an agent that fails, times out or replies
    without a container id costs no local state. *)
Theorem reinstall_writes_only_after_reply ext user id w :
  let out := run (Reinstall.reinstall ext user id) w in
  exists events,
    w_trace (snd out) = (w_trace w ++ events)%list
    /\ (w_db (snd out) = w_db w
        \/ exists cid, cid <> "" /\ agent_gave ext events (Some cid)).
Proof.
  cbv zeta.
  destruct (run (Reinstall.reinstall ext user id) w) as [r w'] eqn:E.
  cbn [fst snd]. unfold run, Reinstall.reinstall in E.
  unfold_reinstall E. simpl in E.
  case_run E; injection E as <- <-; new_events; try (left; reflexivity).
  right.
  match goal with
  | H : Js.truthy_opt Js.truthy_str (containerId ?a) = true |- _ =>
      destruct (containerId a) as [cid|] eqn:Hcid; [|discriminate H];
      exists cid; split; [exact (truthy_str_nonempty _ H)|]
  end.
  match goal with H : axios _ _ = _ |- _ => agent_tac H end.
Qed.

(** X5.  Edit writes nothing before the agent has replied with a new
    container id that is not empty: in a run that leaves the store different
    from the one it found, the agent was called in that run and its reply
    carried such an id. *)
Theorem edit_writes_only_after_reply ext user id body w :
  let out := run (Edit.edit ext user id body) w in
  exists events,
    w_trace (snd out) = (w_trace w ++ events)%list
    /\ (w_db (snd out) = w_db w
        \/ exists c, c <> "" /\ agent_gave_new ext events c).
Proof.
  cbv zeta.
  destruct (run (Edit.edit ext user id body) w) as [r w'] eqn:E.
  cbn [fst snd]. unfold run in E.
  change (Edit.edit ext user id body)
    with (serve ext (Mutate (DoEdit body)) user id) in E.
  unfold_routes E; simpl in E.
  case_run E; injection E as <- <-; new_events; try (left; reflexivity).
  all: right.
  all: match goal with
       | H : Js.truthy_str ?c = true |- _ =>
           exists c; split; [exact (truthy_str_nonempty _ H)|]
       end.
  all: match goal with
       | Hd : ?data ≫= newContainerId = Some _ |- _ =>
           destruct data; [|discriminate Hd]; simpl in Hd
       end.
  all: match goal with H : axios _ _ = _ |- _ => agent_tac H end.
Qed.

(** ** Image change, step by step *)

Lemma prepareRequestData_run image (inst : Instance) node id (w : World) :
  Startup.prepareRequestData image (Memory inst) (Cpu inst) (Ports inst)
    (Name inst) node id (ContainerId inst) (Env inst) w
  = (inr (redeploy_request (w_db w) image inst node id), w).
Proof. reflexivity. Qed.

Lemma updateDatabaseWithNewInstance_run data quser node (inst : Instance) id
    image imd (w : World) :
  Startup.updateDatabaseWithNewInstance data quser node (img_Image imd)
    (Memory inst) (Cpu inst) (Ports inst) (Primary inst) (Name inst) id image
    imd (Env inst) w
  = (inr tt,
     mkWorld
       (put_instance id (redeployed (w_db w) data quser node inst id image imd)
          (put_lists id (redeployed (w_db w) data quser node inst id image imd)
             (w_db w)))
       (w_trace w)).
Proof. reflexivity. Qed.

Section ChangeImageRun.
Context (ext : Ext) (u : UserT) (id image quser : string) (w : World)
        (inst : Instance) (inode node : NodeT).
Hypothesis Hid : id <> "".
Hypothesis Hget : instance_of (w_db w) !! id = Some inst.
Hypothesis Hauth :
  isUserAuthorizedForContainer ext (w_db w) (userId u) (Id inst) = true.
Hypothesis Hactive : suspended inst <> Some true.
Hypothesis Hinode : Node inst = Some inode.
Hypothesis Himage : image <> "".
Hypothesis Hquser : quser <> "".
Hypothesis Hnid : node_id inode <> "".
Hypothesis Hnode : node_of (w_db w) !! node_id inode = Some node.

(** The run up to the agent call, and what follows each kind of answer. *)
Lemma changeimage_run :
  let db1 := migrated_store id inst (w_db w) in
  let request := redeploy_request db1 image (migrated inst) node id in
  run (Startup.changeimage ext (Some u) id image quser) w
  = match axios ext request, imageData inst with
    | Replied status (Some data), Some imd =>
        (Redirect (String.append "/instance/" (String.append id "/startup")),
         mkWorld
           (put_instance id
              (redeployed db1 data quser node (migrated inst) id image imd)
              (put_lists id
                 (redeployed db1 data quser node (migrated inst) id image imd)
                 db1))
           (w_trace w ++ [EAgent request;
                          EAudit (userId u) "instance:imageChange"])%list)
    | Replied status None, Some imd =>
        (Reply 500
           (ErrorBody "Failed to change container image"
              (Some "Cannot read properties of undefined (reading 'containerId')")),
         mkWorld db1
           (w_trace w ++ [EAgent request;
                          EConsoleError "Error changing instance image:"
                            (TypeError
                               "Cannot read properties of undefined (reading 'containerId')")])%list)
    | Replied status _, None =>
        (Reply 500
           (ErrorBody "Failed to change container image"
              (Some "Cannot read properties of undefined (reading 'Image')")),
         mkWorld db1
           (w_trace w ++ [EAgent request;
                          EConsoleError "Error changing instance image:"
                            (TypeError
                               "Cannot read properties of undefined (reading 'Image')")])%list)
    | Failed e, _ =>
        (Reply 500
           (ErrorBody "Failed to change container image" (Some (exn_message e))),
         mkWorld db1
           (w_trace w ++ [EAgent request;
                          EConsoleError "Error changing instance image:" e])%list)
    end.
Proof.
  cbv zeta. unfold run, Startup.changeimage.
  rewrite (truthy_str_true id Hid). cbn [negb].
  unfold try_catch. unfold bind at 1. unfold get_instance, bind at 1, read_db,
    ret at 1. rewrite Hget.
  unfold bind at 1. unfold authorized, bind at 1, read_db, ret at 1.
  rewrite Hauth. cbn [negb].
  unfold bind at 1. rewrite migrate_run.
  assert (Hmid :
    match suspended inst with
    | Some _ => (inr inst, w)
    | None => (inr (set_suspended false inst),
               mkWorld (put_instance id (set_suspended false inst) (w_db w))
                       (w_trace w))
    end = (@inr Exn Instance (migrated inst),
           mkWorld (migrated_store id inst (w_db w)) (w_trace w))).
  { unfold migrated, migrated_store. destruct (suspended inst); [|reflexivity].
    destruct w; reflexivity. }
  rewrite Hmid. clear Hmid.
  assert (Hnot : Startup.is_suspended (migrated inst) = false).
  { unfold migrated, Startup.is_suspended.
    destruct (suspended inst) as [[|]|] eqn:Hs; try reflexivity; try congruence.
    rewrite Hs. reflexivity. }
  rewrite Hnot.
  assert (Hn : Node (migrated inst) = Some inode)
    by (unfold migrated; destruct (suspended inst); exact Hinode).
  rewrite Hn.
  rewrite (truthy_str_true image Himage), (truthy_str_true quser Hquser),
    (truthy_str_true _ Hnid). cbn [negb orb].
  unfold bind at 1. unfold get_node, bind at 1, read_db, ret at 1.
  cbn [w_db].
  assert (Hnodes : node_of (migrated_store id inst (w_db w)) = node_of (w_db w))
    by (unfold migrated_store; destruct (suspended inst); reflexivity).
  rewrite Hnodes, Hnode.
  unfold bind at 1. rewrite prepareRequestData_run. cbn [w_db].
  unfold bind at 1. unfold call_axios, bind at 1, emit at 1.
  cbn [w_db w_trace].
  assert (Himd : imageData (migrated inst) = imageData inst)
    by (unfold migrated; destruct (suspended inst); reflexivity).
  rewrite Himd.
  destruct (axios ext _) as [status data|e].
  - unfold ret at 1. cbn [snd].
    destruct (imageData inst) as [imd|].
    + destruct data as [data|].
      * unfold bind at 1. rewrite updateDatabaseWithNewInstance_run.
        unfold bind, logAudit, emit, ret. cbn [w_db w_trace].
        rewrite <- app_assoc. reflexivity.
      * unfold throw, Startup.failure, bind, console_error, emit, ret.
        cbn [w_db w_trace]. rewrite <- app_assoc. reflexivity.
    + unfold throw, Startup.failure, bind, console_error, emit, ret.
      cbn [w_db w_trace]. rewrite <- app_assoc.
      destruct data; reflexivity.
  - unfold throw, Startup.failure, bind, console_error, emit, ret.
    cbn [w_db w_trace]. rewrite <- app_assoc. reflexivity.
Qed.

End ChangeImageRun.

(** X6.  The image change stores whatever the agent replied: any reply
    with a body counts as success, and the container id of the record is
    the reply's, also when the reply names none.  (Reinstall refuses such a
    reply.)  The record, the new owner's list and the global list
    agree on the record all the same. *)
Theorem changeimage_trusts_the_reply
    ext u id image quser w inst inode node imd status data :
  id <> "" ->
  instance_of (w_db w) !! id = Some inst ->
  isUserAuthorizedForContainer ext (w_db w) (userId u) (Id inst) = true ->
  suspended inst <> Some true ->
  Node inst = Some inode ->
  image <> "" -> quser <> "" -> node_id inode <> "" ->
  node_of (w_db w) !! node_id inode = Some node ->
  imageData inst = Some imd ->
  axios ext (redeploy_request (migrated_store id inst (w_db w)) image
               (migrated inst) node id)
  = Replied status (Some data) ->
  let out := run (Startup.changeimage ext (Some u) id image quser) w in
  fst out = Redirect (String.append "/instance/" (String.append id "/startup"))
  /\ stored_container id (snd out) = Some (containerId data)
  /\ exists rec, same_in_all_views id rec (w_db (snd out))
                 /\ ContainerId rec = containerId data.
Proof.
  intros Hid Hget Hauth Hactive Hinode Himage Hquser Hnid Hnode Himd Haxios.
  cbv zeta.
  rewrite (changeimage_run ext u id image quser w inst inode node)
    by assumption.
  cbv zeta. rewrite Haxios, Himd. cbn [fst snd w_db].
  split; [reflexivity|]. split.
  - unfold stored_container. simpl. rewrite lookup_insert_eq. reflexivity.
  - eexists. split.
    + refine (views_lists_then_record id _ _ _). reflexivity.
    + reflexivity.
Qed.

(** The sample panel with an agent that names no container. *)
Lemma changeimage_trusts_the_reply_witness :
  let out := run (Startup.changeimage Agents.silent (Some Sample.alice) "srv1"
                    "ghcr.io/demo/paper:17" "u1") (Sample.world Sample.db) in
  fst out = Redirect "/instance/srv1/startup"
  /\ stored_container "srv1" (snd out) = Some None
  /\ exists rec, same_in_all_views "srv1" rec (w_db (snd out))
                 /\ ContainerId rec = None.
Proof.
  apply (changeimage_trusts_the_reply Agents.silent Sample.alice "srv1"
           "ghcr.io/demo/paper:17" "u1" (Sample.world Sample.db)
           Sample.server Sample.node Sample.node Sample.image 200
           (mkAgentData None None));
    try reflexivity; discriminate.
Defined.



(** From 1e21 on the stored memory is not the record's: 1e21 and the
    double next to 1e23 both print with a leading 1, and 1 is stored. *)
Example changeimage_reads_memory_back :
  let big (memory : Z) : Instance :=
    mkInstance "lobby" "srv1" (Some Sample.node) "u1" (Some "c0")
      (Some "srv1") memory 100 "25565:25565" true
      "ghcr.io/demo/paper:latest" [] (Some Sample.image)
      (Some ["EULA=true"]) (Some false) None None None in
  let stored (memory : Z) : option Z :=
    Memory <$>
      instance_of
        (w_db (snd (run (Startup.changeimage Sample.ext (Some Sample.alice)
                           "srv1" "ghcr.io/demo/paper:17" "u1")
                        (Sample.world (Sample.store_of (big memory))))))
      !! "srv1" in
  stored (10 ^ 21 - 1024) = Some (10 ^ 21 - 1024)
  /\ stored (10 ^ 21) = Some 1
  /\ stored 99999999999999991611392 = Some 1
  /\ stored 0 = Some 0.
Proof. vm_compute. repeat split; reflexivity. Qed.

(** X8.  When the query names a user other than the record's owner, the
    image change files the record in that user's list and leaves the list of
    the previous owner as it was: the instance still shows there, with its
    old values. *)
Theorem changeimage_previous_owner_keeps_entry
    ext u id image quser w inst inode node imd status data :
  id <> "" ->
  instance_of (w_db w) !! id = Some inst ->
  isUserAuthorizedForContainer ext (w_db w) (userId u) (Id inst) = true ->
  suspended inst <> Some true ->
  Node inst = Some inode ->
  image <> "" -> quser <> "" -> node_id inode <> "" ->
  node_of (w_db w) !! node_id inode = Some node ->
  imageData inst = Some imd ->
  axios ext (redeploy_request (migrated_store id inst (w_db w)) image
               (migrated inst) node id)
  = Replied status (Some data) ->
  quser <> User inst ->
  let out := run (Startup.changeimage ext (Some u) id image quser) w in
  instances_of_user (w_db (snd out)) !! User inst
  = instances_of_user (w_db w) !! User inst
  /\ exists rec, instance_of (w_db (snd out)) !! id = Some rec
                 /\ User rec = quser
                 /\ In rec (user_list quser (w_db (snd out))).
Proof.
  intros Hid Hget Hauth Hactive Hinode Himage Hquser Hnid Hnode Himd Haxios
    Hother.
  cbv zeta.
  rewrite (changeimage_run ext u id image quser w inst inode node)
    by assumption.
  cbv zeta. rewrite Haxios, Himd. cbn [fst snd w_db].
  split.
  - simpl. rewrite lookup_insert_ne by exact Hother.
    unfold migrated_store. destruct (suspended inst); reflexivity.
  - eexists. split; [apply lookup_insert_eq|]. split; [reflexivity|].
    unfold user_list. simpl. rewrite lookup_insert_eq. simpl.
    apply in_or_app. right. left. reflexivity.
Qed.

Lemma changeimage_previous_owner_keeps_entry_witness :
  let out := run (Startup.changeimage Sample.ext (Some Sample.alice) "srv1"
                    "ghcr.io/demo/paper:17" "u2") (Sample.world Sample.db) in
  instances_of_user (w_db (snd out)) !! "u1"
  = instances_of_user Sample.db !! "u1"
  /\ exists rec, instance_of (w_db (snd out)) !! "srv1" = Some rec
                 /\ User rec = "u2"
                 /\ In rec (user_list "u2" (w_db (snd out))).
Proof.
  apply (changeimage_previous_owner_keeps_entry Sample.ext Sample.alice "srv1"
           "ghcr.io/demo/paper:17" "u2" (Sample.world Sample.db)
           Sample.server Sample.node Sample.node Sample.image 200
           (mkAgentData (Some "c1") (Some "c1")));
    try reflexivity; discriminate.
Defined.



(** ** Edit: what the caller sees of the agent's troubles *)

(** X10.  When the agent call of an edit throws with an upstream status,
    that status is the status of the answer.  When the agent answers (the
    edit request lets every status below 500 through) but the body names no
    new container id, the answer is a 500 "Invalid response from node API",
    whatever the agent's own status was.  Either way the agent was called
    once, the error is on the console, and the store is untouched. *)
Theorem edit_agent_errors ext u id body w inst node :
  admin u = true ->
  id <> "" ->
  edit_body_ok body = true ->
  instance_of (w_db w) !! id = Some inst ->
  Edit.node_configured inst = Some node ->
  let request := edit_request inst node body in
  let out := run (Edit.edit ext (Some u) id body) w in
  (forall s m,
      axios ext request = Failed (AxiosError (Some s) m) -> s <> 0 ->
      out = (Reply s (MessageBody (Js.or_str m "Failed to update instance")),
             mkWorld (w_db w)
               (w_trace w ++ [EAgent request;
                              EConsoleError "Error updating instance:"
                                (AxiosError (Some s) m)])%list))
  /\ (forall status data,
        axios ext request = Replied status data ->
        Js.truthy_opt Js.truthy_str (data ≫= newContainerId) = false ->
        out = (Reply 500 (MessageBody "Invalid response from node API"),
               mkWorld (w_db w)
                 (w_trace w ++ [EAgent request;
                                EConsoleError "Error updating instance:"
                                  (Error "Invalid response from node API")])%list)).
Proof.
  intros Hadmin Hid Hbody Hget Hnode. cbv zeta.
  assert (Hrun : run (Edit.edit ext (Some u) id body) w
    = match axios ext (edit_request inst node body) with
      | Replied status data =>
          match data ≫= newContainerId with
          | Some c =>
              if Js.truthy_str c
              then (edit_response id c body,
                    mkWorld (edited_store id c inst (edit_result ext inst body c)
                               (w_db w))
                      (w_trace w ++ [EAgent (edit_request inst node body);
                                     EAudit (userId u) "instance:edit"])%list)
              else run (Edit.failure (Error "Invalid response from node API"))
                     (mkWorld (w_db w)
                        (w_trace w ++ [EAgent (edit_request inst node body)])%list)
          | None =>
              run (Edit.failure (Error "Invalid response from node API"))
                (mkWorld (w_db w)
                   (w_trace w ++ [EAgent (edit_request inst node body)])%list)
          end
      | Failed e =>
          run (Edit.failure e)
            (mkWorld (w_db w)
               (w_trace w ++ [EAgent (edit_request inst node body)])%list)
      end).
  { unfold run at 1, Edit.edit. rewrite Hadmin. cbn [negb].
    unfold try_catch. rewrite (truthy_str_true id Hid). cbn [negb].
    unfold edit_body_ok in Hbody.
    apply andb_true_iff in Hbody as [Hbody Hcpu].
    apply andb_true_iff in Hbody as [Hany Hmem].
    apply negb_true_iff in Hmem, Hcpu.
    assert (Hnone : (negb (Js.truthy_str (Edit.eImage body))
                     && negb (Js.truthy_num (Edit.eMemory body))
                     && negb (Js.truthy_num (Edit.eCpu body)))%bool = false).
    { destruct (Js.truthy_str _), (Js.truthy_num (Edit.eMemory body)),
        (Js.truthy_num (Edit.eCpu body)); simpl in *; congruence. }
    cbv zeta. rewrite Hnone, Hmem, Hcpu.
    unfold bind at 1. unfold get_instance, bind at 1, read_db, ret at 1.
    rewrite Hget, Hnode.
    unfold bind at 1. unfold call_axios, bind at 1, emit at 1.
    fold (edit_request inst node body).
    destruct (axios ext (edit_request inst node body)) as [status data|e].
    - unfold ret at 1. cbn [snd].
      destruct (data ≫= newContainerId) as [c|]; [|reflexivity].
      destruct (Js.truthy_str c); [|reflexivity].
      unfold bind at 1. rewrite updateInstanceInDatabase_run.
      unfold bind at 1, logAudit, emit, ret. cbn [w_db w_trace].
      rewrite <- app_assoc. reflexivity.
    - reflexivity. }
  rewrite Hrun. split.
  - intros s m -> Hs. unfold run, Edit.failure, bind, console_error, emit, ret.
    cbn [w_db w_trace]. rewrite <- app_assoc.
    unfold Js.or_num, Js.truthy_num.
    destruct (Z.eqb_spec s 0); [contradiction|]. reflexivity.
  - intros status data -> Hbad.
    destruct (data ≫= newContainerId) as [c|]; simpl in Hbad.
    + rewrite Hbad. unfold run, Edit.failure, bind, console_error, emit, ret.
      cbn [w_db w_trace]. rewrite <- app_assoc. reflexivity.
    + unfold run, Edit.failure, bind, console_error, emit, ret.
      cbn [w_db w_trace]. rewrite <- app_assoc. reflexivity.
Qed.

(** A 503 from the agent is a 503 for the caller; a 404 from the agent is a
    500 for the caller. *)
Lemma edit_agent_errors_witness :
  let body := Edit.mkEditRequest "" 2048 0 in
  let request := edit_request Sample.server Sample.node body in
  fst (run (Edit.edit Agents.unavailable (Some Sample.alice) "srv1" body)
           (Sample.world Sample.db))
  = Reply 503 (MessageBody "Service Unavailable")
  /\ run (Edit.edit Agents.refusing (Some Sample.alice) "srv1" body)
         (Sample.world Sample.db)
     = (Reply 500 (MessageBody "Invalid response from node API"),
        mkWorld Sample.db
          ([] ++ [EAgent request;
                  EConsoleError "Error updating instance:"
                    (Error "Invalid response from node API")])%list).
Proof.
  split.
  - refine (f_equal fst
              (proj1 (edit_agent_errors Agents.unavailable Sample.alice "srv1"
                        (Edit.mkEditRequest "" 2048 0) (Sample.world Sample.db)
                        Sample.server Sample.node eq_refl _ eq_refl eq_refl
                        eq_refl)
                 503 "Service Unavailable" eq_refl _)); discriminate.
  - refine (proj2 (edit_agent_errors Agents.refusing Sample.alice "srv1"
                     (Edit.mkEditRequest "" 2048 0) (Sample.world Sample.db)
                     Sample.server Sample.node eq_refl _ eq_refl eq_refl
                     eq_refl)
              404 None eq_refl eq_refl). discriminate.
Defined.

(** ** What reinstall and edit keep *)



(** X12.  A finished edit asks the agent, at the record's own container id
    (not at the route id), for exactly the image, memory and cpu it then
    stores: each is the value of the request body when that is given and the
    record's old value otherwise.  The record [rec] with these values is what
    the store holds afterwards: when the new container id differs from the
    route id, the records are the old ones with [rec] put under the new
    container id and the key of the route id removed.  Everything else in
    the record stays, the instance id and the suspended flag included; only
    [updatedAt] moves. *)
Theorem edit_request_and_record ext user id body w inst c x y z :
  instance_of (w_db w) !! id = Some inst ->
  let out := run (Edit.edit ext user id body) w in
  fst out = Reply 200 (EditedBody id c x y z) ->
  let rec := edit_result ext inst body c in
  exists node request,
    Node inst = Some node
    /\ (c <> id ->
        instance_of (w_db (snd out))
        = delete id (<[c := rec]> (instance_of (w_db w)))
        /\ instance_of (w_db (snd out)) !! c = Some rec)
    /\ w_trace (snd out)
       = (w_trace w ++ [EAgent request;
                        EAudit (default "" (userId <$> user)) "instance:edit"])%list
    /\ rq_method request = "put"
    /\ rq_url request = agent_url node "edit" (ContainerId inst)
    /\ rq_data request
       = EditBody (Image rec) (Memory rec) (Cpu rec) (VolumeId inst)
    /\ Image rec = (if Js.truthy_str (Edit.eImage body)
                    then Edit.eImage body else Image inst)
    /\ Memory rec = (if Js.truthy_num (Edit.eMemory body)
                     then Edit.eMemory body else Memory inst)
    /\ Cpu rec = (if Js.truthy_num (Edit.eCpu body)
                  then Edit.eCpu body else Cpu inst)
    /\ (Js.truthy_num (Edit.eMemory body) = true -> 0 < Memory rec)
    /\ (Js.truthy_num (Edit.eCpu body) = true -> 0 < Cpu rec)
    /\ ContainerId rec = Some c
    /\ updatedAt rec = Some (now ext)
    /\ (Name rec, Id rec, User rec, Node rec, VolumeId rec, Ports rec,
        Primary rec, AltImages rec, imageData rec, Env rec, suspended rec,
        currentimage rec, createdAt rec)
       = (Name inst, Id inst, User inst, Node inst, VolumeId inst, Ports inst,
          Primary inst, AltImages inst, imageData inst, Env inst,
          suspended inst, currentimage inst, createdAt inst).
Proof.
  intros Hget. cbv zeta. intros Hok.
  destruct (run (Edit.edit ext user id body) w) as [r w'] eqn:E.
  cbn [fst snd] in *. subst r.
  pose proof (edit_success _ _ _ _ _ _ _ _ _ _ _ E)
    as (u & inst' & node & status & data & -> & Hadmin & Hid & Hbody & Hget'
        & Hnode & Haxios & Hdata & Hc & _).
  assert (inst' = inst) by congruence. subst inst'.
  rewrite (edit_run ext u id body w inst node status data c) in E
    by assumption.
  apply (f_equal snd) in E. cbn [snd] in E. subst w'. cbn [w_trace w_db].
  exists node, (edit_request inst node body).
  assert (Hn : Node inst = Some node).
  { unfold Edit.node_configured in Hnode.
    destruct (Node inst) as [n|]; [|discriminate].
    destruct (_ && _)%bool; congruence. }
  split; [exact Hn|].
  split.
  { intros Hne. rewrite edited_store_instance_of.
    split; [reflexivity|].
    rewrite lookup_delete_ne by congruence. apply lookup_insert_eq. }
  split; [reflexivity|].
  unfold edit_body_ok in Hbody.
  apply andb_true_iff in Hbody as [Hbody Hcpu].
  apply andb_true_iff in Hbody as [_ Hmem].
  apply negb_true_iff in Hmem, Hcpu.
  repeat split; try reflexivity.
  - intros Ht. simpl. unfold Js.or_num. rewrite Ht in *. simpl in Hmem.
    apply Z.leb_gt in Hmem. exact Hmem.
  - intros Ht. simpl. unfold Js.or_num. rewrite Ht in *. simpl in Hcpu.
    apply Z.leb_gt in Hcpu. exact Hcpu.
Qed.

(** Memory of the sample instance raised to 2048. *)
Lemma edit_request_and_record_witness :
  let body := Edit.mkEditRequest "" 2048 0 in
  let out := run (Edit.edit Sample.ext (Some Sample.alice) "srv1" body)
                 (Sample.world Sample.db) in
  let rec := edit_result Sample.ext Sample.server body "c1" in
  exists node request,
    Node Sample.server = Some node
    /\ ("c1" <> "srv1" ->
        instance_of (w_db (snd out))
        = delete "srv1" (<["c1" := rec]> (instance_of Sample.db))
        /\ instance_of (w_db (snd out)) !! "c1" = Some rec)
    /\ w_trace (snd out)
       = ([] ++ [EAgent request; EAudit "u1" "instance:edit"])%list
    /\ rq_method request = "put"
    /\ rq_url request = agent_url node "edit" (ContainerId Sample.server)
    /\ rq_data request
       = EditBody (Image rec) (Memory rec) (Cpu rec) (VolumeId Sample.server)
    /\ Image rec = Image Sample.server
    /\ Memory rec = 2048
    /\ Cpu rec = Cpu Sample.server
    /\ (Js.truthy_num 2048 = true -> 0 < Memory rec)
    /\ (Js.truthy_num 0 = true -> 0 < Cpu rec)
    /\ ContainerId rec = Some "c1"
    /\ updatedAt rec = Some (now Sample.ext)
    /\ (Name rec, Id rec, User rec, Node rec, VolumeId rec, Ports rec,
        Primary rec, AltImages rec, imageData rec, Env rec, suspended rec,
        currentimage rec, createdAt rec)
       = (Name Sample.server, Id Sample.server, User Sample.server,
          Node Sample.server, VolumeId Sample.server, Ports Sample.server,
          Primary Sample.server, AltImages Sample.server,
          imageData Sample.server, Env Sample.server,
          suspended Sample.server, currentimage Sample.server,
          createdAt Sample.server).
Proof.
  apply (edit_request_and_record Sample.ext (Some Sample.alice) "srv1"
           (Edit.mkEditRequest "" 2048 0) (Sample.world Sample.db)
           Sample.server "c1" "unchanged" "updated" "unchanged");
    reflexivity.
Defined.

(** ** The list helpers *)

Lemma filter_filter_same {A} (P : A -> Prop) `{!forall x, Decision (P x)}
    (l : list A) :
  filter P (filter P l) = filter P l.
Proof.
  induction l as [|a l IH]; [reflexivity|].
  rewrite (filter_cons P a l). destruct (decide (P a)) as [Ha|Ha]; [|exact IH].
  rewrite filter_cons. destruct (decide (P a)); [|contradiction].
  f_equal. exact IH.
Qed.

Lemma others_kept id (i : Instance) (l : list Instance) :
  Id i = id ->
  filter (fun entry => Id entry ≠ id) (replaced_by_id id i l)
  = filter (fun entry => Id entry ≠ id) l.
Proof.
  intros Hid. unfold replaced_by_id. rewrite filter_app, filter_filter_same.
  rewrite (filter_cons _ i []), filter_nil.
  destruct (decide (Id i ≠ id)); [contradiction|]. apply app_nil_r.
Qed.

Lemma replaced_length id (i : Instance) (l : list Instance) :
  (length (replaced_by_id id i l) <= S (length l))%nat.
Proof.
  unfold replaced_by_id. rewrite length_app. simpl.
  pose proof (length_filter (fun entry => Id entry ≠ id) l). lia.
Qed.

Lemma put_lists_user_list id (i : Instance) db :
  user_list (User i) (put_lists id i db)
  = replaced_by_id id i (user_list (User i) db).
Proof. unfold user_list at 1. simpl. rewrite lookup_insert_eq. reflexivity. Qed.

Lemma put_lists_global_list id (i : Instance) db :
  global_list (put_lists id i db) = replaced_by_id id i (global_list db).
Proof. reflexivity. Qed.

(** X13.  [updateInstanceInUserAndGlobalArrays] touches two lists and
    nothing else.  In the list of the instance's user and in the global
    list, the entries of every other instance id stay, in their order; every
    entry with the instance's id (duplicates included) is gone; the instance
    is the last entry; the list grows by one entry at most.  The lists of
    other users, the records, the nodes, the image catalog and the trace
    are as before. *)
Theorem updateArrays_frame (instanceData : Instance) (w : World) :
  let w' := snd (Startup.updateInstanceInUserAndGlobalArrays instanceData w) in
  let u := User instanceData in
  let other := fun entry : Instance => Id entry ≠ Id instanceData in
  filter other (user_list u (w_db w')) = filter other (user_list u (w_db w))
  /\ filter other (global_list (w_db w')) = filter other (global_list (w_db w))
  /\ matching instanceData (user_list u (w_db w')) = [instanceData]
  /\ matching instanceData (global_list (w_db w')) = [instanceData]
  /\ last (user_list u (w_db w')) = Some instanceData
  /\ last (global_list (w_db w')) = Some instanceData
  /\ (length (user_list u (w_db w')) <= S (length (user_list u (w_db w))))%nat
  /\ (length (global_list (w_db w')) <= S (length (global_list (w_db w))))%nat
  /\ (forall u', u' <> u ->
        instances_of_user (w_db w') !! u' = instances_of_user (w_db w) !! u')
  /\ instance_of (w_db w') = instance_of (w_db w)
  /\ node_of (w_db w') = node_of (w_db w)
  /\ images (w_db w') = images (w_db w)
  /\ w_trace w' = w_trace w.
Proof.
  cbv zeta. rewrite updateArrays_run. cbn [snd w_db w_trace].
  rewrite put_lists_user_list, put_lists_global_list.
  repeat split.
  - apply others_kept. reflexivity.
  - apply others_kept. reflexivity.
  - apply replaced_by_id_matching. reflexivity.
  - apply replaced_by_id_matching. reflexivity.
  - unfold replaced_by_id. apply last_snoc.
  - unfold replaced_by_id. apply last_snoc.
  - apply replaced_length.
  - apply replaced_length.
  - intros u' Hne. apply lookup_insert_ne. congruence.
Qed.

(** ** The list updates of the edit route *)

Lemma findIndex_first {A} (p : A -> bool) (l : list A) i :
  Js.findIndex p l = Some i ->
  forall j x, (j < i)%nat -> l !! j = Some x -> p x = false.
Proof.
  revert i. induction l as [|a l IH]; [discriminate|].
  intros i. simpl. destruct (p a) eqn:Hp.
  - intros [= <-] j x Hj. lia.
  - destruct (Js.findIndex p l) as [k|]; [|discriminate].
    intros [= <-] [|j] x Hj; simpl.
    + intros [= <-]. exact Hp.
    + apply (IH k eq_refl). lia.
Qed.

(** X14.  The list update of the edit route works in place.  The list
    keeps its length; the first entry whose container id is the old id is
    overwritten with the spread of the update; every other position holds
    what it held, later entries with that same container id included; and
    when no entry has the old container id the list is not written at
    all. *)
Theorem edit_list_update_in_place userId old (upd : Instance) (w : World) :
  let w' := snd (Edit.updateUserInstances userId old upd w) in
  let before := user_list userId (w_db w) in
  let after := user_list userId (w_db w') in
  length after = length before
  /\ (forall j entry,
        before !! j = Some entry ->
        after !! j
        = Some (if bool_decide (Js.findIndex (has_container old) before = Some j)
                then spread entry upd else entry))
  /\ (forall j entry,
        Js.findIndex (has_container old) before = Some j ->
        before !! j = Some entry ->
        ContainerId entry = Some old
        /\ forall k earlier, (k < j)%nat -> before !! k = Some earlier ->
                             ContainerId earlier <> Some old)
  /\ (Js.findIndex (has_container old) before = None -> w' = w)
  /\ (forall u', u' <> userId ->
        instances_of_user (w_db w') !! u' = instances_of_user (w_db w) !! u')
  /\ instance_of (w_db w') = instance_of (w_db w)
  /\ instances (w_db w') = instances (w_db w)
  /\ w_trace w' = w_trace w.
Proof.
  cbv zeta. rewrite updateUserInstances_run. cbn [snd w_db w_trace].
  unfold edit_user_list, patch.
  destruct (Js.findIndex (has_container old) (user_list userId (w_db w)))
    as [i|] eqn:Hi.
  - destruct (findIndex_lookup _ _ _ Hi) as (x & Hx & Hpx). rewrite Hx.
    assert (Hafter :
      user_list userId
        (put_user_instances userId
           (<[i:=spread x upd]> (user_list userId (w_db w))) (w_db w))
      = <[i:=spread x upd]> (user_list userId (w_db w))).
    { unfold user_list at 1. simpl. rewrite lookup_insert_eq. reflexivity. }
    rewrite Hafter.
    split; [apply length_insert|]. split; [|split; [|split; [|split]]].
    + intros j entry Hj. destruct (decide (i = j)) as [<-|Hne].
      * rewrite bool_decide_eq_true_2 by reflexivity.
        rewrite list_lookup_insert_eq by (eapply lookup_lt_Some; exact Hj).
        congruence.
      * rewrite bool_decide_eq_false_2 by congruence.
        rewrite list_lookup_insert_ne by exact Hne. exact Hj.
    + intros j entry [= <-] Hj. split.
      * assert (entry = x) by congruence. subst entry.
        unfold has_container in Hpx. apply bool_decide_eq_true in Hpx.
        exact Hpx.
      * intros k earlier Hk Hearlier Hc.
        pose proof (findIndex_first _ _ _ Hi k earlier Hk Hearlier) as Hf.
        unfold has_container in Hf. apply bool_decide_eq_false in Hf.
        contradiction.
    + discriminate.
    + intros u' Hne. simpl. apply lookup_insert_ne. congruence.
    + repeat split; reflexivity.
  - split; [reflexivity|]. split; [|split; [|split; [|split]]].
    + intros j entry Hj. rewrite bool_decide_eq_false_2 by discriminate.
      exact Hj.
    + discriminate.
    + intros _. destruct w; reflexivity.
    + reflexivity.
    + repeat split; reflexivity.
Qed.

(** ** Environment lists *)

Lemma map_env_spec variable value env :
  Startup.map_env variable value env
  = (map (set_if_key variable value) env, has_key variable env).
Proof.
  induction env as [|e env IH]; [reflexivity|].
  simpl. rewrite IH. unfold set_if_key, has_key. simpl.
  destruct (String.eqb (Startup.env_key e) variable) eqn:E; simpl;
    [apply String.eqb_eq in E; rewrite E|]; reflexivity.
Qed.

Lemma change_env_spec variable value env :
  Startup.change_env variable value env
  = (map (set_if_key variable value) env
     ++ (if has_key variable env then []
         else [Startup.env_entry variable value]))%list.
Proof.
  unfold Startup.change_env. rewrite map_env_spec.
  destruct (has_key variable env); [rewrite app_nil_r|]; reflexivity.
Qed.

(** X15.  The env-variable change works in place.  Every position of the
    list keeps its entry unless the entry's key (the text before its first
    equals sign) is the variable, in which case it reads [variable=value]:
    all such entries, not only the first.  The list keeps its length when
    some entry had the key, and otherwise grows by one entry,
    [variable=value], at its end.  A value that itself holds equals signs is
    stored as it is. *)
Theorem change_env_in_place variable value env :
  let env' := Startup.change_env variable value env in
  (forall j e,
      env !! j = Some e ->
      env' !! j = Some (if String.eqb (Startup.env_key e) variable
                        then Startup.env_entry variable value else e))
  /\ length env'
     = (if has_key variable env then length env else S (length env))
  /\ (has_key variable env = false ->
      env' = (env ++ [Startup.env_entry variable value])%list)
  /\ (occurs equals variable = false ->
      Startup.env_key (Startup.env_entry variable value) = variable).
Proof.
  cbv zeta. rewrite change_env_spec. split; [|split; [|split]].
  - intros j e Hj. rewrite lookup_app_l.
    + rewrite list_lookup_fmap, Hj. reflexivity.
    + rewrite length_map. eapply lookup_lt_Some. exact Hj.
  - rewrite length_app, length_map.
    destruct (has_key variable env); simpl; lia.
  - intros Hno. rewrite Hno. f_equal.
    unfold has_key in Hno.
    induction env as [|e env IH]; [reflexivity|].
    simpl in Hno. apply orb_false_iff in Hno as [He Hrest].
    simpl. unfold set_if_key at 1. rewrite He. f_equal. apply IH, Hrest.
  - apply env_key_entry.
Qed.

Lemma has_key_map_other v1 v2 x2 env :
  v1 <> v2 -> occurs equals v2 = false ->
  has_key v1 (map (set_if_key v2 x2) env) = has_key v1 env.
Proof.
  intros Hne Hfree. unfold has_key. induction env as [|e env IH];
    [reflexivity|].
  simpl. rewrite IH. f_equal. unfold set_if_key.
  destruct (String.eqb_spec (Startup.env_key e) v2) as [E|NE]; [|reflexivity].
  rewrite (env_key_entry v2 x2 Hfree), E.
  destruct (String.eqb_spec v2 v1); [congruence|reflexivity].
Qed.

Lemma set_if_key_commute v1 x1 v2 x2 e :
  v1 <> v2 -> occurs equals v1 = false -> occurs equals v2 = false ->
  set_if_key v1 x1 (set_if_key v2 x2 e) = set_if_key v2 x2 (set_if_key v1 x1 e).
Proof.
  intros Hne H1 H2. unfold set_if_key.
  destruct (String.eqb_spec (Startup.env_key e) v1) as [E1|N1];
    destruct (String.eqb_spec (Startup.env_key e) v2) as [E2|N2];
    cbv iota;
    rewrite ?(env_key_entry v1 x1 H1), ?(env_key_entry v2 x2 H2);
    repeat match goal with
           | |- context [String.eqb ?a ?b] =>
               destruct (String.eqb_spec a b); cbv iota
           end;
    try congruence; reflexivity.
Qed.

Lemma set_if_key_other v1 x1 v2 x2 :
  v1 <> v2 -> occurs equals v2 = false ->
  set_if_key v1 x1 (Startup.env_entry v2 x2) = Startup.env_entry v2 x2.
Proof.
  intros Hne Hfree. unfold set_if_key. rewrite (env_key_entry v2 x2 Hfree).
  destruct (String.eqb_spec v2 v1); [congruence|reflexivity].
Qed.

Lemma has_key_app v l1 l2 :
  has_key v (l1 ++ l2) = (has_key v l1 || has_key v l2)%bool.
Proof. unfold has_key. apply existsb_app. Qed.

Lemma has_key_change_other v1 v2 x2 env :
  v1 <> v2 -> occurs equals v2 = false ->
  has_key v1 (Startup.change_env v2 x2 env) = has_key v1 env.
Proof.
  intros Hne Hfree. rewrite change_env_spec, has_key_app.
  rewrite (has_key_map_other v1 v2 x2 env Hne Hfree).
  destruct (has_key v2 env); simpl; [apply orb_false_r|].
  unfold has_key at 2. simpl. rewrite (env_key_entry v2 x2 Hfree).
  destruct (String.eqb_spec v2 v1); [congruence|].
  simpl. apply orb_false_r.
Qed.

(** X16.  Changes of two different variables, neither with an equals sign
    in its name, can be applied in either order with the same result, as
    long as the list already has an entry for at least one of them.  (When
    it has neither, both are appended, in the order of the calls.) *)
Theorem change_env_commute v1 x1 v2 x2 env :
  v1 <> v2 ->
  occurs equals v1 = false ->
  occurs equals v2 = false ->
  (has_key v1 env || has_key v2 env)%bool = true ->
  Startup.change_env v1 x1 (Startup.change_env v2 x2 env)
  = Startup.change_env v2 x2 (Startup.change_env v1 x1 env).
Proof.
  intros Hne H1 H2 Hsome.
  rewrite (change_env_spec v1 x1 (Startup.change_env v2 x2 env)).
  rewrite (change_env_spec v2 x2 (Startup.change_env v1 x1 env)).
  rewrite (has_key_change_other v1 v2 x2 env Hne H2).
  rewrite (has_key_change_other v2 v1 x1 env (not_eq_sym Hne) H1).
  rewrite !change_env_spec, !map_app, !map_map.
  assert (Hmap : map (fun e => set_if_key v1 x1 (set_if_key v2 x2 e)) env
                 = map (fun e => set_if_key v2 x2 (set_if_key v1 x1 e)) env).
  { apply map_ext. intros e. apply set_if_key_commute; assumption. }
  rewrite Hmap.
  destruct (has_key v1 env), (has_key v2 env); try discriminate Hsome;
    cbn [map app];
    rewrite ?app_nil_r, ?(set_if_key_other v2 x2 v1 x1 (not_eq_sym Hne) H1),
      ?(set_if_key_other v1 x1 v2 x2 Hne H2);
    reflexivity.
Qed.

Lemma change_env_commute_witness :
  Startup.change_env "EULA" "false"
    (Startup.change_env "MOTD" "hi" ["EULA=true"; "MODE=a=b"])
  = Startup.change_env "MOTD" "hi"
      (Startup.change_env "EULA" "false" ["EULA=true"; "MODE=a=b"]).
Proof.
  apply (change_env_commute "EULA" "false" "MOTD" "hi"
           ["EULA=true"; "MODE=a=b"]); try reflexivity.
  discriminate.
Defined.

(** ** Port maps *)

Lemma split_all_free c s : Forall (fun seg => occurs c seg = false) (Js.split c s).
Proof.
  induction s as [|a s IH]; simpl.
  - repeat constructor.
  - destruct (Ascii.eqb a c) eqn:Ha.
    + constructor; [reflexivity|exact IH].
    + destruct (Js.split c s) as [|seg segs]; [repeat constructor; simpl;
        rewrite Ha; reflexivity|].
      inversion IH as [|? ? Hseg Hsegs]; subst.
      constructor; [simpl; rewrite Ha, Hseg; reflexivity|exact Hsegs].
Qed.

Lemma trim_start_free c s : occurs c s = false -> occurs c (Js.trim_start s) = false.
Proof.
  induction s as [|a s IH]; [reflexivity|].
  intros H. simpl. destruct (Js.is_space a); [|exact H].
  simpl in H. apply orb_false_iff in H as [_ H]. apply IH, H.
Qed.

Lemma trim_end_free c s : occurs c s = false -> occurs c (Js.trim_end s) = false.
Proof.
  induction s as [|a s IH]; [reflexivity|].
  intros H. simpl in H. apply orb_false_iff in H as [Ha Hs].
  simpl. specialize (IH Hs).
  destruct (Js.trim_end s) as [|b kept].
  - destruct (Js.is_space a); [reflexivity|]. simpl. rewrite Ha. reflexivity.
  - simpl. simpl in IH. rewrite Ha, IH. reflexivity.
Qed.

Lemma trim_free c s : occurs c s = false -> occurs c (Js.trim s) = false.
Proof. intros H. apply trim_end_free, trim_start_free, H. Qed.

Lemma lookup_free c (l : list string) j seg :
  Forall (fun s => occurs c s = false) l -> l !! j = Some seg ->
  occurs c seg = false.
Proof.
  intros Hall Hj. rewrite Forall_forall in Hall. apply Hall.
  eapply list_elem_of_lookup_2. exact Hj.
Qed.

Lemma port_maps_ok_insert maps c h :
  port_maps_ok maps ->
  c <> "" -> h <> "" -> occurs colon c = false -> occurs colon h = false ->
  port_maps_ok (<[String.append c "/tcp" := tt]> (fst maps),
                <[String.append c "/tcp" := [mkPortBinding h]]> (snd maps)).
Proof.
  intros [Hdom Hok] Hc Hh Hfc Hfh. split.
  - simpl. rewrite !dom_insert_L, Hdom. reflexivity.
  - simpl. intros key binding Hkey.
    destruct (decide (String.append c "/tcp" = key)) as [<-|Hne].
    + rewrite lookup_insert_eq in Hkey. injection Hkey as <-.
      exists c, h. repeat split; assumption.
    + rewrite lookup_insert_ne in Hkey by exact Hne. apply Hok, Hkey.
Qed.

Lemma startup_step_ok maps seg :
  port_maps_ok maps -> port_maps_ok (Startup.add_port_mapping maps seg).
Proof.
  intros Hok. unfold Startup.add_port_mapping. cbv zeta.
  pose proof (split_all_free colon seg) as Hfree.
  change ":"%char with colon.
  destruct (Js.split colon seg !! 0%nat) as [c|] eqn:Hc; [|exact Hok].
  destruct (Js.split colon seg !! 1%nat) as [h|] eqn:Hh; [|exact Hok].
  destruct (Js.truthy_str c) eqn:Htc; [|exact Hok].
  destruct (Js.truthy_str h) eqn:Hth; [|exact Hok].
  simpl. apply port_maps_ok_insert; try assumption.
  - apply truthy_str_nonempty, Htc.
  - apply truthy_str_nonempty, Hth.
  - eapply lookup_free; eassumption.
  - eapply lookup_free; eassumption.
Qed.

Lemma reinstall_step_ok maps seg :
  port_maps_ok maps -> port_maps_ok (Reinstall.add_port_mapping maps seg).
Proof.
  intros Hok. unfold Reinstall.add_port_mapping. cbv zeta.
  assert (Hfree : Forall (fun s => occurs colon s = false)
                    (Js.trim <$> Js.split colon seg)).
  { pose proof (split_all_free colon seg) as H.
    induction H as [|s l Hs Hl IH]; [constructor|].
    constructor; [apply trim_free, Hs|exact IH]. }
  change ":"%char with colon.
  destruct ((Js.trim <$> Js.split colon seg) !! 0%nat) as [c|] eqn:Hc;
    [|exact Hok].
  destruct ((Js.trim <$> Js.split colon seg) !! 1%nat) as [h|] eqn:Hh;
    [|exact Hok].
  destruct (Js.truthy_str c) eqn:Htc; [|exact Hok].
  destruct (Js.truthy_str h) eqn:Hth; [|exact Hok].
  simpl. apply port_maps_ok_insert; try assumption.
  - apply truthy_str_nonempty, Htc.
  - apply truthy_str_nonempty, Hth.
  - eapply lookup_free; eassumption.
  - eapply lookup_free; eassumption.
Qed.

Lemma fold_ok {A} (step : _ -> A -> _) (l : list A) maps :
  (forall m x, port_maps_ok m -> port_maps_ok (step m x)) ->
  port_maps_ok maps -> port_maps_ok (fold_left step l maps).
Proof.
  intros Hstep. revert maps. induction l as [|x l IH]; intros maps Hok;
    [exact Hok|].
  simpl. apply IH, Hstep, Hok.
Qed.

Lemma size_insert_le (m : gmap string unit) k :
  (size (<[k := tt]> m) <= S (size m))%nat.
Proof.
  destruct (m !! k) as [[]|] eqn:Hk.
  - rewrite insert_id by exact Hk. lia.
  - rewrite map_size_insert_None by exact Hk. lia.
Qed.

Lemma fold_size {A} (step : _ -> A -> gmap string unit * gmap string (list PortBinding))
    (l : list A) maps :
  (forall m x, (size (fst (step m x)) <= S (size (fst m)))%nat) ->
  (size (fst (fold_left step l maps)) <= length l + size (fst maps))%nat.
Proof.
  intros Hstep. revert maps. induction l as [|x l IH]; intros maps;
    [simpl; lia|].
  simpl. specialize (IH (step maps x)). specialize (Hstep maps x). lia.
Qed.

Lemma startup_step_size maps seg :
  (size (fst (Startup.add_port_mapping maps seg)) <= S (size (fst maps)))%nat.
Proof.
  unfold Startup.add_port_mapping. cbv zeta.
  destruct (_ !! 0%nat); [|lia]. destruct (_ !! 1%nat); [|lia].
  destruct (_ && _)%bool; [|lia]. simpl. apply size_insert_le.
Qed.

Lemma reinstall_step_size maps seg :
  (size (fst (Reinstall.add_port_mapping maps seg)) <= S (size (fst maps)))%nat.
Proof.
  unfold Reinstall.add_port_mapping. cbv zeta.
  destruct (_ !! 0%nat); [|lia]. destruct (_ !! 1%nat); [|lia].
  destruct (_ && _)%bool; [|lia]. simpl. apply size_insert_le.
Qed.

Lemma empty_maps_ok : port_maps_ok (∅, ∅).
Proof.
  split; [simpl; rewrite !dom_empty_L; reflexivity|].
  intros key binding H. simpl in H. rewrite lookup_empty in H. discriminate.
Qed.

(** X17.  Whatever the port string, both request builders produce maps
    that fit together: the exposed ports and the port bindings have the same
    keys; every key is a container port followed by "/tcp" and is bound to
    exactly one host port; neither port is empty or holds a colon; and there
    are no more entries than the string has comma-separated segments. *)
Theorem port_maps_well_formed (ports : string) :
  port_maps_ok (Startup.port_maps ports)
  /\ port_maps_ok (Reinstall.port_maps ports)
  /\ (size (fst (Startup.port_maps ports))
      <= length (Js.split "," ports))%nat
  /\ (size (fst (Reinstall.port_maps ports))
      <= length (Js.split "," ports))%nat.
Proof.
  unfold Startup.port_maps, Reinstall.port_maps.
  destruct (Js.truthy_str ports).
  - split; [|split; [|split]].
    + apply fold_ok; [intros; apply startup_step_ok; assumption|].
      apply empty_maps_ok.
    + apply fold_ok; [intros; apply reinstall_step_ok; assumption|].
      apply empty_maps_ok.
    + pose proof (fold_size Startup.add_port_mapping (Js.split "," ports)
                    (∅, ∅) startup_step_size) as H.
      simpl in H. rewrite map_size_empty in H. lia.
    + pose proof (fold_size Reinstall.add_port_mapping (Js.split "," ports)
                    (∅, ∅) reinstall_step_size) as H.
      simpl in H. rewrite map_size_empty in H. lia.
  - repeat split; try apply empty_maps_ok; simpl; rewrite map_size_empty; lia.
Qed.

Lemma append_cancel_r (a b s : string) :
  String.append a s = String.append b s -> a = b.
Proof.
  intros H. apply (f_equal list_ascii_of_string) in H.
  rewrite !chars_append in H. apply app_inv_tail in H. apply chars_inj, H.
Qed.

Lemma startup_step_elsewhere maps seg key :
  malformed seg = true
  \/ (forall c, Js.split ":" seg !! 0%nat = Some c ->
                String.append c "/tcp" <> key) ->
  snd (Startup.add_port_mapping maps seg) !! key = snd maps !! key
  /\ fst (Startup.add_port_mapping maps seg) !! key = fst maps !! key.
Proof.
  intros [Hbad|Hother].
  - rewrite startup_skips by exact Hbad. split; reflexivity.
  - unfold Startup.add_port_mapping. cbv zeta.
    destruct (Js.split ":" seg !! 0%nat) as [c|]; [|split; reflexivity].
    destruct (Js.split ":" seg !! 1%nat) as [h|]; [|split; reflexivity].
    destruct (_ && _)%bool; [|split; reflexivity].
    simpl. specialize (Hother c eq_refl).
    rewrite !lookup_insert_ne by exact Hother. split; reflexivity.
Qed.

(** X18.  When a port string maps the same container port more than once,
    the last mapping wins: the binding of a container port is the host port
    of the last well-formed segment that names it. *)
Theorem port_maps_last_wins before seg after c h :
  comma_free (before ++ seg :: after) ->
  Js.split ":" seg !! 0%nat = Some c ->
  Js.split ":" seg !! 1%nat = Some h ->
  c <> "" -> h <> "" ->
  Forall (fun later => malformed later = true
                       \/ Js.split ":" later !! 0%nat <> Some c) after ->
  let maps := Startup.port_maps (join_ports (before ++ seg :: after)) in
  snd maps !! String.append c "/tcp" = Some [mkPortBinding h]
  /\ fst maps !! String.append c "/tcp" = Some tt.
Proof.
  intros Hfree Hc Hh Hcne Hhne Hafter. cbv zeta.
  rewrite startup_port_maps_join by exact Hfree.
  rewrite fold_left_app. simpl.
  set (acc := fold_left Startup.add_port_mapping before (∅, ∅)).
  assert (Hstep :
    snd (Startup.add_port_mapping acc seg) !! String.append c "/tcp"
    = Some [mkPortBinding h]
    /\ fst (Startup.add_port_mapping acc seg) !! String.append c "/tcp"
       = Some tt).
  { unfold Startup.add_port_mapping. cbv zeta. rewrite Hc, Hh.
    rewrite (truthy_str_true c Hcne), (truthy_str_true h Hhne). simpl.
    rewrite !lookup_insert_eq. split; reflexivity. }
  revert Hstep. generalize (Startup.add_port_mapping acc seg).
  clear acc Hfree.
  induction Hafter as [|later after Hlater Hafter IH]; intros maps Hmaps;
    [exact Hmaps|].
  cbn [fold_left]. apply IH.
  destruct (startup_step_elsewhere maps later (String.append c "/tcp"))
    as [Hs Hf].
  - destruct Hlater as [Hbad|Hother]; [left; exact Hbad|right].
    intros c' Hc' E. apply append_cancel_r in E. congruence.
  - rewrite Hs, Hf. exact Hmaps.
Qed.

Lemma port_maps_last_wins_witness :
  let maps := Startup.port_maps "80:8080,25565:25565,80:9090,443" in
  snd maps !! "80/tcp" = Some [mkPortBinding "9090"]
  /\ fst maps !! "80/tcp" = Some tt.
Proof.
  apply (port_maps_last_wins ["80:8080"; "25565:25565"] "80:9090" ["443"]
           "80" "9090"); try reflexivity; try discriminate.
  - repeat constructor.
  - repeat constructor.
Defined.

(** ** The two copies of the port translation *)








(** With white space the copies part ways: reinstall trims, the image
    change keeps the blanks in the key.  A no-break space (code unit 160)
    is white space to [trim] as well. *)
Example port_maps_copies_differ :
  let nbsp := ascii_of_nat 160 in
  dom (fst (Reinstall.port_maps " 80 : 8080 ")) = {[ "80/tcp" ]}
  /\ dom (fst (Startup.port_maps " 80 : 8080 ")) = {[ " 80 /tcp" ]}
  /\ dom (fst (Reinstall.port_maps (String nbsp "80:8080"))) = {[ "80/tcp" ]}
  /\ dom (fst (Startup.port_maps (String nbsp "80:8080")))
     = {[ String nbsp "80/tcp" ]}
  /\ has_space (String nbsp "80:8080") = true.
Proof. repeat split; vm_compute; reflexivity. Qed.

(** ** What no route touches *)

(** X20.  No route writes a node or the image catalog: after any request
    on any of the six routes both are what they were. *)
Theorem routes_keep_nodes_and_images ext route user id w :
  let out := run (serve ext route user id) w in
  node_of (w_db (snd out)) = node_of (w_db w)
  /\ images (w_db (snd out)) = images (w_db w).
Proof.
  cbv zeta.
  destruct (run (serve ext route user id) w) as [r w'] eqn:E.
  cbn [fst snd]. unfold run in E.
  destruct route as [|[|body|newName|variable value|image quser]];
    unfold_routes E; simpl in E.
  all: case_run E; injection E as <- <-; split; reflexivity.
Qed.

Ltac record_frame_tac id id' :=
  cbn [w_db instance_of];
  destruct (decide (id' = id)) as [->|Hne]; [right; left; reflexivity|];
  first
    [ left; rewrite ?lookup_insert_ne by congruence; reflexivity
    | match goal with
      | |- context [delete id (<[?c := _]> _)] =>
          destruct (decide (id' = c)) as [->|Hnc];
          [ right; right; eexists; split; reflexivity
          | left; rewrite lookup_delete_ne by congruence;
            rewrite lookup_insert_ne by congruence; reflexivity ]
      end ].

(** X21.  A request touches the record of its own id and no other.  For
    every other id the stored record is the one from before the request;
    the one exception is the new container id of a finished edit, under
    which the edited record is filed. *)
Theorem routes_touch_their_record_only ext route user id w id' :
  let out := run (serve ext route user id) w in
  instance_of (w_db (snd out)) !! id' = instance_of (w_db w) !! id'
  \/ id' = id
  \/ exists body, route = Mutate (DoEdit body)
                  /\ fst out = edit_response id id' body.
Proof.
  cbv zeta.
  destruct (run (serve ext route user id) w) as [r w'] eqn:E.
  cbn [fst snd]. unfold run in E.
  destruct route as [|[|body|newName|variable value|image quser]];
    unfold_routes E; simpl in E.
  all: case_run E; injection E as <- <-.
  all: try (left; reflexivity).
  all: record_frame_tac id id'.
Qed.

(** ** What a request adds to the trace *)

(** X22.  A request only appends to the trace, and it calls the agent once
    at most; the startup view and the env-variable change never call it. *)
Theorem one_agent_call_at_most ext route user id w :
  let out := run (serve ext route user id) w in
  exists events,
    w_trace (snd out) = (w_trace w ++ events)%list
    /\ (agent_calls events <= 1)%nat
    /\ (local_only route = true -> agent_calls events = 0%nat).
Proof.
  cbv zeta.
  destruct (run (serve ext route user id) w) as [r w'] eqn:E.
  cbn [fst snd]. unfold run in E.
  destruct route as [|[|body|newName|variable value|image quser]];
    unfold_routes E; simpl in E.
  all: case_run E; injection E as <- <-.
  all: new_events.
  all: unfold agent_calls; simpl; split;
         [lia|intros Hlocal; try discriminate Hlocal; reflexivity].
Qed.

(** X23.  Nothing is written to the audit log unless the request went
    through: a request that added an audit entry was a mutation, and its
    answer is that mutation's success answer.  The startup view never
    audits. *)
Theorem audit_means_success ext route user id w :
  let out := run (serve ext route user id) w in
  exists events,
    w_trace (snd out) = (w_trace w ++ events)%list
    /\ forall uid action,
         In (EAudit uid action) events ->
         exists m, route = Mutate m /\ answers_success m id (fst out).
Proof.
  cbv zeta.
  destruct (run (serve ext route user id) w) as [r w'] eqn:E.
  cbn [fst snd]. unfold run in E.
  destruct route as [|[|body|newName|variable value|image quser]];
    unfold_routes E; simpl in E.
  all: case_run E; injection E as <- <-.
  all: new_events.
  all: intros uid action Hin; simpl in Hin.
  all: repeat match goal with
              | H : _ \/ _ |- _ => destruct H as [H|H]
              end;
       try discriminate; try contradiction.
  all: eexists; split; [reflexivity|].
  all: try reflexivity.
  all: eexists; reflexivity.
Qed.

(** ** Requests turned away by validation *)

(** X24.  Reinstall needs a complete record.  For an authorised caller and
    an instance that is not suspended, a record that lacks an image, memory,
    cpu, a name, a user, the primary flag or a node is answered with 400
    "Missing required parameters" before anything happens: the agent is not
    called and nothing is written.  A memory or cpu of zero counts as
    missing. *)
Theorem reinstall_requires_fields ext u id w inst :
  id <> "" ->
  instance_of (w_db w) !! id = Some inst ->
  isUserAuthorizedForContainer ext (w_db w) (userId u) (Id inst) = true ->
  suspended inst <> Some true ->
  reinstall_fields_ok inst = false ->
  run (Reinstall.reinstall ext (Some u) id) w
  = (Reply 400 (ErrorBody "Missing required parameters" None), w).
Proof.
  intros Hid Hget Hauth Hactive Hmissing.
  unfold run, Reinstall.reinstall.
  rewrite (truthy_str_true id Hid). cbn [negb].
  unfold try_catch, bind, ret, get_instance, read_db, authorized. simpl.
  rewrite Hget, Hauth. simpl. rewrite (not_suspended inst Hactive).
  unfold reinstall_fields_ok in Hmissing.
  destruct (Node inst) as [node|]; [|reflexivity].
  rewrite bool_decide_eq_true_2 in Hmissing by eauto.
  rewrite andb_true_r in Hmissing.
  destruct (Js.truthy_str (Image inst)), (Js.truthy_num (Memory inst)),
    (Js.truthy_num (Cpu inst)), (Js.truthy_str (Name inst)),
    (Js.truthy_str (User inst)), (Primary inst);
    try discriminate Hmissing; reflexivity.
Qed.

(** The sample record with its memory set to zero. *)
Lemma reinstall_requires_fields_witness :
  run (Reinstall.reinstall Sample.ext (Some Sample.alice) "srv1")
      (Sample.world (Sample.store_of Incomplete.server))
  = (Reply 400 (ErrorBody "Missing required parameters" None),
     Sample.world (Sample.store_of Incomplete.server)).
Proof.
  apply (reinstall_requires_fields Sample.ext Sample.alice "srv1"
           (Sample.world (Sample.store_of Incomplete.server))
           Incomplete.server);
    try reflexivity; discriminate.
Defined.

(** X25.  Edit checks the request body before it looks at the store.  For
    an administrator, a body without image, memory and cpu, or with a
    negative memory or cpu, is answered with 400 and nothing else happens,
    whether or not the instance exists.  A memory or cpu of zero is not an
    error: it reads as "not given". *)
Theorem edit_rejects_bad_body ext u id body w :
  admin u = true ->
  id <> "" ->
  edit_body_ok body = false ->
  let out := run (Edit.edit ext (Some u) id body) w in
  snd out = w
  /\ is_validation_error (fst out) = true
  /\ (Edit.eImage body = "" -> Edit.eMemory body = 0 -> Edit.eCpu body = 0 ->
      fst out = Reply 400 (MessageBody
        "At least one update parameter (Image, Memory, Cpu) is required"))
  /\ (Edit.eMemory body < 0 ->
      fst out = Reply 400 (MessageBody "Memory must be a positive number"))
  /\ (0 <= Edit.eMemory body -> Edit.eCpu body < 0 ->
      fst out = Reply 400 (MessageBody "CPU must be a positive number")).
Proof.
  intros Hadmin Hid Hbad. cbv zeta.
  unfold run, Edit.edit. rewrite Hadmin. cbn [negb].
  unfold try_catch. rewrite (truthy_str_true id Hid). cbn [negb]. cbv zeta.
  unfold edit_body_ok in Hbad. unfold Js.truthy_num, Js.truthy_str in *.
  destruct (String.eqb_spec (Edit.eImage body) "") as [Hi|Hi];
    destruct (Z.eqb_spec (Edit.eMemory body) 0) as [Hm|Hm];
    destruct (Z.eqb_spec (Edit.eCpu body) 0) as [Hc|Hc];
    destruct (Z.leb_spec (Edit.eMemory body) 0) as [Hml|Hml];
    destruct (Z.leb_spec (Edit.eCpu body) 0) as [Hcl|Hcl];
    simpl in *; try discriminate Hbad;
    (split; [reflexivity|]; split; [reflexivity|]);
    repeat split; intros; try reflexivity; try lia; try congruence.
Qed.

(** A negative memory on the sample panel. *)
Lemma edit_rejects_bad_body_witness :
  let out := run (Edit.edit Sample.ext (Some Sample.alice) "srv1"
                    (Edit.mkEditRequest "" (-5) 0)) (Sample.world Sample.db) in
  snd out = Sample.world Sample.db
  /\ is_validation_error (fst out) = true
  /\ ("" = "" -> -5 = 0 -> 0 = 0 ->
      fst out = Reply 400 (MessageBody
        "At least one update parameter (Image, Memory, Cpu) is required"))
  /\ (-5 < 0 ->
      fst out = Reply 400 (MessageBody "Memory must be a positive number"))
  /\ (0 <= -5 -> 0 < 0 ->
      fst out = Reply 400 (MessageBody "CPU must be a positive number")).
Proof.
  apply (edit_rejects_bad_body Sample.ext Sample.alice "srv1"
           (Edit.mkEditRequest "" (-5) 0) (Sample.world Sample.db));
    try reflexivity; discriminate.
Defined.

(** ** Rename: the notification *)

(** X26.  A rename that goes through stores the old record with the new
    name and nothing else changed.  It then notifies the agent exactly when
    the record carries a node and a container id that is not empty, at that
    node and container id and with the new name; a record without them is
    renamed without any agent call. *)
Theorem rename_notifies_when_it_can ext u id newName w inst :
  id <> "" ->
  instance_of (w_db w) !! id = Some inst ->
  isUserAuthorizedForContainer ext (w_db w) (userId u) (Id inst) = true ->
  suspended inst <> Some true ->
  name_length_ok newName = true ->
  name_taken id newName (w_db w) = false ->
  let out := run (Startup.rename ext (Some u) id newName) w in
  fst out = Startup.success
  /\ instance_of (w_db (snd out)) !! id = Some (set_Name newName inst)
  /\ (Node inst = None \/ Js.truthy_opt Js.truthy_str (ContainerId inst) = false ->
      w_trace (snd out)
      = (w_trace w ++ [EAudit (userId u) "instance:rename"])%list)
  /\ (forall node cid,
        Node inst = Some node -> ContainerId inst = Some cid -> cid <> "" ->
        exists rest request,
          w_trace (snd out) = (w_trace w ++ EAgent request :: rest)%list
          /\ agent_calls rest = 0%nat
          /\ rq_url request = agent_url node "rename" (Some cid)
          /\ rq_password request = apiKey node
          /\ rq_data request = RenameBody newName).
Proof.
  intros Hid Hget Hauth Hactive Hlen Hfree. cbv zeta.
  rewrite (rename_run ext u id newName w inst Hid Hget Hauth Hactive).
  rewrite Hlen, Hfree. cbn [fst snd w_db w_trace].
  split; [reflexivity|]. split; [apply lookup_insert_eq|]. split.
  - unfold rename_notice. intros [-> | Hc]; [reflexivity|].
    destruct (Node inst); [|reflexivity]. rewrite Hc. reflexivity.
  - intros node cid Hnode Hcid Hne. unfold rename_notice.
    rewrite Hnode, Hcid. simpl. rewrite (truthy_str_true cid Hne).
    eexists _, _. split; [reflexivity|].
    split; [|repeat split; reflexivity].
    destruct (axios ext _); reflexivity.
Qed.

Lemma rename_notifies_when_it_can_witness :
  let out := run (Startup.rename Sample.ext (Some Sample.alice) "srv1" "spawn")
                 (Sample.world Sample.db) in
  fst out = Startup.success
  /\ instance_of (w_db (snd out)) !! "srv1"
     = Some (set_Name "spawn" Sample.server)
  /\ (Node Sample.server = None
      \/ Js.truthy_opt Js.truthy_str (ContainerId Sample.server) = false ->
      w_trace (snd out) = ([] ++ [EAudit "u1" "instance:rename"])%list)
  /\ (forall node cid,
        Node Sample.server = Some node ->
        ContainerId Sample.server = Some cid -> cid <> "" ->
        exists rest request,
          w_trace (snd out) = ([] ++ EAgent request :: rest)%list
          /\ agent_calls rest = 0%nat
          /\ rq_url request = agent_url node "rename" (Some cid)
          /\ rq_password request = apiKey node
          /\ rq_data request = RenameBody "spawn").
Proof.
  apply (rename_notifies_when_it_can Sample.ext Sample.alice "srv1" "spawn"
           (Sample.world Sample.db) Sample.server);
    try reflexivity; discriminate.
Defined.

(** ** Keys *)

(** X27.  The keys of the store never collide.  Two keys are spelled the
    same only when they are the same key of the same family; so no instance
    id, user id or node id, however chosen, makes a record key, a list key
    or a node key fall on another family's key or on the fixed keys
    "instances" and "images". *)
Theorem keys_never_collide :
  (forall k1 k2, key_string k1 = key_string k2 <-> k1 = k2)
  /\ (forall id uid, key_string (KInstance id)
                     <> key_string (KUserInstances uid))
  /\ (forall id nodeId, key_string (KInstance id) <> key_string (KNode nodeId))
  /\ (forall id, key_string (KInstance id) <> "instances"
                 /\ key_string (KInstance id) <> "images")
  /\ (forall uid, key_string (KUserInstances uid) <> "instances"
                  /\ key_string (KUserInstances uid) <> "images")
  /\ (forall id1 id2, key_string (KInstance id1) = key_string (KInstance id2)
                      -> id1 = id2).
Proof.
  assert (Hinj : forall k1 k2, key_string k1 = key_string k2 -> k1 = k2)
    by exact key_string_inj.
  split; [intros k1 k2; split; [apply Hinj|intros ->; reflexivity]|].
  repeat split.
  - intros id uid H. apply Hinj in H. discriminate.
  - intros id nodeId H. apply Hinj in H. discriminate.
  - intros H. apply (Hinj (KInstance id) KInstances) in H. discriminate.
  - intros H. apply (Hinj (KInstance id) KImages) in H. discriminate.
  - intros H. apply (Hinj (KUserInstances uid) KInstances) in H.
    discriminate.
  - intros H. apply (Hinj (KUserInstances uid) KImages) in H. discriminate.
  - intros id1 id2 H. apply Hinj in H. congruence.
Qed.

(** ** Languages *)

(** X28.  /setLanguage accepts a language exactly when it is not empty and
    is the name, up to its first dot, of a file in the language directory.
    A language with a dot in it is never accepted, whatever the files are.
    An accepted language is set as cookie and on the user; without a user
    the cookie is set and the handler then fails before it answers.  A
    rejected language sets nothing. *)
Theorem setLanguage_accepts files user lang :
  (App.setLanguage files user lang <> App.LanguageRejected
   <-> lang <> ""
       /\ exists file, In file files
                       /\ default "" (Js.split "." file !! 0%nat) = lang)
  /\ (occurs dot lang = true ->
      App.setLanguage files user lang = App.LanguageRejected)
  /\ (App.setLanguage files user lang <> App.LanguageRejected ->
      App.setLanguage files user lang
      = match user with
        | Some _ => App.LanguageSet lang lang
        | None => App.LanguageCrashed lang
        end).
Proof.
  assert (Hin : existsb (String.eqb lang) (App.getlanguages files) = true
                <-> exists file, In file files
                      /\ default "" (Js.split "." file !! 0%nat) = lang).
  { unfold App.getlanguages. rewrite existsb_exists. split.
    - intros (stem & Hstem & E). apply in_map_iff in Hstem as (file & <- & Hf).
      apply String.eqb_eq in E. eauto.
    - intros (file & Hf & <-). eexists. split.
      + apply in_map_iff. eauto.
      + apply String.eqb_refl. }
  unfold App.setLanguage, Js.truthy_str.
  destruct (String.eqb_spec lang "") as [->|Hne]; simpl.
  - split; [|split]; try congruence.
    split; [congruence|]. intros [H _]. congruence.
  - destruct (existsb (String.eqb lang) (App.getlanguages files)) eqn:E.
    + split; [|split].
      * split; [intros _; split; [exact Hne|apply Hin; reflexivity]|].
        intros _. destruct user; discriminate.
      * intros Hdot. exfalso.
        destruct (proj1 Hin eq_refl) as (file & _ & Hstem).
        destruct (split_head_free dot file) as (seg & segs & Hs & Hfree).
        change "."%char with dot in Hstem. rewrite Hs in Hstem.
        simpl in Hstem. subst seg. congruence.
      * reflexivity.
    + split; [|split]; try congruence.
      split; [congruence|]. intros [_ H]. apply Hin in H. congruence.
Qed.

Example setLanguage_on_a_directory :
  let files := ["en.json"; "de.json"; "pt.BR.json"] in
  App.setLanguage files (Some Sample.alice) "de" = App.LanguageSet "de" "de"
  /\ App.setLanguage files (Some Sample.alice) "pt" = App.LanguageSet "pt" "pt"
  /\ App.setLanguage files (Some Sample.alice) "pt.BR" = App.LanguageRejected
  /\ App.setLanguage files (Some Sample.alice) "fr" = App.LanguageRejected
  /\ App.setLanguage files None "en" = App.LanguageCrashed "en".
Proof. repeat split; reflexivity. Qed.
